(** * Library circulation: books, copies, members, loans, reservations

    A shallow embedding of the models ([models/*.py]) and of the three
    services ([services/gestion_emprunt.py], [services/gestion_reservation.py],
    [services/gestion_livre.py]) of the console library manager, with the
    properties of its borrow / return / renew / reservation workflow.

    Conventions of the embedding.
    - A [datetime] is the number of microseconds since 1 January 1970
      ([Z]); a [timedelta] is a number of microseconds; [timedelta.days] is
      the floor division by one day.
    - [datetime] holds the instants of the years 1 to 9999.  Adding to a date
      a number of days that a caller supplies ([jours] of [renouveler],
      [duree_jours] of [emprunter]) raises [OverflowError] when the sum
      leaves that range.  The clock is taken before the year 2500, so that
      the sums whose day count the program computes itself (the end of a
      suspension, at most three times the age of a due date) stay in range.
    - A service method is a function from the state of the whole system to a
      result and a new state.  An exception is a result [Leve e]; the state
      that comes with it is the state at the moment of the [raise].
    - Every service call happens at one instant [now]: all the readings of
      [datetime.now()] made during one call return that instant.
    - Identifiers come from [utils.generateur.generer_id_unique], which draws
      them at random; the identifier drawn is an argument of the operation.
    - The journal ([services/journal.py]) and the printed messages are not
      part of the state. *)

From Stdlib Require Import ZArith List String Bool Lia.
From stdpp Require Import base option list gmap strings fin_maps.
Import ListNotations.

Open Scope string_scope.
Open Scope Z_scope.

(** ** Dates *)

Module Temps.

Definition MICRO : Z := 1000000.
Definition JOUR : Z := 86400 * MICRO.

(** [timedelta(days=k)] *)
Definition timedelta (k : Z) : Z := k * JOUR.

(** [datetime.min] is 0001-01-01T00:00:00 and [datetime.max] is
    9999-12-31T23:59:59.999999: 719162 days before and 2932896 days after
    1 January 1970.  [timedelta.max.days] is 999999999. *)
Definition MIN : Z := - 719162 * JOUR.
Definition MAX : Z := 2932897 * JOUR - 1.
Definition MAX_JOURS : Z := 999999999.

(** [t + timedelta(days=k)]: [None] stands for the [OverflowError] that
    [timedelta] raises for a number of days it cannot hold and that the sum
    raises for a date that [datetime] cannot hold. *)
Definition plus_jours (t k : Z) : option Z :=
  if (Z.abs k <=? MAX_JOURS) && (MIN <=? t + timedelta k)
     && (t + timedelta k <=? MAX)
  then Some (t + timedelta k)
  else None.

(** [d.days] for a [timedelta] [d]: Python normalises a timedelta so that
    its seconds and microseconds are non-negative, hence the floor. *)
Definition days (d : Z) : Z := d / JOUR.

(** An ISO-8601 text, represented by the instant it denotes at the
    precision it is written with: [YYYY-MM-DDTHH:MM:SS] carries whole
    seconds, [YYYY-MM-DDTHH:MM:SS.ffffff] carries microseconds. *)
Inductive Iso : Type :=
| IsoSecondes (s : Z)
| IsoMicro (t : Z).

(** [t.isoformat()]: the fraction is printed only when it is not zero. *)
Definition isoformat (t : Z) : Iso :=
  if t mod MICRO =? 0 then IsoSecondes (t / MICRO) else IsoMicro t.

(** [t.isoformat(timespec='seconds')]: the fraction is cut off. *)
Definition isoformat_seconds (t : Z) : Iso := IsoSecondes (t / MICRO).

(** [datetime.fromisoformat(s)] *)
Definition fromisoformat (i : Iso) : Z :=
  match i with
  | IsoSecondes s => s * MICRO
  | IsoMicro t => t
  end.

(** The instant has no sub-second part. *)
Definition seconde_entiere (t : Z) : Prop := t mod MICRO = 0.

End Temps.

(** ** Exceptions and results *)

(** The exceptions the services raise.  The services tell most failures apart
    only by the message of a [ValueError]; each message is a constructor. *)
Inductive Exception : Type :=
| UtilisateurIntrouvable   (* ValueError("Utilisateur introuvable") *)
| UtilisateurSuspendu      (* EmpruntError("Utilisateur suspendu") *)
| LimiteAtteinte           (* LimiteAtteinte(...) *)
| LivreIntrouvable         (* ValueError("Livre introuvable") *)
| ExemplaireIndisponible   (* ExemplaireIndisponible(...) *)
| CodeBarreInvalide        (* ValueError("Code-barres invalide ...") *)
| CodeBarreDejaUtilise     (* ValueError("Code-barres déjà utilisé dans le système") *)
| EmpruntNonTrouve         (* EmpruntNonTrouve(...) *)
| LivreDejaDisponible      (* ValueError("Le livre est déjà disponible ...") *)
| ReservationEnCours       (* ValueError("Vous avez déjà une réservation en cours ...") *)
| TransitionInvalide       (* ValueError("Seules les réservations ... peuvent être ...") *)
| MatriculeRequis          (* ValueError("Le matricule utilisateur est requis") *)
| IsbnRequis               (* ValueError("L'ISBN est requis") *)
| DepassementDate.         (* OverflowError("date value out of range") *)

Inductive Resultat (A : Type) : Type :=
| Ok (a : A)
| Leve (e : Exception).
Arguments Ok {A} a.
Arguments Leve {A} e.

Definition a_reussi {A} (r : Resultat A) : bool :=
  match r with Ok _ => true | Leve _ => false end.

(** ** Python containers *)

(** [for x in l: if p x: f x; break] on a list of objects: the first element
    that satisfies [p] is updated in place. *)
Fixpoint maj_premier {A} (p : A -> bool) (f : A -> A) (l : list A) : list A :=
  match l with
  | [] => []
  | x :: l' => if p x then f x :: l' else x :: maj_premier p f l'
  end.

(** [not x] for a value that is an object or [None]. *)
Definition absent {A} (o : option A) : bool :=
  match o with None => true | Some _ => false end.

(** [l.remove(x)] where [x] is the first element that satisfies [p]. *)
Fixpoint retirer_premier {A} (p : A -> bool) (l : list A) : list A :=
  match l with
  | [] => []
  | x :: l' => if p x then l' else x :: retirer_premier p l'
  end.

(** A [dict] with string keys whose iteration order matters: the keys are
    kept in insertion order, and assigning to a key that is present keeps its
    place. *)
Module Dict.

Definition t (V : Type) : Type := list (string * V).

Fixpoint get {V} (k : string) (d : t V) : option V :=
  match d with
  | [] => None
  | (k', v) :: d' => if String.eqb k' k then Some v else get k d'
  end.

Fixpoint set {V} (k : string) (v : V) (d : t V) : t V :=
  match d with
  | [] => [(k, v)]
  | (k', v') :: d' =>
      if String.eqb k' k then (k, v) :: d' else (k', v') :: set k v d'
  end.

Definition values {V} (d : t V) : list V := map snd d.

End Dict.

(** ** models/enums.py *)

Inductive TypeUtilisateur : Type := ETUDIANT | PROFESSEUR | EXTERNE.

Definition limite_emprunt (ty : TypeUtilisateur) : Z :=
  match ty with
  | ETUDIANT => 3
  | PROFESSEUR => 10
  | EXTERNE => 5
  end.

Inductive StatutLivre : Type :=
| DISPONIBLE | EMPRUNTE | RESERVE | PERDU | ENDOMMAGE | INDISPONIBLE.

#[global] Instance StatutLivre_eq_dec : EqDecision StatutLivre.
Proof. solve_decision. Defined.

(** ** models/exemplaire.py *)

Module Exemplaire.

Record t : Type := mk {
  id_exemplaire : string;
  code_barre : string;
  etat : string;
  localisation : string;
  statut : StatutLivre;
  date_acquisition : Z
}.

(** The setter of [statut]; the services pass it a member of the
    enumeration or the text of one. *)
Definition set_statut (s : StatutLivre) (ex : t) : t :=
  mk (id_exemplaire ex) (code_barre ex) (etat ex) (localisation ex) s
     (date_acquisition ex).

Definition est_disponible (ex : t) : bool :=
  bool_decide (statut ex = DISPONIBLE).

End Exemplaire.

(** ** models/livre.py *)

Module Livre.

(** The title, author, publisher, year, category and keywords are
    omitted: no operation below reads or writes them. *)
Record t : Type := mk {
  isbn : string;
  exemplaires : list Exemplaire.t;
  statut : StatutLivre;
  compteur_emprunts : Z
}.

Definition set_exemplaires (exs : list Exemplaire.t) (l : t) : t :=
  mk (isbn l) exs (statut l) (compteur_emprunts l).

Definition set_statut (s : StatutLivre) (l : t) : t :=
  mk (isbn l) (exemplaires l) s (compteur_emprunts l).

Definition nombre_exemplaires (l : t) : nat := length (exemplaires l).

Definition exemplaires_disponibles (l : t) : nat :=
  length (List.filter Exemplaire.est_disponible (exemplaires l)).

Definition mettre_a_jour_statut (l : t) : t :=
  if Nat.eqb (nombre_exemplaires l) 0 then set_statut INDISPONIBLE l
  else if Nat.ltb 0 (exemplaires_disponibles l) then set_statut DISPONIBLE l
  else set_statut EMPRUNTE l.

Definition ajouter_exemplaire (ex : Exemplaire.t) (l : t) : t :=
  mettre_a_jour_statut (set_exemplaires (exemplaires l ++ [ex]) l).

Definition a_code_barre (code_barre : string) (ex : Exemplaire.t) : bool :=
  String.eqb (Exemplaire.code_barre ex) code_barre.

Definition retirer_exemplaire (code_barre : string) (l : t) : bool * t :=
  if existsb (a_code_barre code_barre) (exemplaires l)
  then (true,
        mettre_a_jour_statut
          (set_exemplaires
             (retirer_premier (a_code_barre code_barre) (exemplaires l)) l))
  else (false, l).

Definition incrementer_compteur (l : t) : t :=
  mk (isbn l) (exemplaires l) (statut l) (compteur_emprunts l + 1).

Definition est_disponible (l : t) : bool :=
  Nat.ltb 0 (exemplaires_disponibles l).

Definition prochain_exemplaire (l : t) : option Exemplaire.t :=
  List.find Exemplaire.est_disponible (exemplaires l).

End Livre.

(** ** models/user.py *)

Module User.

Inductive Statut : Type := actif | inactif.

(** An entry of [livres_empruntes]. *)
Record InfoEmprunt : Type := mk_info {
  info_isbn : string;
  info_id_exemplaire : string;
  info_date_emprunt : Z
}.

(** An entry of [historique]: the action and its date. *)
Inductive Entree : Type :=
| ActionEmprunt (isbn id_exemplaire : string) (date_emprunt : Z)
| ActionRetour (isbn id_exemplaire : string) (date_retour : Z).

(** The fields of [Personne] (name, e-mail, telephone) are omitted: no
    operation below reads or writes them. *)
Record t : Type := mk {
  matricule : string;
  type_utilisateur : TypeUtilisateur;
  statut : Statut;
  livres_empruntes : list InfoEmprunt;
  historique : list Entree;
  limite_emprunts : Z
}.

Definition peut_emprunter (u : t) : bool :=
  match statut u with
  | actif => Z.of_nat (length (livres_empruntes u)) <? limite_emprunts u
  | inactif => false
  end.

Definition enregistrer_emprunt (now : Z) (isbn id_exemplaire : string)
    (u : t) : t :=
  mk (matricule u) (type_utilisateur u) (statut u)
     (livres_empruntes u ++ [mk_info isbn id_exemplaire now])
     (historique u ++ [ActionEmprunt isbn id_exemplaire now])
     (limite_emprunts u).

Definition concerne (isbn id_exemplaire : string) (e : InfoEmprunt) : bool :=
  String.eqb (info_isbn e) isbn
  && String.eqb (info_id_exemplaire e) id_exemplaire.

Definition enregistrer_retour (now : Z) (isbn id_exemplaire : string)
    (u : t) : t :=
  mk (matricule u) (type_utilisateur u) (statut u)
     (List.filter (fun e => negb (concerne isbn id_exemplaire e))
        (livres_empruntes u))
     (historique u ++ [ActionRetour isbn id_exemplaire now])
     (limite_emprunts u).


(** [definir_statut]: the two texts it accepts are the two members of
    [Statut]; any other text raises before the field is written. *)
Definition definir_statut (s : Statut) (u : t) : t :=
  mk (matricule u) (type_utilisateur u) s (livres_empruntes u)
     (historique u) (limite_emprunts u).

End User.

(** ** utils/clean.py *)

(** [valider_code_barre]: for a string, [nettoyer_chaine] never returns
    [None], so that the check is the one on the length. *)
Definition valider_code_barre (code_barre : string) : bool :=
  Nat.eqb (String.length code_barre) 5.

(** ** models/emprunt.py *)

Module Emprunt.

Definition DUREE_PAR_DEFAUT : Z := 14.
Definition MAX_RENOUVELLEMENTS : Z := 2.

Record t : Type := mk {
  id_emprunt : string;
  matricule_user : string;
  isbn : string;
  code_barre : string;
  date_emprunt : Z;
  date_echeance : Z;
  date_retour : option Z;
  renouvellements : Z
}.

(** The three values of the property [statut]. *)
Inductive Statut : Type := en_retard | retourne | emprunte.

#[global] Instance Statut_eq_dec : EqDecision Statut.
Proof. solve_decision. Defined.

Definition texte_de_statut (s : Statut) : string :=
  match s with
  | en_retard => "en_retard"
  | retourne => "retourne"
  | emprunte => "emprunte"
  end.

(** [Emprunt(matricule_user, isbn, code_barre, date_emprunt, date_echeance)];
    [id] is the identifier that [generer_id_unique("EMP")] returns.  The
    due date is computed only when none is given. *)
Definition init (id matricule_user isbn code_barre : string)
    (date_emprunt date_echeance : option Z) (now : Z) : Resultat t :=
  if negb (valider_code_barre code_barre) then Leve CodeBarreInvalide
  else
    let d_emprunt := default now date_emprunt in
    match date_echeance with
    | Some d_echeance =>
        Ok (mk id matricule_user isbn code_barre d_emprunt d_echeance None 0)
    | None =>
        match Temps.plus_jours d_emprunt DUREE_PAR_DEFAUT with
        | Some d_echeance =>
            Ok (mk id matricule_user isbn code_barre d_emprunt d_echeance
                  None 0)
        | None => Leve DepassementDate
        end
    end.

Definition statut (now : Z) (e : t) : Statut :=
  match date_retour e with
  | Some retour =>
      if date_echeance e <? retour then en_retard else retourne
  | None =>
      if date_echeance e <? now then en_retard else emprunte
  end.

Definition est_en_retard (now : Z) (e : t) : bool :=
  match date_retour e with
  | None => date_echeance e <? now
  | Some _ => false
  end.

Definition peut_renouveler (now : Z) (e : t) : bool :=
  match date_retour e with
  | Some _ => false
  | None =>
      if est_en_retard now e then false
      else renouvellements e <? MAX_RENOUVELLEMENTS
  end.

(** [renouveler(jours)]: the truth value returned, or the [OverflowError]
    of [self.__date_echeance += timedelta(days=jours)], and the loan after
    the call; the loan is not written when the sum raises. *)
Definition renouveler (now : Z) (jours : Z) (e : t) : Resultat bool * t :=
  if negb (peut_renouveler now e) then (Ok false, e)
  else
    match Temps.plus_jours (date_echeance e) jours with
    | None => (Leve DepassementDate, e)
    | Some echeance =>
        (Ok true,
         mk (id_emprunt e) (matricule_user e) (isbn e) (code_barre e)
            (date_emprunt e) echeance (date_retour e) (renouvellements e + 1))
    end.

(** [retourner(date_retour)] *)
Definition retourner (retour : option Z) (now : Z) (e : t) : t :=
  mk (id_emprunt e) (matricule_user e) (isbn e) (code_barre e)
     (date_emprunt e) (date_echeance e) (Some (default now retour))
     (renouvellements e).

(** The dictionary that [data_format] builds and [from_dict] reads. *)
Record Donnees : Type := mk_donnees {
  d_id_emprunt : string;
  d_matricule_user : string;
  d_isbn : string;
  d_code_barre : string;
  d_date_emprunt : Temps.Iso;
  d_date_echeance : Temps.Iso;
  d_date_retour : option Temps.Iso;
  d_statut : string;
  d_renouvellements : Z
}.

Definition data_format (now : Z) (e : t) : Donnees :=
  mk_donnees (id_emprunt e) (matricule_user e) (isbn e) (code_barre e)
    (Temps.isoformat_seconds (date_emprunt e))
    (Temps.isoformat_seconds (date_echeance e))
    (Temps.isoformat_seconds <$> date_retour e)
    (texte_de_statut (statut now e))
    (renouvellements e).

Definition from_dict (data : Donnees) : Resultat t :=
  if negb (valider_code_barre (d_code_barre data)) then Leve CodeBarreInvalide
  else
    Ok (mk (d_id_emprunt data) (d_matricule_user data) (d_isbn data)
          (d_code_barre data)
          (Temps.fromisoformat (d_date_emprunt data))
          (Temps.fromisoformat (d_date_echeance data))
          (Temps.fromisoformat <$> d_date_retour data)
          (d_renouvellements data)).

End Emprunt.

(** ** models/reservation.py *)

Module Reservation.

(** [STATUTS_VALIDES] *)
Inductive Statut : Type := EN_ATTENTE | NOTIFIE | CONFIRME | ANNULE.

#[global] Instance Statut_eq_dec : EqDecision Statut.
Proof. solve_decision. Defined.

Definition texte_de_statut (s : Statut) : string :=
  match s with
  | EN_ATTENTE => "en_attente"
  | NOTIFIE => "notifie"
  | CONFIRME => "confirme"
  | ANNULE => "annule"
  end.

(** [statut in STATUTS_VALIDES], with the member found. *)
Definition statut_de_texte (s : string) : option Statut :=
  if String.eqb s "en_attente" then Some EN_ATTENTE
  else if String.eqb s "notifie" then Some NOTIFIE
  else if String.eqb s "confirme" then Some CONFIRME
  else if String.eqb s "annule" then Some ANNULE
  else None.

Record t : Type := mk {
  id : string;
  matricule_user : string;
  isbn : string;
  date_reservation : Z;
  statut : Statut
}.

Definition set_statut (s : Statut) (r : t) : t :=
  mk (id r) (matricule_user r) (isbn r) (date_reservation r) s.

(** [Reservation(matricule_user, isbn, date_reservation, statut,
    id_reservation)]; [id_neuf] is what [generer_id_unique("RES")] returns
    when it is called, that is, when no identifier is given. *)
Definition init (matricule_user isbn : string) (date_reservation : option Z)
    (statut : Statut) (id_reservation : option string)
    (id_neuf : string) (now : Z) : Resultat t :=
  if String.eqb matricule_user "" then Leve MatriculeRequis
  else if String.eqb isbn "" then Leve IsbnRequis
  else
    let id :=
      match id_reservation with
      | Some i => if String.eqb i "" then id_neuf else i
      | None => id_neuf
      end in
    Ok (mk id matricule_user isbn (default now date_reservation) statut).

(** The three methods that change the status.  Each returns the outcome
    and the reservation after the call; a [raise] leaves the object as it
    was. *)
Definition notifier (r : t) : Resultat unit * t :=
  if negb (bool_decide (statut r = EN_ATTENTE)) then (Leve TransitionInvalide, r)
  else (Ok tt, set_statut NOTIFIE r).

Definition confirmer (r : t) : Resultat unit * t :=
  if negb (bool_decide (statut r = NOTIFIE)) then (Leve TransitionInvalide, r)
  else (Ok tt, set_statut CONFIRME r).

Definition annuler (r : t) : Resultat unit * t :=
  if bool_decide (statut r = ANNULE) then (Ok tt, r)
  else (Ok tt, set_statut ANNULE r).

Definition est_notifiable (r : t) : bool := bool_decide (statut r = EN_ATTENTE).
Definition est_confirmable (r : t) : bool := bool_decide (statut r = NOTIFIE).

(** The dictionary that [data_format] builds and [from_dict] reads.  The
    date is [None] when the text is absent or cannot be read. *)
Record Donnees : Type := mk_donnees {
  d_id_reservation : string;
  d_matricule_user : string;
  d_isbn : string;
  d_date_reservation : option Temps.Iso;
  d_statut : string
}.

Definition data_format (r : t) : Donnees :=
  mk_donnees (id r) (matricule_user r) (isbn r)
    (Some (Temps.isoformat (date_reservation r)))
    (texte_de_statut (statut r)).

Definition from_dict (data : Donnees) (id_neuf : string) (now : Z)
    : Resultat t :=
  let date := Temps.fromisoformat <$> d_date_reservation data in
  let statut := default EN_ATTENTE (statut_de_texte (d_statut data)) in
  init (d_matricule_user data) (d_isbn data) date statut
    (Some (d_id_reservation data)) id_neuf now.

(** What the constructor guarantees of every reservation, given that a
    generated identifier is never empty. *)
Definition bien_formee (r : t) : Prop :=
  id r <> "" /\ matricule_user r <> "" /\ isbn r <> "".

End Reservation.

(** ** The state of the system *)

(** A line of [data/notifications.txt]. *)
Record Notification : Type := mk_notification {
  notif_date : Z;
  notif_matricule : string;
  notif_isbn : string;
  notif_reservation : string
}.

(** Which optional collaborators are attached: those of [GestionReservation]
    ([_gestion_livre], [_gestion_user]), that of [GestionEmprunt]
    ([_gestion_reservation]) and that of [GestionLivre]
    ([_gestion_reservation]).  The loan service of [GestionReservation] is an
    argument of [GestionReservation.confirmer]. *)
Record Cablage : Type := mk_cablage {
  reservation_gestion_livre : bool;
  reservation_gestion_user : bool;
  emprunt_gestion_reservation : bool;
  livre_gestion_reservation : bool
}.

(** The objects the services hold in memory, and the two files the loan and
    reservation services write.  A file holds what the last [json.dump]
    wrote: the serialised records and the table saved with them. *)
Record Etat : Type := mk_etat {
  livres : list Livre.t;                       (* GestionLivre._livres *)
  utilisateurs : list User.t;                  (* GestionUtilisateur._utilisateurs *)
  emprunts : Dict.t Emprunt.t;                 (* GestionEmprunt.__emprunts *)
  suspensions : gmap string Temps.Iso;         (* GestionEmprunt.__suspensions *)
  reservations : Dict.t Reservation.t;         (* GestionReservation._reservations *)
  files : gmap string (list string);           (* GestionReservation._files *)
  notifications : list Notification;           (* data/notifications.txt *)
  fichier_emprunts :                           (* data/emprunts.json *)
    option (list Emprunt.Donnees * gmap string Temps.Iso);
  fichier_reservations :                       (* data/reservations.json *)
    option (list Reservation.Donnees * gmap string (list string));
  cablage : Cablage
}.

Definition set_livres (x : list Livre.t) (st : Etat) : Etat :=
  mk_etat x (utilisateurs st) (emprunts st) (suspensions st) (reservations st)
    (files st) (notifications st) (fichier_emprunts st)
    (fichier_reservations st) (cablage st).

Definition set_utilisateurs (x : list User.t) (st : Etat) : Etat :=
  mk_etat (livres st) x (emprunts st) (suspensions st) (reservations st)
    (files st) (notifications st) (fichier_emprunts st)
    (fichier_reservations st) (cablage st).

Definition set_emprunts (x : Dict.t Emprunt.t) (st : Etat) : Etat :=
  mk_etat (livres st) (utilisateurs st) x (suspensions st) (reservations st)
    (files st) (notifications st) (fichier_emprunts st)
    (fichier_reservations st) (cablage st).

Definition set_suspensions (x : gmap string Temps.Iso) (st : Etat) : Etat :=
  mk_etat (livres st) (utilisateurs st) (emprunts st) x (reservations st)
    (files st) (notifications st) (fichier_emprunts st)
    (fichier_reservations st) (cablage st).

Definition set_reservations (x : Dict.t Reservation.t) (st : Etat) : Etat :=
  mk_etat (livres st) (utilisateurs st) (emprunts st) (suspensions st) x
    (files st) (notifications st) (fichier_emprunts st)
    (fichier_reservations st) (cablage st).

Definition set_files (x : gmap string (list string)) (st : Etat) : Etat :=
  mk_etat (livres st) (utilisateurs st) (emprunts st) (suspensions st)
    (reservations st) x (notifications st) (fichier_emprunts st)
    (fichier_reservations st) (cablage st).

Definition set_notifications (x : list Notification) (st : Etat) : Etat :=
  mk_etat (livres st) (utilisateurs st) (emprunts st) (suspensions st)
    (reservations st) (files st) x (fichier_emprunts st)
    (fichier_reservations st) (cablage st).

Definition set_fichier_emprunts
    (x : option (list Emprunt.Donnees * gmap string Temps.Iso))
    (st : Etat) : Etat :=
  mk_etat (livres st) (utilisateurs st) (emprunts st) (suspensions st)
    (reservations st) (files st) (notifications st) x
    (fichier_reservations st) (cablage st).

Definition set_fichier_reservations
    (x : option (list Reservation.Donnees * gmap string (list string)))
    (st : Etat) : Etat :=
  mk_etat (livres st) (utilisateurs st) (emprunts st) (suspensions st)
    (reservations st) (files st) (notifications st) (fichier_emprunts st)
    x (cablage st).

(** ** services/gestion_livre.py and services/gestion_user.py *)

Module GestionLivre.

Definition a_isbn (isbn : string) (l : Livre.t) : bool :=
  String.eqb (Livre.isbn l) isbn.

Definition get_livre (isbn : string) (st : Etat) : option Livre.t :=
  List.find (a_isbn isbn) (livres st).

(** A method call on the book that [get_livre] returned: the first book of
    the catalogue with this ISBN is updated in place. *)
Definition sur_livre (isbn : string) (f : Livre.t -> Livre.t) (st : Etat)
    : Etat :=
  set_livres (maj_premier (a_isbn isbn) f (livres st)) st.

Definition retirer_exemplaire (isbn code_barre : string) (st : Etat)
    : bool * Etat :=
  match get_livre isbn st with
  | None => (false, st)
  | Some livre =>
      (fst (Livre.retirer_exemplaire code_barre livre),
       sur_livre isbn (fun l => snd (Livre.retirer_exemplaire code_barre l)) st)
  end.


(** The [ValueError] of [ajouter_livre]: "ISBN déjà existant dans la
    bibliothèque". *)
Inductive Refus : Type := IsbnDejaExistant.

Definition isbn_existe (isbn : string) (st : Etat) : bool :=
  existsb (a_isbn isbn) (livres st).

(** [ajouter_livre]; the file of the catalogue that it writes is not part
    of the state. *)
Definition ajouter_livre (livre : Livre.t) (st : Etat) : option Refus * Etat :=
  if isbn_existe (Livre.isbn livre) st then (Some IsbnDejaExistant, st)
  else (None, set_livres (livres st ++ [livre]) st).

(** [supprimer_livre]: the first book with this ISBN is deleted. *)
Definition supprimer_livre (isbn : string) (st : Etat) : bool * Etat :=
  if existsb (a_isbn isbn) (livres st)
  then (true, set_livres (retirer_premier (a_isbn isbn) (livres st)) st)
  else (false, st).

Definition lister_livres (st : Etat) : list Livre.t := livres st.

End GestionLivre.

Module GestionUtilisateur.

Definition a_matricule (matricule : string) (u : User.t) : bool :=
  String.eqb (User.matricule u) matricule.

Definition get_utilisateur_par_matricule (matricule : string) (st : Etat)
    : option User.t :=
  List.find (a_matricule matricule) (utilisateurs st).

(** A method call on the member that [get_utilisateur_par_matricule]
    returned. *)
Definition sur_utilisateur (matricule : string) (f : User.t -> User.t)
    (st : Etat) : Etat :=
  set_utilisateurs (maj_premier (a_matricule matricule) f (utilisateurs st)) st.


(** [desactiver_utilisateur], [activer_utilisateur] and
    [supprimer_utilisateur]; the file of the members that they write is not
    part of the state. *)
Definition desactiver_utilisateur (matricule : string) (st : Etat)
    : bool * Etat :=
  match get_utilisateur_par_matricule matricule st with
  | None => (false, st)
  | Some _ =>
      (true, sur_utilisateur matricule (User.definir_statut User.inactif) st)
  end.

Definition activer_utilisateur (matricule : string) (st : Etat)
    : bool * Etat :=
  match get_utilisateur_par_matricule matricule st with
  | None => (false, st)
  | Some _ =>
      (true, sur_utilisateur matricule (User.definir_statut User.actif) st)
  end.

Definition supprimer_utilisateur (matricule : string) (st : Etat)
    : bool * Etat :=
  match get_utilisateur_par_matricule matricule st with
  | None => (false, st)
  | Some _ =>
      (true,
       set_utilisateurs
         (retirer_premier (a_matricule matricule) (utilisateurs st)) st)
  end.

End GestionUtilisateur.

(** ** services/gestion_reservation.py *)

Module GestionReservation.

Definition sauvegarder (st : Etat) : Etat :=
  set_fichier_reservations
    (Some (map Reservation.data_format (Dict.values (reservations st)),
           files st)) st.

(** [self._files.setdefault(isbn, []).append(id_reservation)] *)
Definition _ajouter_a_file (isbn id_reservation : string) (st : Etat) : Etat :=
  set_files
    (<[isbn := (default [] (files st !! isbn) ++ [id_reservation])%list]>
       (files st))
    st.

Definition _retirer_de_file (isbn id_reservation : string) (st : Etat) : Etat :=
  match files st !! isbn with
  | Some file =>
      if existsb (String.eqb id_reservation) file
      then set_files
             (<[isbn := retirer_premier (String.eqb id_reservation) file]>
                (files st)) st
      else st
  | None => st
  end.

Definition lister_par_user (matricule_user : string) (st : Etat)
    : list Reservation.t :=
  List.filter
    (fun r => String.eqb (Reservation.matricule_user r) matricule_user)
    (Dict.values (reservations st)).

(** The test of the loop of [reserver]: a reservation of this book that is
    still pending or notified. *)
Definition en_cours_pour (isbn : string) (r : Reservation.t) : bool :=
  String.eqb (Reservation.isbn r) isbn
  && (bool_decide (Reservation.statut r = Reservation.EN_ATTENTE)
      || bool_decide (Reservation.statut r = Reservation.NOTIFIE)).

Definition reserver (now : Z) (id_neuf : string)
    (matricule_user isbn : string) (st : Etat)
    : Resultat Reservation.t * Etat :=
  if reservation_gestion_user (cablage st)
     && absent (GestionUtilisateur.get_utilisateur_par_matricule
                  matricule_user st)
  then (Leve UtilisateurIntrouvable, st)
  else if reservation_gestion_livre (cablage st)
          && absent (GestionLivre.get_livre isbn st)
  then (Leve LivreIntrouvable, st)
  else if reservation_gestion_livre (cablage st)
          && from_option Livre.est_disponible false
               (GestionLivre.get_livre isbn st)
  then (Leve LivreDejaDisponible, st)
  else if existsb (en_cours_pour isbn) (lister_par_user matricule_user st)
  then (Leve ReservationEnCours, st)
  else
    match Reservation.init matricule_user isbn None Reservation.EN_ATTENTE
            None id_neuf now with
    | Leve e => (Leve e, st)
    | Ok r =>
        let st1 :=
          set_reservations
            (Dict.set (Reservation.id r) r (reservations st)) st in
        let st2 := _ajouter_a_file isbn (Reservation.id r) st1 in
        (Ok r, sauvegarder st2)
    end.

Definition annuler (id_reservation : string) (st : Etat) : bool * Etat :=
  match Dict.get id_reservation (reservations st) with
  | None => (false, st)
  | Some r =>
      let r' := snd (Reservation.annuler r) in
      let st1 :=
        set_reservations (Dict.set id_reservation r' (reservations st)) st in
      let st2 := _retirer_de_file (Reservation.isbn r') id_reservation st1 in
      (true, sauvegarder st2)
  end.

(** The test of the cleaning loop of [traiter_file]. *)
Definition encore_en_attente (st : Etat) (rid : string) : bool :=
  match Dict.get rid (reservations st) with
  | Some r => bool_decide (Reservation.statut r = Reservation.EN_ATTENTE)
  | None => false
  end.

Definition traiter_file (now : Z) (isbn : string) (st : Etat)
    : option string * Etat :=
  if negb (reservation_gestion_livre (cablage st)) then (None, st)
  else
    match GestionLivre.get_livre isbn st with
    | None => (None, st)
    | Some livre =>
        if negb (Livre.est_disponible livre) then (None, st)
        else
          let file_propre :=
            List.filter (encore_en_attente st)
              (default [] (files st !! isbn)) in
          let st1 := set_files (<[isbn := file_propre]> (files st)) st in
          match file_propre with
          | [] => (None, st1)
          | first_id :: _ =>
              match Dict.get first_id (reservations st1) with
              | None => (None, st1)
              | Some r =>
                  match Reservation.notifier r with
                  | (Leve _, _) => (None, st1)
                  | (Ok _, r') =>
                      let st2 :=
                        set_reservations
                          (Dict.set first_id r' (reservations st1)) st1 in
                      let st3 :=
                        set_notifications
                          (notifications st2 ++
                             [mk_notification now
                                (Reservation.matricule_user r')
                                (Reservation.isbn r')
                                (Reservation.id r')])%list
                          st2 in
                      (Some (Reservation.id r'), sauvegarder st3)
                  end
              end
          end
    end.

Definition lister_file_pour_isbn (isbn : string) (st : Etat)
    : list Reservation.t :=
  omap (fun i =>
          match Dict.get i (reservations st) with
          | Some r =>
              if bool_decide (Reservation.statut r = Reservation.EN_ATTENTE)
              then Some r else None
          | None => None
          end)
       (default [] (files st !! isbn)).


Definition get_reservation (id_reservation : string) (st : Etat)
    : option Reservation.t :=
  Dict.get id_reservation (reservations st).

(** The loop of [__charger] on the records of the file: a record that
    [from_dict] refuses is skipped.  [id_neuf k] is the identifier that the
    record of rank [k] draws if it needs one. *)
Fixpoint charger_reservations (id_neuf : nat -> string) (now : Z) (k : nat)
    (donnees : list Reservation.Donnees) (table : Dict.t Reservation.t)
    : Dict.t Reservation.t :=
  match donnees with
  | [] => table
  | d :: donnees' =>
      let table' :=
        match Reservation.from_dict d (id_neuf k) now with
        | Ok r => Dict.set (Reservation.id r) r table
        | Leve _ => table
        end in
      charger_reservations id_neuf now (S k) donnees' table'
  end.

(** [__charger]: nothing is read when the file does not exist. *)
Definition charger (id_neuf : nat -> string) (now : Z) (st : Etat) : Etat :=
  match fichier_reservations st with
  | None => st
  | Some (donnees, queues) =>
      set_files queues
        (set_reservations
           (charger_reservations id_neuf now 0 donnees (reservations st)) st)
  end.

Definition recharger (id_neuf : nat -> string) (now : Z) (st : Etat) : Etat :=
  charger id_neuf now (set_files ∅ (set_reservations [] st)).

End GestionReservation.

(** ** services/gestion_emprunt.py *)

Module GestionEmprunt.

Definition FACTEUR_SUSPENSION : Z := 3.

(** The test of [__nettoyer_suspensions]: the suspension ends after [now]. *)
Definition en_vigueur (now : Z) (entree : string * Temps.Iso) : Prop :=
  now < Temps.fromisoformat entree.2.

#[global] Instance en_vigueur_dec now entree : Decision (en_vigueur now entree).
Proof. unfold en_vigueur. apply _. Defined.

Definition nettoyer_suspensions (now : Z) (st : Etat) : Etat :=
  set_suspensions (filter (en_vigueur now) (suspensions st)) st.

Definition sauvegarder (now : Z) (st : Etat) : Etat :=
  let st1 := nettoyer_suspensions now st in
  set_fichier_emprunts
    (Some (map (Emprunt.data_format now) (Dict.values (emprunts st1)),
           suspensions st1)) st1.

(** [__is_suspended]: the text of the end of the suspension when the
    member is suspended.  The table only holds texts written by
    [isoformat], so that the branch for a text that cannot be read is
    never taken. *)
Definition is_suspended (now : Z) (matricule : string) (st : Etat)
    : option Temps.Iso * Etat :=
  match suspensions st !! matricule with
  | None => (None, st)
  | Some iso =>
      if now <? Temps.fromisoformat iso then (Some iso, st)
      else (None,
            sauvegarder now
              (set_suspensions (delete matricule (suspensions st)) st))
  end.

(** The test of the loop of [__trouver_exemplaire]: the bar code when one
    is given (an empty text counts as none), the first available copy
    otherwise. *)
Definition critere (code_barre : option string) : Exemplaire.t -> bool :=
  match code_barre with
  | Some cb =>
      if String.eqb cb "" then Exemplaire.est_disponible
      else Livre.a_code_barre cb
  | None => Exemplaire.est_disponible
  end.

Definition trouver_exemplaire (livre : Livre.t) (code_barre : option string)
    : option Exemplaire.t :=
  List.find (critere code_barre) (Livre.exemplaires livre).

(** The updates of [emprunter] on the book: the copy found is lent, the
    counter goes up, the status is computed again. *)
Definition preter (code_barre : option string) (livre : Livre.t) : Livre.t :=
  Livre.mettre_a_jour_statut
    (Livre.incrementer_compteur
       (Livre.set_exemplaires
          (maj_premier (critere code_barre)
             (Exemplaire.set_statut EMPRUNTE) (Livre.exemplaires livre))
          livre)).

(** [emprunter]: the due date [now + timedelta(days=duree_jours)] is an
    argument of the constructor of the loan, so that its [OverflowError]
    comes before the check of the bar code; every [raise] comes before the
    first write. *)
Definition emprunter (now : Z) (id_neuf : string) (matricule isbn : string)
    (code_barre : option string) (duree_jours : Z) (st : Etat)
    : Resultat Emprunt.t * Etat :=
  match GestionUtilisateur.get_utilisateur_par_matricule matricule st with
  | None => (Leve UtilisateurIntrouvable, st)
  | Some user =>
      let (suspendu, st1) := is_suspended now matricule st in
      if negb (absent suspendu) then (Leve UtilisateurSuspendu, st1)
      else if negb (User.peut_emprunter user) then (Leve LimiteAtteinte, st1)
      else
        match GestionLivre.get_livre isbn st1 with
        | None => (Leve LivreIntrouvable, st1)
        | Some livre =>
            match trouver_exemplaire livre code_barre with
            | None => (Leve ExemplaireIndisponible, st1)
            | Some exemplaire =>
                if negb (Exemplaire.est_disponible exemplaire)
                then (Leve ExemplaireIndisponible, st1)
                else
                  match Temps.plus_jours now duree_jours with
                  | None => (Leve DepassementDate, st1)
                  | Some echeance =>
                      match Emprunt.init id_neuf matricule isbn
                              (Exemplaire.code_barre exemplaire) (Some now)
                              (Some echeance) now with
                      | Leve e => (Leve e, st1)
                      | Ok emprunt =>
                          let st2 :=
                            GestionLivre.sur_livre isbn (preter code_barre)
                              st1 in
                          let st3 :=
                            GestionUtilisateur.sur_utilisateur matricule
                              (User.enregistrer_emprunt now isbn
                                 (Exemplaire.code_barre exemplaire)) st2 in
                          let st4 :=
                            set_emprunts
                              (Dict.set (Emprunt.id_emprunt emprunt) emprunt
                                 (emprunts st3)) st3 in
                          (Ok emprunt, sauvegarder now st4)
                      end
                  end
            end
        end
  end.

(** The updates of [retourner] on the book: the first copy with the bar
    code of the loan is available again, the status is computed again. *)
Definition reprendre (code_barre : string) (livre : Livre.t) : Livre.t :=
  Livre.mettre_a_jour_statut
    (Livre.set_exemplaires
       (maj_premier (Livre.a_code_barre code_barre)
          (Exemplaire.set_statut DISPONIBLE) (Livre.exemplaires livre))
       livre).

(** The number of days of suspension after a late return. *)
Definition jours_suspension_retour (emprunt : Emprunt.t) (retour : Z) : Z :=
  let jours_retard := Temps.days (retour - Emprunt.date_echeance emprunt) in
  let jours_retard := if jours_retard <=? 0 then 1 else jours_retard in
  jours_retard * FACTEUR_SUSPENSION.

Definition retourner (now : Z) (id_emprunt : string) (st : Etat)
    : Resultat Emprunt.t * Etat :=
  match Dict.get id_emprunt (emprunts st) with
  | None => (Leve EmpruntNonTrouve, st)
  | Some emprunt0 =>
      match Emprunt.date_retour emprunt0 with
      | Some _ => (Ok emprunt0, st)
      | None =>
          let emprunt := Emprunt.retourner None now emprunt0 in
          let st1 :=
            set_emprunts (Dict.set id_emprunt emprunt (emprunts st)) st in
          let st2 :=
            GestionLivre.sur_livre (Emprunt.isbn emprunt)
              (reprendre (Emprunt.code_barre emprunt)) st1 in
          let st3 :=
            GestionUtilisateur.sur_utilisateur (Emprunt.matricule_user emprunt)
              (User.enregistrer_retour now (Emprunt.isbn emprunt)
                 (Emprunt.code_barre emprunt)) st2 in
          let st4 :=
            if bool_decide (Emprunt.statut now emprunt = Emprunt.en_retard)
            then
              set_suspensions
                (<[Emprunt.matricule_user emprunt :=
                     Temps.isoformat
                       (now + Temps.timedelta
                                (jours_suspension_retour emprunt now))]>
                   (suspensions st3)) st3
            else st3 in
          let st5 :=
            if emprunt_gestion_reservation (cablage st4)
            then snd (GestionReservation.traiter_file now
                        (Emprunt.isbn emprunt) st4)
            else st4 in
          (Ok emprunt, sauvegarder now st5)
      end
  end.

(** [renouveler]: the table is saved only when the loan answers [True];
    the [OverflowError] of the loan is not caught. *)
Definition renouveler (now : Z) (id_emprunt : string) (jours : Z) (st : Etat)
    : Resultat bool * Etat :=
  match Dict.get id_emprunt (emprunts st) with
  | None => (Leve EmpruntNonTrouve, st)
  | Some emprunt =>
      match Emprunt.renouveler now jours emprunt with
      | (Leve e, _) => (Leve e, st)
      | (Ok true, emprunt') =>
          (Ok true,
           sauvegarder now
             (set_emprunts (Dict.set id_emprunt emprunt' (emprunts st)) st))
      | (Ok false, _) => (Ok false, st)
      end
  end.

Definition lister_en_cours (st : Etat) : list Emprunt.t :=
  List.filter (fun e => absent (Emprunt.date_retour e))
    (Dict.values (emprunts st)).

Definition lister_en_retard (now : Z) (st : Etat) : list Emprunt.t :=
  List.filter (fun e => Emprunt.date_echeance e <? now) (lister_en_cours st).

(** The body of the loop of [appliquer_penalites] on the table. *)
Definition penaliser (now : Z) (table : gmap string Temps.Iso)
    (emprunt : Emprunt.t) : gmap string Temps.Iso :=
  if Emprunt.date_echeance emprunt <? now then
    let jours_retard := Temps.days (now - Emprunt.date_echeance emprunt) in
    if 0 <? jours_retard then
      <[Emprunt.matricule_user emprunt :=
          Temps.isoformat
            (now + Temps.timedelta (jours_retard * FACTEUR_SUSPENSION))]>
        table
    else table
  else table.

Definition appliquer_penalites (now : Z) (st : Etat) : Etat :=
  sauvegarder now
    (set_suspensions
       (fold_left (penaliser now) (lister_en_cours st) (suspensions st)) st).

Definition lister_suspensions (now : Z) (st : Etat)
    : gmap string Temps.Iso * Etat :=
  let st1 := nettoyer_suspensions now st in (suspensions st1, st1).


Definition get_emprunt (id_emprunt : string) (st : Etat) : option Emprunt.t :=
  Dict.get id_emprunt (emprunts st).

Definition lister_tous (st : Etat) : list Emprunt.t :=
  Dict.values (emprunts st).

(** The loop of [__charger] on the records of the file: a record that
    [from_dict] refuses is skipped. *)
Definition charger_emprunts (donnees : list Emprunt.Donnees)
    (table : Dict.t Emprunt.t) : Dict.t Emprunt.t :=
  fold_left
    (fun table d =>
       match Emprunt.from_dict d with
       | Ok emprunt => Dict.set (Emprunt.id_emprunt emprunt) emprunt table
       | Leve _ => table
       end)
    donnees table.

(** [__charger]: nothing is read when the file does not exist; the
    suspensions of the file replace the table and are pruned. *)
Definition charger (now : Z) (st : Etat) : Etat :=
  match fichier_emprunts st with
  | None => st
  | Some (donnees, table) =>
      nettoyer_suspensions now
        (set_suspensions table
           (set_emprunts (charger_emprunts donnees (emprunts st)) st))
  end.

Definition recharger (now : Z) (st : Etat) : Etat :=
  charger now (set_suspensions ∅ (set_emprunts [] st)).

End GestionEmprunt.

(** ** services/statistiques.py *)

Module Statistiques.

(** The dictionary of [etat_inventaire]. *)
Record Inventaire : Type := mk_inventaire {
  disponible : Z;
  emprunte : Z;
  reserve : Z;
  perdu : Z;
  endommage : Z;
  total : Z
}.

(** The body of the inner loop: the total goes up, and so does the entry of
    the status when the dictionary has one. *)
Definition compter (c : Inventaire) (ex : Exemplaire.t) : Inventaire :=
  let c := mk_inventaire (disponible c) (emprunte c) (reserve c) (perdu c)
             (endommage c) (total c + 1) in
  match Exemplaire.statut ex with
  | DISPONIBLE =>
      mk_inventaire (disponible c + 1) (emprunte c) (reserve c) (perdu c)
        (endommage c) (total c)
  | EMPRUNTE =>
      mk_inventaire (disponible c) (emprunte c + 1) (reserve c) (perdu c)
        (endommage c) (total c)
  | RESERVE =>
      mk_inventaire (disponible c) (emprunte c) (reserve c + 1) (perdu c)
        (endommage c) (total c)
  | PERDU =>
      mk_inventaire (disponible c) (emprunte c) (reserve c) (perdu c + 1)
        (endommage c) (total c)
  | ENDOMMAGE =>
      mk_inventaire (disponible c) (emprunte c) (reserve c) (perdu c)
        (endommage c + 1) (total c)
  | INDISPONIBLE => c
  end.

Definition etat_inventaire (st : Etat) : Inventaire :=
  fold_left
    (fun c livre => fold_left compter (Livre.exemplaires livre) c)
    (GestionLivre.lister_livres st)
    (mk_inventaire 0 0 0 0 0 0).

Definition total_emprunts (st : Etat) : nat :=
  length (GestionEmprunt.lister_tous st).

Definition livres_jamais_empruntes (st : Etat) : list Livre.t :=
  let isbns_empruntes := map Emprunt.isbn (GestionEmprunt.lister_tous st) in
  List.filter
    (fun livre => negb (existsb (String.eqb (Livre.isbn livre)) isbns_empruntes))
    (GestionLivre.lister_livres st).

End Statistiques.

(** ** The methods that call a service attached after construction *)

(** [main.py] builds the services one after the other and then sets
    [gestion_livre._gestion_reservation] and
    [gestion_reservation._gestion_emprunt]; the two methods that call through
    these references come after the services they call. *)

(** What [GestionReservation] asks of its loan service: the call
    [emprunter(matricule, isbn)], at an instant and with the identifier that
    the new loan draws. *)
Definition ServiceEmprunt : Type :=
  Z -> string -> string -> string -> Etat -> Resultat Emprunt.t * Etat.

(** [GestionReservation.confirmer].  [r] is a reference: after the call of
    the loan service its fields are those the state holds then. *)
Definition GestionReservation_confirmer
    (gestion_emprunt : option ServiceEmprunt) (now : Z)
    (id_neuf : string) (id_reservation : string) (st : Etat) : bool * Etat :=
  match Dict.get id_reservation (reservations st) with
  | None => (false, st)
  | Some r =>
      if negb (Reservation.est_confirmable r) then (false, st)
      else
        let termine (r : Reservation.t) (st : Etat) : bool * Etat :=
          match Reservation.confirmer r with
          | (Leve _, _) => (false, st)
          | (Ok _, r') =>
              let st1 :=
                set_reservations
                  (Dict.set id_reservation r' (reservations st)) st in
              let st2 :=
                GestionReservation._retirer_de_file (Reservation.isbn r')
                  id_reservation st1 in
              (true, GestionReservation.sauvegarder st2)
          end in
        match gestion_emprunt with
        | Some emprunter =>
            match emprunter now id_neuf (Reservation.matricule_user r)
                    (Reservation.isbn r) st with
            | (Ok _, st1) =>
                termine (default r (Dict.get id_reservation (reservations st1)))
                  st1
            | (Leve _, st1) => (false, st1)
            end
        | None => termine r st
        end
  end.

Section Catalogue.

(** [code_barre.strip().lower()], the form in which [code_barre_existe]
    compares two bar codes. *)
Variable normaliser : string -> string.

Definition GestionLivre_code_barre_existe (code_barre : string) (st : Etat)
    : bool :=
  if String.eqb code_barre "" then false
  else
    existsb
      (fun livre =>
         existsb
           (fun ex =>
              String.eqb (normaliser (Exemplaire.code_barre ex))
                (normaliser code_barre))
           (Livre.exemplaires livre))
      (livres st).

(** [GestionLivre.ajouter_exemplaire]; the file of the catalogue that it
    writes is not part of the state. *)
Definition GestionLivre_ajouter_exemplaire (now : Z) (isbn : string)
    (exemplaire : Exemplaire.t) (st : Etat) : Resultat unit * Etat :=
  match GestionLivre.get_livre isbn st with
  | None => (Leve LivreIntrouvable, st)
  | Some _ =>
      if GestionLivre_code_barre_existe (Exemplaire.code_barre exemplaire) st
      then (Leve CodeBarreDejaUtilise, st)
      else
        let st1 :=
          GestionLivre.sur_livre isbn (Livre.ajouter_exemplaire exemplaire) st in
        let st2 :=
          if livre_gestion_reservation (cablage st1)
          then snd (GestionReservation.traiter_file now isbn st1)
          else st1 in
        (Ok tt, st2)
  end.

End Catalogue.

(** ** main.py: the services attached to one another *)

Module Bibliotheque.

(** [gestion_emprunt.emprunter(r.matricule_user, r.isbn)]: no bar code,
    fourteen days. *)
Definition service_emprunt : ServiceEmprunt :=
  fun now id_neuf matricule isbn =>
    GestionEmprunt.emprunter now id_neuf matricule isbn None 14.

Definition confirmer : Z -> string -> string -> Etat -> bool * Etat :=
  GestionReservation_confirmer (Some service_emprunt).

Definition cablage_complet : Cablage := mk_cablage true true true true.

End Bibliotheque.

(** * Vocabulary of the properties *)

(** The status says what the copies are: [INDISPONIBLE] exactly when there
    is no copy, [DISPONIBLE] exactly when some copy is available, [EMPRUNTE]
    exactly when there are copies and none is available. *)
Definition statut_coherent (l : Livre.t) : Prop :=
  (Livre.statut l = INDISPONIBLE <-> Livre.exemplaires l = []) /\
  (Livre.statut l = DISPONIBLE <->
     exists ex, In ex (Livre.exemplaires l) /\ Exemplaire.statut ex = DISPONIBLE) /\
  (Livre.statut l = EMPRUNTE <->
     Livre.exemplaires l <> [] /\
     forall ex, In ex (Livre.exemplaires l) -> Exemplaire.statut ex <> DISPONIBLE).

(** [apres] is [avant] without some of the entries whose end is not after
    [now]. *)
Definition elaguee (now : Z) (avant apres : gmap string Temps.Iso) : Prop :=
  forall k : string,
    apres !! k = avant !! k \/
    (apres !! k = None /\
     exists iso, avant !! k = Some iso /\ Temps.fromisoformat iso <= now).

(** What a refused loan leaves of the state in memory: everything but the
    suspension table, which may have lost entries that had run out. *)
Definition inchange_sauf_elagage (now : Z) (st st' : Etat) : Prop :=
  livres st' = livres st /\ utilisateurs st' = utilisateurs st /\
  emprunts st' = emprunts st /\ reservations st' = reservations st /\
  files st' = files st /\ notifications st' = notifications st /\
  fichier_reservations st' = fichier_reservations st /\
  cablage st' = cablage st /\
  elaguee now (suspensions st) (suspensions st').

(** The three methods of a reservation that write its status. *)
Inductive Methode : Type := m_notifier | m_confirmer | m_annuler.

Definition appliquer (m : Methode) (r : Reservation.t)
    : Resultat unit * Reservation.t :=
  match m with
  | m_notifier => Reservation.notifier r
  | m_confirmer => Reservation.confirmer r
  | m_annuler => Reservation.annuler r
  end.

(** The changes of status that the methods make. *)
Definition transitions : list (Reservation.Statut * Reservation.Statut) :=
  [ (Reservation.EN_ATTENTE, Reservation.NOTIFIE);
    (Reservation.NOTIFIE, Reservation.CONFIRME);
    (Reservation.EN_ATTENTE, Reservation.ANNULE);
    (Reservation.NOTIFIE, Reservation.ANNULE);
    (Reservation.CONFIRME, Reservation.ANNULE) ].

(** The two cases in which cutting the dates of a loan to the second
    changes its status at the instant [now]: the loan came back after its
    due date and within the same second; the loan is still out and [now] is
    within the second of its due date, not after the due date. *)
Definition statut_perdu (now : Z) (e : Emprunt.t) : Prop :=
  match Emprunt.date_retour e with
  | Some retour =>
      Emprunt.date_echeance e < retour /\
      retour / Temps.MICRO = Emprunt.date_echeance e / Temps.MICRO
  | None =>
      Emprunt.date_echeance e / Temps.MICRO * Temps.MICRO < now /\
      now <= Emprunt.date_echeance e
  end.

(** ** Invariants of the tables *)

(** No member holds more loans than the limit of their category. *)
Definition limites_respectees (st : Etat) : Prop :=
  forall u : User.t,
    In u (utilisateurs st) ->
    Z.of_nat (length (User.livres_empruntes u)) <= User.limite_emprunts u.

(** The ISBNs of the catalogue are pairwise distinct. *)
Definition isbn_uniques (st : Etat) : Prop :=
  NoDup (map Livre.isbn (livres st)).

(** The bar codes of all the copies of the catalogue, book after book, in
    the form in which [code_barre_existe] compares them. *)
Definition codes_barres (normaliser : string -> string) (st : Etat)
    : list string :=
  flat_map
    (fun livre =>
       map (fun ex => normaliser (Exemplaire.code_barre ex))
         (Livre.exemplaires livre))
    (livres st).

(** Two states of one loan: who borrowed which copy, and when, is the
    same. *)
Definition meme_pret (e e' : Emprunt.t) : Prop :=
  Emprunt.id_emprunt e' = Emprunt.id_emprunt e /\
  Emprunt.matricule_user e' = Emprunt.matricule_user e /\
  Emprunt.isbn e' = Emprunt.isbn e /\
  Emprunt.code_barre e' = Emprunt.code_barre e /\
  Emprunt.date_emprunt e' = Emprunt.date_emprunt e.

(** Every loan of the table [avant] is still in the table [apres], under
    the same key, as the same loan. *)
Definition prets_conserves (avant apres : Dict.t Emprunt.t) : Prop :=
  forall (id : string) (e : Emprunt.t),
    Dict.get id avant = Some e ->
    exists e' : Emprunt.t, Dict.get id apres = Some e' /\ meme_pret e e'.

(** Two states of one reservation: nothing but the status differs, and the
    status has not moved or has made one of the [transitions]. *)
Definition evolue (r r' : Reservation.t) : Prop :=
  r' = r \/
  (r' = Reservation.set_statut (Reservation.statut r') r /\
   In (Reservation.statut r, Reservation.statut r') transitions).

(** Every reservation of the table [avant] is still in the table [apres],
    under the same key, and has evolved. *)
Definition reservations_conservees (avant apres : Dict.t Reservation.t)
    : Prop :=
  forall (id : string) (r : Reservation.t),
    Dict.get id avant = Some r ->
    exists r' : Reservation.t, Dict.get id apres = Some r' /\ evolue r r'.

(** The renewal counter of every loan is between 0 and the maximum. *)
Definition compteurs_bornes (st : Etat) : Prop :=
  forall e : Emprunt.t,
    In e (Dict.values (emprunts st)) ->
    0 <= Emprunt.renouvellements e <= Emprunt.MAX_RENOUVELLEMENTS.

(** A table as the services build it: each loan sits under its own
    identifier, no identifier comes twice, every bar code is valid. *)
Definition table_reguliere (table : Dict.t Emprunt.t) : Prop :=
  NoDup (map fst table) /\
  forall (id : string) (e : Emprunt.t),
    In (id, e) table ->
    Emprunt.id_emprunt e = id /\
    valider_code_barre (Emprunt.code_barre e) = true.

(** The same for the reservations: own identifier, no identifier twice,
    nothing empty. *)
Definition reservations_regulieres (table : Dict.t Reservation.t) : Prop :=
  NoDup (map fst table) /\
  forall (id : string) (r : Reservation.t),
    In (id, r) table -> Reservation.id r = id /\ Reservation.bien_formee r.

(** The first identifier of a queue whose reservation is still pending. *)
Definition premier_en_attente (st : Etat) (isbn : string) : option string :=
  List.find (GestionReservation.encore_en_attente st)
    (default [] (files st !! isbn)).

(** The state after [traiter_file] has notified the reservation [r] kept
    under [id]. *)
Definition apres_notification (now : Z) (isbn id : string)
    (r : Reservation.t) (st : Etat) : Etat :=
  let r' := Reservation.set_statut Reservation.NOTIFIE r in
  GestionReservation.sauvegarder
    (set_notifications
       (notifications st ++
          [mk_notification now (Reservation.matricule_user r')
             (Reservation.isbn r') (Reservation.id r')])%list
       (set_reservations (Dict.set id r' (reservations st))
          (set_files
             (<[isbn := List.filter (GestionReservation.encore_en_attente st)
                          (default [] (files st !! isbn))]> (files st))
             st))).

(** The copies of the whole catalogue, book after book. *)
Definition exemplaires_du_catalogue (st : Etat) : list Exemplaire.t :=
  flat_map Livre.exemplaires (livres st).

(** The number of copies of a list, and of the catalogue, that have the
    status [s]. *)
Definition nombre_parmi (s : StatutLivre) (exs : list Exemplaire.t) : Z :=
  Z.of_nat
    (length (List.filter (fun ex => bool_decide (Exemplaire.statut ex = s)) exs)).

Definition nombre_de_statut (s : StatutLivre) (st : Etat) : Z :=
  nombre_parmi s (exemplaires_du_catalogue st).

(** Two states of one member: the same matricule, and a history that has
    only grown. *)
Definition historique_prolonge (u u' : User.t) : Prop :=
  User.matricule u' = User.matricule u /\
  exists suite : list User.Entree,
    User.historique u' = (User.historique u ++ suite)%list.

(** The matricules of the members are pairwise distinct. *)
Definition matricules_uniques (st : Etat) : Prop :=
  NoDup (map User.matricule (utilisateurs st)).

(** A loan as its record keeps it: the three dates cut to the second. *)
Definition a_la_seconde (e : Emprunt.t) : Emprunt.t :=
  let couper t := Temps.fromisoformat (Temps.isoformat_seconds t) in
  Emprunt.mk (Emprunt.id_emprunt e) (Emprunt.matricule_user e)
    (Emprunt.isbn e) (Emprunt.code_barre e)
    (couper (Emprunt.date_emprunt e)) (couper (Emprunt.date_echeance e))
    (couper <$> Emprunt.date_retour e) (Emprunt.renouvellements e).

(** At most one reservation of the table has changed, and it has
    evolved. *)
Definition une_evolution (avant apres : Dict.t Reservation.t) : Prop :=
  apres = avant \/
  exists (id : string) (r r' : Reservation.t),
    Dict.get id avant = Some r /\ evolue r r' /\
    apres = Dict.set id r' avant.

(** ** A small library *)

Module Exemple.

(** An instant, and the same instant some days or hours later. *)
Definition T0 : Z := 20000 * Temps.JOUR.
Definition jours (k : Z) : Z := k * Temps.JOUR.
Definition heures (k : Z) : Z := k * 3600 * Temps.MICRO.

Definition copie : Exemplaire.t :=
  Exemplaire.mk "EX-AAAAAAAA" "00001" "bon" "stock" DISPONIBLE T0.

Definition livre : Livre.t := Livre.mk "9780306406157" [copie] DISPONIBLE 0.

Definition membre : User.t := User.mk "U-MMMMMMMM" ETUDIANT User.actif [] [] 3.

Definition autre : User.t := User.mk "U-NNNNNNNN" PROFESSEUR User.actif [] [] 10.

(** One book with one available copy, two members, nothing else. *)
Definition deux_membres : Etat :=
  mk_etat [livre] [membre; autre] [] ∅ [] ∅ [] None None
    Bibliotheque.cablage_complet.

(** One book with one available copy, one member, nothing else. *)
Definition ouverture : Etat :=
  mk_etat [livre] [membre] [] ∅ [] ∅ [] None None Bibliotheque.cablage_complet.

(** The member borrows the book at [T0] for fourteen days. *)
Definition apres_emprunt : Etat :=
  snd (GestionEmprunt.emprunter T0 "EMP-00000001" "U-MMMMMMMM"
         "9780306406157" None 14 ouverture).

Definition reservation_notifiee : Reservation.t :=
  Reservation.mk "RES-00000001" "U-MMMMMMMM" "9780306406157" T0
    Reservation.NOTIFIE.

(** The copy is available, the member has been told so, and the member
    is suspended for thirty days from [T0]. *)
Definition notifie_et_suspendu : Etat :=
  mk_etat [livre] [membre] []
    {[ "U-MMMMMMMM" := Temps.isoformat (T0 + jours 30) ]}
    [("RES-00000001", reservation_notifiee)]
    {[ "9780306406157" := ["RES-00000001"] ]}
    [] None None Bibliotheque.cablage_complet.

Definition reservation_confirmee : Reservation.t :=
  Reservation.mk "RES-00000001" "U-MMMMMMMM" "9780306406157" T0
    Reservation.CONFIRME.

(** The reservation has been confirmed and taken out of its queue. *)
Definition apres_confirmation : Etat :=
  mk_etat [livre] [membre] [] ∅
    [("RES-00000001", reservation_confirmee)]
    {[ "9780306406157" := [] ]}
    [] None None Bibliotheque.cablage_complet.

Definition reservation (id matricule : string) (statut : Reservation.Statut)
    : Reservation.t :=
  Reservation.mk id matricule "9780306406157" T0 statut.

(** The copy is available; of the three reservations of the queue the
    first one has been cancelled and the other two are pending. *)
Definition trois_reservations : Etat :=
  mk_etat [livre] [membre; autre] [] ∅
    [("RES-00000001", reservation "RES-00000001" "U-MMMMMMMM" Reservation.ANNULE);
     ("RES-00000002", reservation "RES-00000002" "U-NNNNNNNN" Reservation.EN_ATTENTE);
     ("RES-00000003", reservation "RES-00000003" "U-MMMMMMMM" Reservation.EN_ATTENTE)]
    {[ "9780306406157" := ["RES-00000001"; "RES-00000002"; "RES-00000003"] ]}
    [] None None Bibliotheque.cablage_complet.

(** The copy is out, lent to the first member at [T0], and the second
    member waits for it. *)
Definition pret_et_attente : Etat :=
  snd (GestionReservation.reserver (T0 + jours 1) "RES-00000001" "U-NNNNNNNN"
         "9780306406157"
         (snd (GestionEmprunt.emprunter T0 "EMP-00000001" "U-MMMMMMMM"
                 "9780306406157" None 14 deux_membres))).

End Exemple.

(** * Properties *)

(** ** Dates and containers *)

Lemma fromisoformat_isoformat (t : Z) :
  Temps.fromisoformat (Temps.isoformat t) = t.
Proof.
  unfold Temps.isoformat.
  destruct (t mod Temps.MICRO =? 0) eqn:E; simpl; [|reflexivity].
  apply Z.eqb_eq in E.
  pose proof (Z_div_mod_eq_full t Temps.MICRO) as H. lia.
Qed.

Lemma fromisoformat_isoformat_seconds (t : Z) :
  Temps.seconde_entiere t ->
  Temps.fromisoformat (Temps.isoformat_seconds t) = t.
Proof.
  unfold Temps.seconde_entiere, Temps.isoformat_seconds. simpl. intros E.
  pose proof (Z_div_mod_eq_full t Temps.MICRO) as H. lia.
Qed.

Lemma JOUR_positif : 0 < Temps.JOUR.
Proof. reflexivity. Qed.

Lemma days_positif (d : Z) : 0 < Temps.days d <-> Temps.JOUR <= d.
Proof.
  unfold Temps.days. pose proof JOUR_positif as HJ. split; intros H.
  - destruct (Z_lt_le_dec d Temps.JOUR) as [Hlt|Hle]; [|exact Hle].
    exfalso.
    destruct (Z_lt_le_dec d 0) as [Hneg|Hpos].
    + assert (d / Temps.JOUR < 0) by (apply Z.div_lt_upper_bound; lia). lia.
    + rewrite Z.div_small in H by lia. lia.
  - apply Z.div_str_pos. lia.
Qed.

Lemma plus_jours_spec (t k d : Z) :
  Temps.plus_jours t k = Some d <->
  d = t + Temps.timedelta k /\ Z.abs k <= Temps.MAX_JOURS /\
  Temps.MIN <= d <= Temps.MAX.
Proof.
  unfold Temps.plus_jours.
  destruct (Z.leb_spec (Z.abs k) Temps.MAX_JOURS);
    destruct (Z.leb_spec Temps.MIN (t + Temps.timedelta k));
    destruct (Z.leb_spec (t + Temps.timedelta k) Temps.MAX); simpl;
    (split; [intros [= <-]; lia | intros (-> & ? & ?); first [reflexivity | lia]]).
Qed.

Lemma find_maj_premier {A} (p : A -> bool) (f : A -> A) (l : list A) :
  (forall x, p x = true -> p (f x) = true) ->
  List.find p (maj_premier p f l) = f <$> List.find p l.
Proof.
  intros Hf. induction l as [|x l IH]; simpl; [reflexivity|].
  destruct (p x) eqn:Hx; simpl.
  - rewrite (Hf x Hx). reflexivity.
  - rewrite Hx. exact IH.
Qed.

Lemma dict_get_set_eq {V} (k : string) (v : V) (d : Dict.t V) :
  Dict.get k (Dict.set k v d) = Some v.
Proof.
  induction d as [|[k' v'] d IH]; simpl.
  - rewrite String.eqb_refl. reflexivity.
  - destruct (String.eqb k' k) eqn:E; simpl.
    + rewrite String.eqb_refl. reflexivity.
    + rewrite E. exact IH.
Qed.

Lemma dict_get_set_ne {V} (k k' : string) (v : V) (d : Dict.t V) :
  k <> k' -> Dict.get k' (Dict.set k v d) = Dict.get k' d.
Proof.
  intros Hne. induction d as [|[k0 v0] d IH]; simpl.
  - destruct (String.eqb k k') eqn:E; [|reflexivity].
    apply String.eqb_eq in E. contradiction.
  - destruct (String.eqb k0 k) eqn:E; simpl.
    + apply String.eqb_eq in E. subst k0.
      destruct (String.eqb k k') eqn:E'; [|reflexivity].
      apply String.eqb_eq in E'. contradiction.
    + destruct (String.eqb k0 k'); [reflexivity | exact IH].
Qed.

(** ** The status of a book *)

Lemma exemplaires_disponibles_positif (l : Livre.t) :
  Nat.ltb 0 (Livre.exemplaires_disponibles l) = true <->
  exists ex, In ex (Livre.exemplaires l) /\ Exemplaire.statut ex = DISPONIBLE.
Proof.
  unfold Livre.exemplaires_disponibles. rewrite Nat.ltb_lt.
  induction (Livre.exemplaires l) as [|x xs IH]; simpl.
  - split; [lia | intros [ex [[] _]]].
  - unfold Exemplaire.est_disponible at 1.
    destruct (bool_decide (Exemplaire.statut x = DISPONIBLE)) eqn:E; simpl.
    + apply bool_decide_eq_true in E. split; [|lia].
      intros _. exists x. auto.
    + apply bool_decide_eq_false in E. rewrite IH. split.
      * intros [ex [Hin Hs]]. exists ex. auto.
      * intros [ex [[Heq|Hin] Hs]]; [subst; contradiction | exists ex; auto].
Qed.

Lemma mettre_a_jour_statut_coherent (l : Livre.t) :
  statut_coherent (Livre.mettre_a_jour_statut l).
Proof.
  unfold statut_coherent, Livre.mettre_a_jour_statut, Livre.nombre_exemplaires.
  pose proof (exemplaires_disponibles_positif l) as Hd.
  destruct (Livre.exemplaires l) as [|x xs] eqn:Hex; simpl.
  - rewrite Hex. repeat split; try discriminate; try congruence.
    + intros [ex [[] _]].
    + intros [H _]. congruence.
  - destruct (Nat.ltb 0 (Livre.exemplaires_disponibles l)) eqn:Hlt; simpl;
      rewrite Hex.
    + destruct Hd as [Hd _]. specialize (Hd eq_refl).
      repeat split; try discriminate; try congruence.
      intros [_ Hnone]. destruct Hd as [ex [Hin Hs]].
      exfalso. exact (Hnone ex Hin Hs).
    + repeat split; try discriminate; try congruence.
      * intros Hsome. apply Hd in Hsome. discriminate.
      * intros ex Hin Hs.
        assert (false = true) by (apply Hd; exists ex; auto). discriminate.
Qed.

Lemma retirer_exemplaire_coherent (code_barre : string) (l l' : Livre.t) :
  Livre.retirer_exemplaire code_barre l = (true, l') -> statut_coherent l'.
Proof.
  unfold Livre.retirer_exemplaire.
  destruct (existsb _ _); [|discriminate].
  intros H. injection H as <-. apply mettre_a_jour_statut_coherent.
Qed.

Lemma mettre_a_jour_statut_isbn (l : Livre.t) :
  Livre.isbn (Livre.mettre_a_jour_statut l) = Livre.isbn l.
Proof.
  unfold Livre.mettre_a_jour_statut.
  destruct (Nat.eqb _ _); [reflexivity|].
  destruct (Nat.ltb _ _); reflexivity.
Qed.

Lemma preter_isbn (cb : option string) (l : Livre.t) :
  Livre.isbn (GestionEmprunt.preter cb l) = Livre.isbn l.
Proof. unfold GestionEmprunt.preter. rewrite mettre_a_jour_statut_isbn. reflexivity. Qed.

Lemma reprendre_isbn (cb : string) (l : Livre.t) :
  Livre.isbn (GestionEmprunt.reprendre cb l) = Livre.isbn l.
Proof. unfold GestionEmprunt.reprendre. rewrite mettre_a_jour_statut_isbn. reflexivity. Qed.

Lemma get_livre_sur_livre (isbn : string) (f : Livre.t -> Livre.t) (st : Etat) :
  (forall l, Livre.isbn (f l) = Livre.isbn l) ->
  GestionLivre.get_livre isbn (GestionLivre.sur_livre isbn f st)
  = f <$> GestionLivre.get_livre isbn st.
Proof.
  intros Hf. unfold GestionLivre.get_livre, GestionLivre.sur_livre. simpl.
  apply find_maj_premier. intros x Hx.
  unfold GestionLivre.a_isbn in *. rewrite Hf. exact Hx.
Qed.

(** ** What the auxiliary steps leave alone *)

Lemma traiter_file_preserve (now : Z) (isbn : string) (st : Etat) :
  let st' := snd (GestionReservation.traiter_file now isbn st) in
  livres st' = livres st /\ utilisateurs st' = utilisateurs st /\
  emprunts st' = emprunts st /\ suspensions st' = suspensions st /\
  fichier_emprunts st' = fichier_emprunts st /\ cablage st' = cablage st.
Proof.
  unfold GestionReservation.traiter_file.
  destruct (negb (reservation_gestion_livre (cablage st))); [simpl; tauto|].
  destruct (GestionLivre.get_livre isbn st) as [livre|]; [|simpl; tauto].
  destruct (negb (Livre.est_disponible livre)); [simpl; tauto|].
  destruct (List.filter _ _) as [|first_id file]; [simpl; tauto|].
  destruct (Dict.get first_id _) as [r|]; [|simpl; tauto].
  destruct (Reservation.notifier r) as [[u|e] r']; simpl; tauto.
Qed.

(** ** Pruning of the suspension table *)

Lemma elaguee_refl (now : Z) (s : gmap string Temps.Iso) : elaguee now s s.
Proof. intros k. left. reflexivity. Qed.

Lemma lookup_nettoyees (now : Z) (s : gmap string Temps.Iso) (k : string) :
  filter (GestionEmprunt.en_vigueur now) s !! k =
  match s !! k with
  | Some iso => if now <? Temps.fromisoformat iso then Some iso else None
  | None => None
  end.
Proof.
  destruct (s !! k) as [iso|] eqn:Hk.
  - destruct (now <? Temps.fromisoformat iso) eqn:Hlt.
    + apply map_lookup_filter_Some. split; [exact Hk|].
      unfold GestionEmprunt.en_vigueur. simpl. lia.
    + apply map_lookup_filter_None. right. intros x Hx.
      unfold GestionEmprunt.en_vigueur. simpl.
      rewrite Hk in Hx. injection Hx as <-. lia.
  - apply map_lookup_filter_None. left. exact Hk.
Qed.

Lemma is_suspended_preserve (now : Z) (matricule : string) (st : Etat) :
  let st' := snd (GestionEmprunt.is_suspended now matricule st) in
  livres st' = livres st /\ utilisateurs st' = utilisateurs st /\
  emprunts st' = emprunts st /\ reservations st' = reservations st /\
  files st' = files st /\ notifications st' = notifications st /\
  fichier_reservations st' = fichier_reservations st /\
  cablage st' = cablage st /\
  elaguee now (suspensions st) (suspensions st').
Proof.
  unfold GestionEmprunt.is_suspended.
  destruct (suspensions st !! matricule) as [iso|] eqn:Hm;
    [|simpl; repeat split; apply elaguee_refl].
  destruct (now <? Temps.fromisoformat iso) eqn:Hlt;
    [simpl; repeat split; apply elaguee_refl|].
  simpl. repeat split. intros k. rewrite lookup_nettoyees.
  destruct (decide (k = matricule)) as [->|Hne].
  - rewrite lookup_delete_eq. right. split; [reflexivity|].
    exists iso. split; [exact Hm | lia].
  - rewrite lookup_delete_ne by congruence.
    destruct (suspensions st !! k) as [iso'|]; [|left; reflexivity].
    destruct (now <? Temps.fromisoformat iso') eqn:Hlt'; [left; reflexivity|].
    right. split; [reflexivity|]. exists iso'. split; [reflexivity | lia].
Qed.

Lemma is_suspended_en_vigueur (now : Z) (matricule : string) (st : Etat)
    (iso : Temps.Iso) :
  suspensions st !! matricule = Some iso ->
  now < Temps.fromisoformat iso ->
  GestionEmprunt.is_suspended now matricule st = (Some iso, st).
Proof.
  intros Hm Hlt. unfold GestionEmprunt.is_suspended. rewrite Hm.
  destruct (now <? Temps.fromisoformat iso) eqn:E; [reflexivity | lia].
Qed.

(** ** A loan that is refused *)

(** A branch of [emprunter] that raises: the state returned is the one at
    hand. *)
Ltac branche_refusee H Hetat := injection H as _ <-; exact Hetat.

Lemma emprunter_refuse (now : Z) (id_neuf matricule isbn : string)
    (code_barre : option string) (duree_jours : Z) (st st' : Etat)
    (e : Exception) :
  GestionEmprunt.emprunter now id_neuf matricule isbn code_barre duree_jours st
  = (Leve e, st') ->
  inchange_sauf_elagage now st st'.
Proof.
  unfold GestionEmprunt.emprunter. intros H.
  assert (Hst : inchange_sauf_elagage now st st)
    by (unfold inchange_sauf_elagage; repeat split; apply elaguee_refl).
  destruct (GestionUtilisateur.get_utilisateur_par_matricule matricule st)
    as [user|]; [|branche_refusee H Hst].
  pose proof (is_suspended_preserve now matricule st) as Hsusp.
  destruct (GestionEmprunt.is_suspended now matricule st) as [suspendu st1].
  simpl in Hsusp. fold (inchange_sauf_elagage now st st1) in Hsusp.
  destruct (negb (absent suspendu)); [branche_refusee H Hsusp|].
  destruct (negb (User.peut_emprunter user)); [branche_refusee H Hsusp|].
  destruct (GestionLivre.get_livre isbn st1) as [livre|];
    [|branche_refusee H Hsusp].
  destruct (GestionEmprunt.trouver_exemplaire livre code_barre) as [ex|];
    [|branche_refusee H Hsusp].
  destruct (negb (Exemplaire.est_disponible ex));
    [branche_refusee H Hsusp|].
  destruct (Temps.plus_jours now duree_jours) as [echeance|];
    [|branche_refusee H Hsusp].
  destruct (Emprunt.init _ _ _ _ _ _ _) as [emprunt|e'];
    [discriminate | branche_refusee H Hsusp].
Qed.

(** ** A loan that is granted *)

Lemma emprunter_accorde (now : Z) (id_neuf matricule isbn : string)
    (code_barre : option string) (duree_jours : Z) (st st' : Etat)
    (emprunt : Emprunt.t) :
  GestionEmprunt.emprunter now id_neuf matricule isbn code_barre duree_jours st
  = (Ok emprunt, st') ->
  exists (st1 : Etat) (livre : Livre.t) (exemplaire : Exemplaire.t),
    inchange_sauf_elagage now st st1 /\
    GestionLivre.get_livre isbn st1 = Some livre /\
    GestionEmprunt.trouver_exemplaire livre code_barre = Some exemplaire /\
    Exemplaire.statut exemplaire = DISPONIBLE /\
    Emprunt.init id_neuf matricule isbn (Exemplaire.code_barre exemplaire)
      (Some now) (Some (now + Temps.timedelta duree_jours)) now = Ok emprunt /\
    st' =
      GestionEmprunt.sauvegarder now
        (set_emprunts
           (Dict.set (Emprunt.id_emprunt emprunt) emprunt (emprunts st1))
           (GestionUtilisateur.sur_utilisateur matricule
              (User.enregistrer_emprunt now isbn
                 (Exemplaire.code_barre exemplaire))
              (GestionLivre.sur_livre isbn
                 (GestionEmprunt.preter code_barre) st1))).
Proof.
  unfold GestionEmprunt.emprunter. intros H.
  destruct (GestionUtilisateur.get_utilisateur_par_matricule matricule st)
    as [user|]; [|discriminate].
  pose proof (is_suspended_preserve now matricule st) as Hsusp.
  destruct (GestionEmprunt.is_suspended now matricule st) as [suspendu st1].
  simpl in Hsusp. fold (inchange_sauf_elagage now st st1) in Hsusp.
  destruct (negb (absent suspendu)); [discriminate|].
  destruct (negb (User.peut_emprunter user)); [discriminate|].
  destruct (GestionLivre.get_livre isbn st1) as [livre|] eqn:Hl; [|discriminate].
  destruct (GestionEmprunt.trouver_exemplaire livre code_barre) as [ex|] eqn:Hex;
    [|discriminate].
  destruct (negb (Exemplaire.est_disponible ex)) eqn:Hd; [discriminate|].
  destruct (Temps.plus_jours now duree_jours) as [echeance|] eqn:Hj;
    [|discriminate].
  apply plus_jours_spec in Hj. destruct Hj as (-> & _).
  destruct (Emprunt.init _ _ _ _ _ _ _) as [emprunt'|e'] eqn:Hi; [|discriminate].
  injection H as -> <-.
  exists st1, livre, ex. repeat split; try assumption; try apply Hsusp.
  apply negb_false_iff in Hd. unfold Exemplaire.est_disponible in Hd.
  apply bool_decide_eq_true in Hd. exact Hd.
Qed.

Lemma emprunter_livre_apres (now : Z) (id_neuf matricule isbn : string)
    (code_barre : option string) (duree_jours : Z) (st st' : Etat)
    (emprunt : Emprunt.t) :
  GestionEmprunt.emprunter now id_neuf matricule isbn code_barre duree_jours st
  = (Ok emprunt, st') ->
  exists livre : Livre.t,
    GestionLivre.get_livre isbn st = Some livre /\
    GestionLivre.get_livre isbn st'
    = Some (GestionEmprunt.preter code_barre livre).
Proof.
  intros H. apply emprunter_accorde in H.
  destruct H as (st1 & livre & ex & Hinch & Hl & _ & _ & _ & ->).
  exists livre. split.
  - unfold GestionLivre.get_livre in *.
    destruct Hinch as (Hlv & _). rewrite <- Hlv. exact Hl.
  - change (GestionLivre.get_livre isbn
              (GestionLivre.sur_livre isbn (GestionEmprunt.preter code_barre) st1)
            = Some (GestionEmprunt.preter code_barre livre)).
    rewrite get_livre_sur_livre by apply preter_isbn.
    rewrite Hl. reflexivity.
Qed.

(** ** A return *)

(** The state after the return of a loan that was still out. *)
Lemma retourner_en_cours (now : Z) (id_emprunt : string) (st : Etat)
    (emprunt0 : Emprunt.t) :
  Dict.get id_emprunt (emprunts st) = Some emprunt0 ->
  Emprunt.date_retour emprunt0 = None ->
  exists st' : Etat,
    GestionEmprunt.retourner now id_emprunt st
    = (Ok (Emprunt.retourner None now emprunt0), st') /\
    livres st'
    = maj_premier (GestionLivre.a_isbn (Emprunt.isbn emprunt0))
        (GestionEmprunt.reprendre (Emprunt.code_barre emprunt0)) (livres st) /\
    utilisateurs st'
    = maj_premier
        (GestionUtilisateur.a_matricule (Emprunt.matricule_user emprunt0))
        (User.enregistrer_retour now (Emprunt.isbn emprunt0)
           (Emprunt.code_barre emprunt0)) (utilisateurs st) /\
    emprunts st'
    = Dict.set id_emprunt (Emprunt.retourner None now emprunt0) (emprunts st) /\
    suspensions st'
    = filter (GestionEmprunt.en_vigueur now)
        (if Emprunt.date_echeance emprunt0 <? now
         then <[Emprunt.matricule_user emprunt0 :=
                  Temps.isoformat
                    (now + Temps.timedelta
                             (GestionEmprunt.jours_suspension_retour
                                emprunt0 now))]> (suspensions st)
         else suspensions st) /\
    cablage st' = cablage st.
Proof.
  intros Hget Hret. unfold GestionEmprunt.retourner. rewrite Hget, Hret.
  eexists. split; [reflexivity|].
  set (emprunt := Emprunt.retourner None now emprunt0).
  assert (Hstatut :
    bool_decide (Emprunt.statut now emprunt = Emprunt.en_retard)
    = (Emprunt.date_echeance emprunt0 <? now)).
  { unfold Emprunt.statut, emprunt. simpl.
    destruct (Emprunt.date_echeance emprunt0 <? now); reflexivity. }
  rewrite Hstatut.
  match goal with
  | |- context [GestionEmprunt.sauvegarder now ?s] => set (st5 := s)
  end.
  assert (H5 :
    livres st5
    = maj_premier (GestionLivre.a_isbn (Emprunt.isbn emprunt0))
        (GestionEmprunt.reprendre (Emprunt.code_barre emprunt0)) (livres st) /\
    utilisateurs st5
    = maj_premier
        (GestionUtilisateur.a_matricule (Emprunt.matricule_user emprunt0))
        (User.enregistrer_retour now (Emprunt.isbn emprunt0)
           (Emprunt.code_barre emprunt0)) (utilisateurs st) /\
    emprunts st5 = Dict.set id_emprunt emprunt (emprunts st) /\
    suspensions st5
    = (if Emprunt.date_echeance emprunt0 <? now
       then <[Emprunt.matricule_user emprunt0 :=
                Temps.isoformat
                  (now + Temps.timedelta
                           (GestionEmprunt.jours_suspension_retour
                              emprunt0 now))]> (suspensions st)
       else suspensions st) /\
    cablage st5 = cablage st).
  { subst st5.
    match goal with
    | |- context [if emprunt_gestion_reservation (cablage ?s) then _ else _] =>
        set (st4 := s)
    end.
    assert (H4 : livres st4
      = maj_premier (GestionLivre.a_isbn (Emprunt.isbn emprunt0))
          (GestionEmprunt.reprendre (Emprunt.code_barre emprunt0)) (livres st) /\
      utilisateurs st4
      = maj_premier
          (GestionUtilisateur.a_matricule (Emprunt.matricule_user emprunt0))
          (User.enregistrer_retour now (Emprunt.isbn emprunt0)
             (Emprunt.code_barre emprunt0)) (utilisateurs st) /\
      emprunts st4 = Dict.set id_emprunt emprunt (emprunts st) /\
      suspensions st4
      = (if Emprunt.date_echeance emprunt0 <? now
         then <[Emprunt.matricule_user emprunt0 :=
                  Temps.isoformat
                    (now + Temps.timedelta
                             (GestionEmprunt.jours_suspension_retour
                                emprunt0 now))]> (suspensions st)
         else suspensions st) /\
      cablage st4 = cablage st).
    { subst st4. destruct (Emprunt.date_echeance emprunt0 <? now);
        simpl; repeat split; reflexivity. }
    destruct (emprunt_gestion_reservation (cablage st4)); [|exact H4].
    pose proof (traiter_file_preserve now (Emprunt.isbn emprunt) st4) as Ht.
    cbv zeta in Ht. destruct Ht as (-> & -> & -> & -> & _ & ->). exact H4. }
  simpl. destruct H5 as (-> & -> & -> & -> & ->). repeat split; reflexivity.
Qed.

Lemma emprunter_suspendu (now : Z) (id_neuf matricule isbn : string)
    (code_barre : option string) (duree_jours : Z) (st : Etat)
    (iso : Temps.Iso) :
  is_Some (GestionUtilisateur.get_utilisateur_par_matricule matricule st) ->
  suspensions st !! matricule = Some iso ->
  now < Temps.fromisoformat iso ->
  GestionEmprunt.emprunter now id_neuf matricule isbn code_barre duree_jours st
  = (Leve UtilisateurSuspendu, st).
Proof.
  intros [user Hu] Hs Hlt. unfold GestionEmprunt.emprunter.
  rewrite Hu, (is_suspended_en_vigueur now matricule st iso Hs Hlt).
  reflexivity.
Qed.

Lemma jours_suspension_retour_max (e : Emprunt.t) (retour : Z) :
  GestionEmprunt.jours_suspension_retour e retour
  = 3 * Z.max 1 (Temps.days (retour - Emprunt.date_echeance e)).
Proof.
  unfold GestionEmprunt.jours_suspension_retour,
    GestionEmprunt.FACTEUR_SUSPENSION.
  destruct (Temps.days (retour - Emprunt.date_echeance e) <=? 0) eqn:E; lia.
Qed.

Lemma get_utilisateur_maj (matricule : string) (f : User.t -> User.t)
    (us : list User.t) :
  (forall u, User.matricule (f u) = User.matricule u) ->
  List.find (GestionUtilisateur.a_matricule matricule)
    (maj_premier (GestionUtilisateur.a_matricule matricule) f us)
  = f <$> List.find (GestionUtilisateur.a_matricule matricule) us.
Proof.
  intros Hf. apply find_maj_premier. intros x Hx.
  unfold GestionUtilisateur.a_matricule in *. rewrite Hf. exact Hx.
Qed.

(** ** Renewals *)

Lemma peut_renouveler_spec (now : Z) (e : Emprunt.t) :
  Emprunt.peut_renouveler now e = true <->
  Emprunt.date_retour e = None /\ ~ Emprunt.date_echeance e < now /\
  Emprunt.renouvellements e < Emprunt.MAX_RENOUVELLEMENTS.
Proof.
  unfold Emprunt.peut_renouveler, Emprunt.est_en_retard.
  destruct (Emprunt.date_retour e) as [retour|].
  - split; [discriminate | intros [H _]; discriminate].
  - destruct (Emprunt.date_echeance e <? now) eqn:E.
    + split; [discriminate | intros (_ & H & _); lia].
    + rewrite Z.ltb_lt. split.
      * intros H. repeat split; [lia | exact H].
      * intros (_ & _ & H). exact H.
Qed.

Lemma renouveler_service (now : Z) (id_emprunt : string) (jours : Z)
    (st : Etat) (e : Emprunt.t) :
  Dict.get id_emprunt (emprunts st) = Some e ->
  GestionEmprunt.renouveler now id_emprunt jours st =
  if Emprunt.peut_renouveler now e
  then
    match Temps.plus_jours (Emprunt.date_echeance e) jours with
    | Some _ =>
        (Ok true,
         GestionEmprunt.sauvegarder now
           (set_emprunts
              (Dict.set id_emprunt
                 (Emprunt.mk (Emprunt.id_emprunt e) (Emprunt.matricule_user e)
                    (Emprunt.isbn e) (Emprunt.code_barre e)
                    (Emprunt.date_emprunt e)
                    (Emprunt.date_echeance e + Temps.timedelta jours)
                    (Emprunt.date_retour e) (Emprunt.renouvellements e + 1))
                 (emprunts st)) st))
    | None => (Leve DepassementDate, st)
    end
  else (Ok false, st).
Proof.
  intros Hget. unfold GestionEmprunt.renouveler, Emprunt.renouveler.
  rewrite Hget. destruct (Emprunt.peut_renouveler now e); [|reflexivity].
  cbn [negb].
  destruct (Temps.plus_jours (Emprunt.date_echeance e) jours) as [d|] eqn:Hd;
    [|reflexivity].
  apply plus_jours_spec in Hd. destruct Hd as (-> & _). reflexivity.
Qed.

(** ** Reserving a book *)

Lemma est_disponible_spec (l : Livre.t) :
  Livre.est_disponible l = true <->
  exists ex, In ex (Livre.exemplaires l) /\ Exemplaire.statut ex = DISPONIBLE.
Proof. apply exemplaires_disponibles_positif. Qed.

(** ** Writing a record and reading it back *)

Lemma statut_de_texte_de_statut (s : Reservation.Statut) :
  Reservation.statut_de_texte (Reservation.texte_de_statut s) = Some s.
Proof. destruct s; reflexivity. Qed.

Lemma from_dict_data_format (now : Z) (e : Emprunt.t) :
  valider_code_barre (Emprunt.code_barre e) = true ->
  Emprunt.from_dict (Emprunt.data_format now e)
  = Ok (Emprunt.mk (Emprunt.id_emprunt e) (Emprunt.matricule_user e)
          (Emprunt.isbn e) (Emprunt.code_barre e)
          (Temps.fromisoformat (Temps.isoformat_seconds (Emprunt.date_emprunt e)))
          (Temps.fromisoformat (Temps.isoformat_seconds (Emprunt.date_echeance e)))
          (Temps.fromisoformat <$>
             (Temps.isoformat_seconds <$> Emprunt.date_retour e))
          (Emprunt.renouvellements e)).
Proof.
  intros Hcb. unfold Emprunt.from_dict, Emprunt.data_format.
  cbn [Emprunt.d_code_barre]. rewrite Hcb. reflexivity.
Qed.

(** ** Penalties *)

Lemma penaliser_spec (now : Z) (table : gmap string Temps.Iso) (e : Emprunt.t) :
  GestionEmprunt.penaliser now table e =
  if Emprunt.date_echeance e + Temps.JOUR <=? now
  then <[Emprunt.matricule_user e :=
           Temps.isoformat
             (now + Temps.timedelta
                      (3 * Temps.days (now - Emprunt.date_echeance e)))]> table
  else table.
Proof.
  unfold GestionEmprunt.penaliser, GestionEmprunt.FACTEUR_SUSPENSION.
  pose proof (days_positif (now - Emprunt.date_echeance e)) as Hd.
  pose proof JOUR_positif as HJ.
  destruct (Emprunt.date_echeance e + Temps.JOUR <=? now) eqn:E.
  - destruct (Emprunt.date_echeance e <? now) eqn:E1; [|lia].
    destruct (0 <? Temps.days (now - Emprunt.date_echeance e)) eqn:E2; [|lia].
    rewrite (Z.mul_comm 3). reflexivity.
  - destruct (Emprunt.date_echeance e <? now) eqn:E1; [|reflexivity].
    destruct (0 <? Temps.days (now - Emprunt.date_echeance e)) eqn:E2;
      [lia | reflexivity].
Qed.

Lemma penaliser_les_autres (now : Z) (m : string) (l : list Emprunt.t) :
  forall table : gmap string Temps.Iso,
    (forall e, In e l -> Emprunt.matricule_user e = m ->
               ~ Emprunt.date_echeance e + Temps.JOUR <= now) ->
    fold_left (GestionEmprunt.penaliser now) l table !! m = table !! m.
Proof.
  induction l as [|e l IH]; intros table H; simpl; [reflexivity|].
  rewrite IH by (intros e' He'; apply H; right; exact He').
  rewrite penaliser_spec.
  destruct (Emprunt.date_echeance e + Temps.JOUR <=? now) eqn:E;
    [|reflexivity].
  destruct (decide (Emprunt.matricule_user e = m)) as [Hm|Hm].
  - exfalso. apply (H e (or_introl eq_refl) Hm). lia.
  - apply lookup_insert_ne. exact Hm.
Qed.

(** ** Two sessions *)

(** A member borrows the only copy, cannot borrow it twice, and brings it
    back in time: the book is available again and nobody is suspended. *)
Example session_emprunt_retour :
  let m := "U-MMMMMMMM" in
  let isbn := "9780306406157" in
  let st1 := Exemple.apres_emprunt in
  let r2 := GestionEmprunt.emprunter (Exemple.T0 + Exemple.jours 1)
              "EMP-00000002" m isbn None 14 st1 in
  let r3 := GestionEmprunt.retourner (Exemple.T0 + Exemple.jours 5)
              "EMP-00000001" (snd r2) in
  map Livre.statut (livres st1) = [EMPRUNTE] /\
  r2 = (Leve ExemplaireIndisponible, st1) /\
  a_reussi (fst r3) = true /\
  map Livre.statut (livres (snd r3)) = [DISPONIBLE] /\
  map User.livres_empruntes (utilisateurs (snd r3)) = [[]] /\
  suspensions (snd r3) = ∅.
Proof. vm_compute. repeat split; reflexivity. Qed.

(** While the copy is out another member reserves the book; the return
    notifies that member, whose confirmation makes the loan. *)
Example session_reservation :
  let m := "U-MMMMMMMM" in
  let n := "U-NNNNNNNN" in
  let isbn := "9780306406157" in
  let st1 := snd (GestionEmprunt.emprunter Exemple.T0 "EMP-00000001" m isbn
                    None 14 Exemple.deux_membres) in
  let r2 := GestionReservation.reserver (Exemple.T0 + Exemple.jours 1)
              "RES-00000001" n isbn st1 in
  let r3 := GestionEmprunt.retourner (Exemple.T0 + Exemple.jours 5)
              "EMP-00000001" (snd r2) in
  let r4 := Bibliotheque.confirmer (Exemple.T0 + Exemple.jours 6)
              "EMP-00000002" "RES-00000001" (snd r3) in
  a_reussi (fst r2) = true /\
  Reservation.statut <$> Dict.get "RES-00000001" (reservations (snd r3))
  = Some Reservation.NOTIFIE /\
  map notif_matricule (notifications (snd r3)) = [n] /\
  fst r4 = true /\
  Reservation.statut <$> Dict.get "RES-00000001" (reservations (snd r4))
  = Some Reservation.CONFIRME /\
  files (snd r4) !! isbn = Some [] /\
  map fst (emprunts (snd r4)) = ["EMP-00000001"; "EMP-00000002"] /\
  map Livre.statut (livres (snd r4)) = [EMPRUNTE].
Proof. vm_compute. repeat split; reflexivity. Qed.

(** * The properties of the specification *)

(** ** C1: The status of a book follows its copies *)

(** C1. After each operation that touches the copies of a book (a copy is
    added or removed, by the method of the book or through the catalogue; a
    copy is lent; a copy comes back) the status of the book is
    [INDISPONIBLE] iff it has no copy, [DISPONIBLE] iff one of its copies is
    available, and [EMPRUNTE] otherwise. *)
Theorem C1_statut_du_livre_coherent :
  (forall (ex : Exemplaire.t) (l : Livre.t),
      statut_coherent (Livre.ajouter_exemplaire ex l)) /\
  (forall (code_barre : string) (l l' : Livre.t),
      Livre.retirer_exemplaire code_barre l = (true, l') ->
      statut_coherent l') /\
  (forall (normaliser : string -> string) (now : Z) (isbn : string)
          (ex : Exemplaire.t) (st st' : Etat),
      GestionLivre_ajouter_exemplaire normaliser now isbn ex st = (Ok tt, st') ->
      exists l' : Livre.t,
        GestionLivre.get_livre isbn st' = Some l' /\ statut_coherent l') /\
  (forall (isbn code_barre : string) (st st' : Etat),
      GestionLivre.retirer_exemplaire isbn code_barre st = (true, st') ->
      exists l' : Livre.t,
        GestionLivre.get_livre isbn st' = Some l' /\ statut_coherent l') /\
  (forall (now : Z) (id_neuf matricule isbn : string)
          (code_barre : option string) (duree_jours : Z) (st st' : Etat)
          (emprunt : Emprunt.t),
      GestionEmprunt.emprunter now id_neuf matricule isbn code_barre
        duree_jours st = (Ok emprunt, st') ->
      exists l' : Livre.t,
        GestionLivre.get_livre isbn st' = Some l' /\ statut_coherent l') /\
  (forall (now : Z) (id_emprunt : string) (st st' : Etat)
          (emprunt0 emprunt : Emprunt.t) (l : Livre.t),
      Dict.get id_emprunt (emprunts st) = Some emprunt0 ->
      Emprunt.date_retour emprunt0 = None ->
      GestionLivre.get_livre (Emprunt.isbn emprunt0) st = Some l ->
      GestionEmprunt.retourner now id_emprunt st = (Ok emprunt, st') ->
      exists l' : Livre.t,
        GestionLivre.get_livre (Emprunt.isbn emprunt0) st' = Some l' /\
        statut_coherent l').
Proof.
  split; [|split; [|split; [|split; [|split]]]].
  - intros ex l. apply mettre_a_jour_statut_coherent.
  - intros cb l l' H. apply retirer_exemplaire_coherent in H. exact H.
  - intros normaliser now isbn ex st st' H.
    unfold GestionLivre_ajouter_exemplaire in H.
    destruct (GestionLivre.get_livre isbn st) as [l|] eqn:Hl; [|discriminate].
    destruct (GestionLivre_code_barre_existe _ _ _); [discriminate|].
    injection H as <-.
    exists (Livre.ajouter_exemplaire ex l). split.
    + match goal with
      | |- GestionLivre.get_livre isbn
             (if _ then snd (GestionReservation.traiter_file now isbn ?s)
              else _) = _ =>
          pose proof (traiter_file_preserve now isbn s) as (Hlv & _);
          assert (Hs : GestionLivre.get_livre isbn s
                       = Some (Livre.ajouter_exemplaire ex l))
      end.
      { rewrite get_livre_sur_livre, Hl; [reflexivity|].
        intros l0. unfold Livre.ajouter_exemplaire.
        rewrite mettre_a_jour_statut_isbn. reflexivity. }
      destruct (livre_gestion_reservation _); [|exact Hs].
      unfold GestionLivre.get_livre in *. rewrite Hlv. exact Hs.
    + apply mettre_a_jour_statut_coherent.
  - intros isbn cb st st' H. unfold GestionLivre.retirer_exemplaire in H.
    destruct (GestionLivre.get_livre isbn st) as [l|] eqn:Hl; [|discriminate].
    injection H as Hvrai <-.
    exists (snd (Livre.retirer_exemplaire cb l)). split.
    + rewrite get_livre_sur_livre, Hl; [reflexivity|].
      intros l0. unfold Livre.retirer_exemplaire.
      destruct (existsb _ _); [|reflexivity].
      cbn [snd]. rewrite mettre_a_jour_statut_isbn. reflexivity.
    + apply retirer_exemplaire_coherent with (code_barre := cb) (l := l).
      destruct (Livre.retirer_exemplaire cb l) as [b l']. simpl in *.
      rewrite Hvrai. reflexivity.
  - intros now id_neuf matricule isbn cb d st st' emprunt H.
    apply emprunter_livre_apres in H. destruct H as (livre & _ & H).
    eexists. split; [exact H|]. apply mettre_a_jour_statut_coherent.
  - intros now id st st' e0 e l Hget Hret Hl H.
    destruct (retourner_en_cours now id st e0 Hget Hret)
      as (st2 & Heq & Hlv & _).
    rewrite Heq in H. injection H as _ <-.
    exists (GestionEmprunt.reprendre (Emprunt.code_barre e0) l). split.
    + unfold GestionLivre.get_livre in *. rewrite Hlv.
      rewrite find_maj_premier, Hl; [reflexivity|].
      intros x Hx. unfold GestionLivre.a_isbn in *.
      rewrite reprendre_isbn. exact Hx.
    + apply mettre_a_jour_statut_coherent.
Qed.

Lemma C1_statut_du_livre_coherent_temoin :
  exists l' : Livre.t,
    GestionLivre.get_livre "9780306406157" Exemple.apres_emprunt = Some l' /\
    statut_coherent l' /\ Livre.statut l' = EMPRUNTE.
Proof.
  destruct C1_statut_du_livre_coherent as (_ & _ & _ & _ & H & _).
  destruct (H Exemple.T0 "EMP-00000001" "U-MMMMMMMM" "9780306406157" None 14
              Exemple.ouverture Exemple.apres_emprunt
              (Emprunt.mk "EMP-00000001" "U-MMMMMMMM" "9780306406157" "00001"
                 Exemple.T0 (Exemple.T0 + Exemple.jours 14) None 0))
    as (l' & Hl & Hc).
  - vm_compute. reflexivity.
  - exists l'. split; [exact Hl|]. split; [exact Hc|].
    vm_compute in Hl. injection Hl as <-. reflexivity.
Defined.

(** ** C2: A late return suspends the member *)

(** C2. The return, after its due date, of a loan that was still out
    suspends the member of the loan until [now] plus three times
    [max 1 (return time - due date).days] days, and until then every attempt
    of that member, if still registered, to borrow is refused because the
    member is suspended. *)
Theorem C2_retour_tardif_suspend
    (now : Z) (id_emprunt : string) (st : Etat) (emprunt0 : Emprunt.t) :
  Dict.get id_emprunt (emprunts st) = Some emprunt0 ->
  Emprunt.date_retour emprunt0 = None ->
  Emprunt.date_echeance emprunt0 < now ->
  let matricule := Emprunt.matricule_user emprunt0 in
  let fin :=
    now + Temps.timedelta
            (3 * Z.max 1 (Temps.days (now - Emprunt.date_echeance emprunt0))) in
  exists (emprunt : Emprunt.t) (st' : Etat),
    GestionEmprunt.retourner now id_emprunt st = (Ok emprunt, st') /\
    Emprunt.date_retour emprunt = Some now /\
    Temps.fromisoformat <$> (suspensions st' !! matricule) = Some fin /\
    (is_Some (GestionUtilisateur.get_utilisateur_par_matricule matricule st) ->
     forall (now' : Z) (id_neuf isbn : string) (code_barre : option string)
            (duree_jours : Z),
       now' < fin ->
       GestionEmprunt.emprunter now' id_neuf matricule isbn code_barre
         duree_jours st' = (Leve UtilisateurSuspendu, st')).
Proof.
  intros Hget Hret Hlate matricule fin.
  destruct (retourner_en_cours now id_emprunt st emprunt0 Hget Hret)
    as (st' & Heq & _ & Hus & _ & Hsusp & _).
  exists (Emprunt.retourner None now emprunt0), st'.
  assert (Hlt : (Emprunt.date_echeance emprunt0 <? now) = true) by lia.
  rewrite Hlt, jours_suspension_retour_max in Hsusp. fold fin in Hsusp.
  assert (Hfin : now < fin).
  { unfold fin, Temps.timedelta. pose proof JOUR_positif. nia. }
  assert (Hentree : suspensions st' !! matricule = Some (Temps.isoformat fin)).
  { rewrite Hsusp, lookup_nettoyees. fold matricule.
    rewrite lookup_insert_eq, fromisoformat_isoformat.
    destruct (now <? fin) eqn:E; [reflexivity | lia]. }
  split; [exact Heq|]. split; [reflexivity|]. split.
  - rewrite Hentree. simpl. rewrite fromisoformat_isoformat. reflexivity.
  - intros [u Hu] now' id_neuf isbn cb d Hnow'.
    apply emprunter_suspendu with (iso := Temps.isoformat fin).
    + unfold GestionUtilisateur.get_utilisateur_par_matricule in *.
      rewrite Hus. fold matricule. rewrite get_utilisateur_maj, Hu by reflexivity.
      eexists. reflexivity.
    + exact Hentree.
    + rewrite fromisoformat_isoformat. exact Hnow'.
Qed.

Lemma C2_retour_tardif_suspend_temoin :
  let now := Exemple.T0 + Exemple.jours 19 in
  exists (emprunt : Emprunt.t) (st' : Etat),
    GestionEmprunt.retourner now "EMP-00000001" Exemple.apres_emprunt
    = (Ok emprunt, st') /\
    Temps.fromisoformat <$> (suspensions st' !! "U-MMMMMMMM")
    = Some (now + Exemple.jours 15) /\
    GestionEmprunt.emprunter now "EMP-00000002" "U-MMMMMMMM" "9780306406157"
      None 14 st' = (Leve UtilisateurSuspendu, st').
Proof.
  intros now.
  pose proof (C2_retour_tardif_suspend now "EMP-00000001" Exemple.apres_emprunt
    (Emprunt.mk "EMP-00000001" "U-MMMMMMMM" "9780306406157" "00001"
       Exemple.T0 (Exemple.T0 + Exemple.jours 14) None 0)) as H.
  destruct H as (emprunt & st' & Hr & _ & Hs & Hb).
  - vm_compute. reflexivity.
  - reflexivity.
  - vm_compute. reflexivity.
  - exists emprunt, st'. split; [exact Hr|]. split; [exact Hs|].
    apply Hb.
    + vm_compute. eexists. reflexivity.
    + vm_compute. reflexivity.
Defined.

(** ** C3: Renewing a loan *)

(** Two loans on which the rule "renewed iff still out, not overdue and
    renewed fewer than two times, and never a third time" fails.  The loan
    of the small library, one day after it was made, is still out, not
    overdue and has never been renewed; renewing it for 3000000 days raises
    [OverflowError], the due date asked for being after the year 9999, and
    nothing is written.  A loan read from a record whose counter is -1 is
    renewed three times in a row. *)
Lemma C3_renouvellement_deborde :
  (let e := Emprunt.mk "EMP-00000001" "U-MMMMMMMM" "9780306406157" "00001"
              Exemple.T0 (Exemple.T0 + Exemple.jours 14) None 0 in
   let now := Exemple.T0 + Exemple.jours 1 in
   Dict.get "EMP-00000001" (emprunts Exemple.apres_emprunt) = Some e /\
   Emprunt.date_retour e = None /\ ~ Emprunt.date_echeance e < now /\
   Emprunt.renouvellements e < 2 /\
   GestionEmprunt.renouveler now "EMP-00000001" 3000000 Exemple.apres_emprunt
   = (Leve DepassementDate, Exemple.apres_emprunt)) /\
  (exists e : Emprunt.t,
     Emprunt.from_dict
       (Emprunt.mk_donnees "EMP-00000001" "U-MMMMMMMM" "9780306406157" "00001"
          (Temps.isoformat_seconds Exemple.T0)
          (Temps.isoformat_seconds (Exemple.T0 + Exemple.jours 14))
          None "emprunte" (-1)) = Ok e /\
     let st := set_emprunts [("EMP-00000001", e)] Exemple.apres_emprunt in
     let r1 := GestionEmprunt.renouveler (Exemple.T0 + Exemple.jours 1)
                 "EMP-00000001" 7 st in
     let r2 := GestionEmprunt.renouveler (Exemple.T0 + Exemple.jours 2)
                 "EMP-00000001" 7 (snd r1) in
     let r3 := GestionEmprunt.renouveler (Exemple.T0 + Exemple.jours 3)
                 "EMP-00000001" 7 (snd r2) in
     fst r1 = Ok true /\ fst r2 = Ok true /\ fst r3 = Ok true).
Proof.
  split.
  - cbv zeta. split; [vm_compute; reflexivity|].
    split; [reflexivity|]. split; [vm_compute; discriminate|].
    split; [reflexivity|]. vm_compute. reflexivity.
  - eexists. split; [vm_compute; reflexivity|].
    cbv zeta. repeat split; vm_compute; reflexivity.
Qed.

(** C3, as the code has it.  [renouveler] on an identifier that is not in
    the table raises [EmpruntNonTrouve].  On a loan of the table it returns
    [True] iff the loan has no return date, is not overdue, has a counter
    below two, and the due date moved by the given number of days is a date
    that [datetime] holds; then the due date has moved by that number of
    days, the counter has gone up by one and the table is written to the
    file.  When only the date fails it raises [OverflowError], and when the
    loan cannot be renewed it returns [False]; in both cases nothing has
    changed.  For a loan whose counter is not negative, as the counter of
    every loan that [emprunter] makes, the renewal that follows two
    successful ones returns [False] and changes nothing. *)
Theorem C3_renouvellement (now : Z) (id_emprunt : string) (jours : Z)
    (st : Etat) :
  (Dict.get id_emprunt (emprunts st) = None ->
   GestionEmprunt.renouveler now id_emprunt jours st
   = (Leve EmpruntNonTrouve, st)) /\
  (forall e : Emprunt.t,
     Dict.get id_emprunt (emprunts st) = Some e ->
     let renouvelable :=
       Emprunt.date_retour e = None /\ ~ Emprunt.date_echeance e < now /\
       Emprunt.renouvellements e < 2 in
     let echeance := Emprunt.date_echeance e + Temps.timedelta jours in
     let tenable :=
       Z.abs jours <= Temps.MAX_JOURS /\
       Temps.MIN <= echeance <= Temps.MAX in
     ((exists st' : Etat,
         GestionEmprunt.renouveler now id_emprunt jours st = (Ok true, st')) <->
      renouvelable /\ tenable) /\
     (renouvelable -> tenable ->
      exists (st' : Etat) (e' : Emprunt.t),
        GestionEmprunt.renouveler now id_emprunt jours st = (Ok true, st') /\
        Dict.get id_emprunt (emprunts st') = Some e' /\
        Emprunt.date_echeance e' = echeance /\
        Emprunt.renouvellements e' = Emprunt.renouvellements e + 1 /\
        Emprunt.date_retour e' = None /\
        Emprunt.id_emprunt e' = Emprunt.id_emprunt e /\
        Emprunt.matricule_user e' = Emprunt.matricule_user e /\
        Emprunt.isbn e' = Emprunt.isbn e /\
        Emprunt.code_barre e' = Emprunt.code_barre e /\
        Emprunt.date_emprunt e' = Emprunt.date_emprunt e /\
        fichier_emprunts st'
        = Some (map (Emprunt.data_format now) (Dict.values (emprunts st')),
                suspensions st')) /\
     (renouvelable -> ~ tenable ->
      GestionEmprunt.renouveler now id_emprunt jours st
      = (Leve DepassementDate, st)) /\
     (~ renouvelable ->
      GestionEmprunt.renouveler now id_emprunt jours st = (Ok false, st)) /\
     (forall (now2 jours2 now3 jours3 : Z) (st1 st2 : Etat),
        0 <= Emprunt.renouvellements e ->
        GestionEmprunt.renouveler now id_emprunt jours st = (Ok true, st1) ->
        GestionEmprunt.renouveler now2 id_emprunt jours2 st1 = (Ok true, st2) ->
        GestionEmprunt.renouveler now3 id_emprunt jours3 st2 = (Ok false, st2))).
Proof.
  split.
  - intros H. unfold GestionEmprunt.renouveler. rewrite H. reflexivity.
  - intros e Hget renouvelable echeance tenable.
    pose proof (peut_renouveler_spec now e) as Hspec.
    change Emprunt.MAX_RENOUVELLEMENTS with 2 in Hspec.
    fold renouvelable in Hspec.
    assert (Htient :
      (exists d, Temps.plus_jours (Emprunt.date_echeance e) jours = Some d) <->
      tenable).
    { split.
      - intros (d & Hd). apply plus_jours_spec in Hd.
        destruct Hd as (-> & Hj & Hd). split; assumption.
      - intros (Hj & Hd). exists echeance. apply plus_jours_spec.
        repeat split; try assumption; apply Hd. }
    pose proof (renouveler_service now id_emprunt jours st e Hget) as Hsvc.
    split; [|split; [|split; [|split]]].
    + rewrite Hsvc. split.
      * intros (st' & H).
        destruct (Emprunt.peut_renouveler now e); [|discriminate].
        split; [apply Hspec; reflexivity|]. apply Htient.
        destruct (Temps.plus_jours (Emprunt.date_echeance e) jours) as [d|];
          [exists d; reflexivity | discriminate].
      * intros (Hr & Ht). apply Hspec in Hr. apply Htient in Ht.
        destruct Ht as (d & Hd). rewrite Hr, Hd. eexists. reflexivity.
    + intros Hr Ht. pose proof Hr as (Hret & _). apply Hspec in Hr.
      apply Htient in Ht. destruct Ht as (d & Hd).
      rewrite Hsvc, Hr, Hd.
      eexists. eexists. split; [reflexivity|]. simpl.
      rewrite dict_get_set_eq.
      repeat split; try reflexivity. exact Hret.
    + intros Hr Ht. apply Hspec in Hr. rewrite Hsvc, Hr.
      destruct (Temps.plus_jours (Emprunt.date_echeance e) jours) as [d|] eqn:Hd;
        [|reflexivity].
      exfalso. apply Ht, Htient. exists d. reflexivity.
    + intros Hn. rewrite Hsvc.
      destruct (Emprunt.peut_renouveler now e); [|reflexivity].
      exfalso. apply Hn, Hspec. reflexivity.
    + intros now2 jours2 now3 jours3 st1 st2 Hpos H1 H2.
      rewrite Hsvc in H1.
      destruct (Emprunt.peut_renouveler now e) eqn:Hp1; [|discriminate].
      destruct (Temps.plus_jours (Emprunt.date_echeance e) jours);
        [|discriminate].
      injection H1 as <-.
      match type of H2 with
      | context [Dict.set id_emprunt ?x _] => set (e1 := x) in *
      end.
      assert (Hget1 : Dict.get id_emprunt
                (emprunts (GestionEmprunt.sauvegarder now
                   (set_emprunts (Dict.set id_emprunt e1 (emprunts st)) st)))
              = Some e1) by (simpl; apply dict_get_set_eq).
      rewrite (renouveler_service now2 id_emprunt jours2 _ e1 Hget1) in H2.
      destruct (Emprunt.peut_renouveler now2 e1) eqn:Hp2; [|discriminate].
      destruct (Temps.plus_jours (Emprunt.date_echeance e1) jours2);
        [|discriminate].
      injection H2 as <-.
      match goal with
      | |- GestionEmprunt.renouveler _ _ _ ?s = _ => set (s2 := s)
      end.
      assert (Hget2 : exists e2, Dict.get id_emprunt (emprunts s2) = Some e2 /\
                Emprunt.renouvellements e2 = Emprunt.renouvellements e + 2).
      { subst s2. simpl. eexists. split; [apply dict_get_set_eq|].
        subst e1. simpl. lia. }
      destruct Hget2 as (e2 & Hget2 & Hcompte).
      rewrite (renouveler_service now3 id_emprunt jours3 s2 e2 Hget2).
      destruct (Emprunt.peut_renouveler now3 e2) eqn:Hp3; [|reflexivity].
      exfalso. apply peut_renouveler_spec in Hp3.
      destruct Hp3 as (_ & _ & Hc).
      unfold Emprunt.MAX_RENOUVELLEMENTS in Hc. lia.
Qed.

Lemma C3_renouvellement_temoin :
  let id := "EMP-00000001" in
  let r1 := GestionEmprunt.renouveler (Exemple.T0 + Exemple.jours 1) id 7
              Exemple.apres_emprunt in
  let r2 := GestionEmprunt.renouveler (Exemple.T0 + Exemple.jours 2) id 7
              (snd r1) in
  fst r1 = Ok true /\ fst r2 = Ok true /\
  GestionEmprunt.renouveler (Exemple.T0 + Exemple.jours 3) id 7 (snd r2)
  = (Ok false, snd r2) /\
  GestionEmprunt.renouveler (Exemple.T0 + Exemple.jours 3) "EMP-99999999" 7
    (snd r2) = (Leve EmpruntNonTrouve, snd r2) /\
  GestionEmprunt.renouveler (Exemple.T0 + Exemple.jours 1) id 3000000
    Exemple.apres_emprunt = (Leve DepassementDate, Exemple.apres_emprunt).
Proof.
  intros id r1 r2.
  pose (e := Emprunt.mk "EMP-00000001" "U-MMMMMMMM" "9780306406157" "00001"
               Exemple.T0 (Exemple.T0 + Exemple.jours 14) None 0).
  assert (Hget : Dict.get id (emprunts Exemple.apres_emprunt) = Some e)
    by (vm_compute; reflexivity).
  assert (Hr : Emprunt.date_retour e = None /\
               ~ Emprunt.date_echeance e < Exemple.T0 + Exemple.jours 1 /\
               Emprunt.renouvellements e < 2)
    by (split; [reflexivity|]; split; [vm_compute; discriminate | reflexivity]).
  split; [|split; [|split; [|split]]].
  - destruct (proj2 (C3_renouvellement (Exemple.T0 + Exemple.jours 1) id 7
                       Exemple.apres_emprunt) e Hget)
      as (_ & H & _).
    destruct (H Hr) as (st' & e' & Heq & _).
    + vm_compute. repeat split; discriminate.
    + unfold r1. rewrite Heq. reflexivity.
  - vm_compute. reflexivity.
  - destruct (proj2 (C3_renouvellement (Exemple.T0 + Exemple.jours 1) id 7
                       Exemple.apres_emprunt) e Hget)
      as (_ & _ & _ & _ & H).
    apply H with (now2 := Exemple.T0 + Exemple.jours 2) (jours2 := 7)
                 (st1 := snd r1).
    + simpl. lia.
    + vm_compute. reflexivity.
    + vm_compute. reflexivity.
  - apply (C3_renouvellement (Exemple.T0 + Exemple.jours 3) "EMP-99999999" 7
             (snd r2)).
    vm_compute. reflexivity.
  - destruct (proj2 (C3_renouvellement (Exemple.T0 + Exemple.jours 1) id
                       3000000 Exemple.apres_emprunt) e Hget)
      as (_ & _ & H & _).
    apply (H Hr). vm_compute. intros (_ & _ & H'). apply H'. reflexivity.
Defined.

(** ** C4: A confirmation whose loan is refused *)

(** C4. When a reservation is notified and the loan that its confirmation
    asks for is refused, whatever the reason, [confirmer] returns [False];
    the reservation is still notified and the queues are as they were. *)
Theorem C4_confirmation_sans_emprunt (now : Z) (id_neuf id_reservation : string)
    (st st1 : Etat) (r : Reservation.t) (e : Exception) :
  Dict.get id_reservation (reservations st) = Some r ->
  Reservation.statut r = Reservation.NOTIFIE ->
  Bibliotheque.service_emprunt now id_neuf (Reservation.matricule_user r)
    (Reservation.isbn r) st = (Leve e, st1) ->
  Bibliotheque.confirmer now id_neuf id_reservation st = (false, st1) /\
  Dict.get id_reservation (reservations st1) = Some r /\
  reservations st1 = reservations st /\
  files st1 = files st.
Proof.
  intros Hget Hstatut Hemprunt.
  unfold Bibliotheque.confirmer, GestionReservation_confirmer.
  rewrite Hget. unfold Reservation.est_confirmable.
  rewrite bool_decide_eq_true_2 by exact Hstatut. simpl.
  rewrite Hemprunt.
  unfold Bibliotheque.service_emprunt in Hemprunt.
  apply emprunter_refuse in Hemprunt.
  destruct Hemprunt as (_ & _ & _ & Hres & Hfiles & _).
  repeat split; [congruence | exact Hres | exact Hfiles].
Qed.

Lemma C4_confirmation_sans_emprunt_temoin :
  let st := Exemple.notifie_et_suspendu in
  let now := Exemple.T0 + Exemple.jours 1 in
  Bibliotheque.confirmer now "EMP-00000001" "RES-00000001" st = (false, st) /\
  Dict.get "RES-00000001" (reservations st) = Some Exemple.reservation_notifiee /\
  files st !! "9780306406157" = Some ["RES-00000001"].
Proof.
  intros st now.
  destruct (C4_confirmation_sans_emprunt now "EMP-00000001" "RES-00000001"
              st st Exemple.reservation_notifiee UtilisateurSuspendu)
    as (H1 & H2 & _).
  - reflexivity.
  - reflexivity.
  - vm_compute. reflexivity.
  - split; [exact H1|]. split; [exact H2|]. vm_compute. reflexivity.
Defined.

(** ** C5: The transitions of a reservation *)

(** Cancelling a confirmed reservation does not raise and does not leave
    the status alone: [annuler] returns normally and the reservation becomes
    cancelled, in the model and through the service. *)
Lemma C5_annuler_une_confirmee :
  let r := Exemple.reservation_confirmee in
  Reservation.statut r = Reservation.CONFIRME /\
  Reservation.annuler r = (Ok tt, Reservation.set_statut Reservation.ANNULE r) /\
  Reservation.annuler r <> (Leve TransitionInvalide, r) /\
  Reservation.statut (snd (Reservation.annuler r)) <> Reservation.statut r /\
  fst (GestionReservation.annuler "RES-00000001" Exemple.apres_confirmation)
  = true /\
  Reservation.statut <$>
    Dict.get "RES-00000001"
      (reservations
         (snd (GestionReservation.annuler "RES-00000001"
                 Exemple.apres_confirmation)))
  = Some Reservation.ANNULE.
Proof.
  intros r. repeat split; try reflexivity.
  - intros H. discriminate H.
  - intros H. discriminate H.
Qed.

(** C5, as the code has it.  The only changes of status are pending to
    notified, notified to confirmed, and pending, notified or confirmed to
    cancelled.  [notifier] on a reservation that is not pending and
    [confirmer] on one that is not notified raise the [ValueError] of an
    invalid transition and leave the reservation as it was; [annuler] never
    raises, and does nothing on a cancelled reservation. *)
Theorem C5_transitions_des_reservations (r : Reservation.t) :
  (Reservation.statut r = Reservation.EN_ATTENTE ->
   Reservation.notifier r
   = (Ok tt, Reservation.set_statut Reservation.NOTIFIE r)) /\
  (Reservation.statut r <> Reservation.EN_ATTENTE ->
   Reservation.notifier r = (Leve TransitionInvalide, r)) /\
  (Reservation.statut r = Reservation.NOTIFIE ->
   Reservation.confirmer r
   = (Ok tt, Reservation.set_statut Reservation.CONFIRME r)) /\
  (Reservation.statut r <> Reservation.NOTIFIE ->
   Reservation.confirmer r = (Leve TransitionInvalide, r)) /\
  (Reservation.statut r = Reservation.ANNULE ->
   Reservation.annuler r = (Ok tt, r)) /\
  (Reservation.statut r <> Reservation.ANNULE ->
   Reservation.annuler r
   = (Ok tt, Reservation.set_statut Reservation.ANNULE r)) /\
  (forall (m : Methode) (res : Resultat unit) (r' : Reservation.t),
     appliquer m r = (res, r') ->
     r' = r \/
     (r' = Reservation.set_statut (Reservation.statut r') r /\
      In (Reservation.statut r, Reservation.statut r') transitions)).
Proof.
  unfold Reservation.notifier, Reservation.confirmer, Reservation.annuler.
  repeat split.
  - intros H. rewrite bool_decide_eq_true_2 by exact H. reflexivity.
  - intros H. rewrite bool_decide_eq_false_2 by exact H. reflexivity.
  - intros H. rewrite bool_decide_eq_true_2 by exact H. reflexivity.
  - intros H. rewrite bool_decide_eq_false_2 by exact H. reflexivity.
  - intros H. rewrite bool_decide_eq_true_2 by exact H. reflexivity.
  - intros H. rewrite bool_decide_eq_false_2 by exact H. reflexivity.
  - intros m res r' H. destruct r as [i mu ib d s].
    destruct m, s; vm_compute in H; injection H as _ <-;
      first [ left; reflexivity
            | right; split; [reflexivity | vm_compute; tauto] ].
Qed.

Lemma C5_transitions_des_reservations_temoin :
  Reservation.notifier Exemple.reservation_notifiee
  = (Leve TransitionInvalide, Exemple.reservation_notifiee) /\
  Reservation.confirmer Exemple.reservation_notifiee
  = (Ok tt, Exemple.reservation_confirmee) /\
  Reservation.annuler Exemple.reservation_confirmee
  = (Ok tt, Reservation.set_statut Reservation.ANNULE
              Exemple.reservation_confirmee).
Proof.
  split; [|split].
  - apply (C5_transitions_des_reservations Exemple.reservation_notifiee).
    simpl. discriminate.
  - apply (C5_transitions_des_reservations Exemple.reservation_notifiee).
    reflexivity.
  - apply (C5_transitions_des_reservations Exemple.reservation_confirmee).
    simpl. discriminate.
Defined.

(** ** C6: Penalties on the loans still out *)

(** A loan that is less than one whole day late sets no suspension; and of
    two late loans of one member, the one that comes last in the table
    decides the end of the suspension. *)
Lemma C6_retard_sans_suspension :
  let m := "U-MMMMMMMM" in
  let pret (id : string) (echeance : Z) :=
    Emprunt.mk id m "9780306406157" "00001" Exemple.T0 echeance None 0 in
  let table (prets : Dict.t Emprunt.t) :=
    mk_etat [Exemple.livre] [Exemple.membre] prets ∅ [] ∅ [] None None
      Bibliotheque.cablage_complet in
  (let e := pret "EMP-00000001" (Exemple.T0 + Exemple.jours 14) in
   let st := table [("EMP-00000001", e)] in
   let now := Exemple.T0 + Exemple.jours 14 + Exemple.heures 1 in
   In e (GestionEmprunt.lister_en_cours st) /\
   Emprunt.date_echeance e < now /\
   suspensions (GestionEmprunt.appliquer_penalites now st) !! m = None /\
   Temps.fromisoformat <$>
     (suspensions (GestionEmprunt.appliquer_penalites now st) !! m)
   <> Some (now + Temps.timedelta
                    (3 * Temps.days (now - Emprunt.date_echeance e)))) /\
  (let e1 := pret "EMP-00000001" (Exemple.T0 + Exemple.jours 14) in
   let e2 := pret "EMP-00000002" (Exemple.T0 + Exemple.jours 17) in
   let st := table [("EMP-00000001", e1); ("EMP-00000002", e2)] in
   let now := Exemple.T0 + Exemple.jours 19 in
   In e1 (GestionEmprunt.lister_en_cours st) /\
   Emprunt.date_echeance e1 < now /\
   Temps.fromisoformat <$>
     (suspensions (GestionEmprunt.appliquer_penalites now st) !! m)
   = Some (now + Exemple.jours 6) /\
   Temps.fromisoformat <$>
     (suspensions (GestionEmprunt.appliquer_penalites now st) !! m)
   <> Some (now + Temps.timedelta
                    (3 * Temps.days (now - Emprunt.date_echeance e1)))).
Proof.
  intros m pret table. split.
  - intros e st now. split; [left; reflexivity|].
    split; [reflexivity|]. split; [vm_compute; reflexivity|].
    vm_compute. intros H. discriminate H.
  - intros e1 e2 st now. split; [left; reflexivity|].
    split; [reflexivity|]. split; [vm_compute; reflexivity|].
    vm_compute. intros H. discriminate H.
Qed.

(** C6, as the code has it.  After [appliquer_penalites], for every loan
    still out whose due date is at least one whole day before [now], and
    that is the last such loan of its member in the table of loans, the
    suspension table maps the member of the loan to [now] plus three times
    [(now - due date).days] days, whatever entry the member had.  A member
    without such a loan keeps the entry they had, if it has not run out. *)
Theorem C6_penalites (now : Z) (st : Etat) :
  let st' := GestionEmprunt.appliquer_penalites now st in
  (forall (avant apres : list Emprunt.t) (e : Emprunt.t),
     GestionEmprunt.lister_en_cours st = (avant ++ e :: apres)%list ->
     Emprunt.date_echeance e + Temps.JOUR <= now ->
     (forall e', In e' apres ->
                 Emprunt.matricule_user e' = Emprunt.matricule_user e ->
                 ~ Emprunt.date_echeance e' + Temps.JOUR <= now) ->
     Temps.fromisoformat <$> (suspensions st' !! Emprunt.matricule_user e)
     = Some (now + Temps.timedelta
                     (3 * Temps.days (now - Emprunt.date_echeance e)))) /\
  (forall m : string,
     (forall e, In e (GestionEmprunt.lister_en_cours st) ->
                Emprunt.matricule_user e = m ->
                ~ Emprunt.date_echeance e + Temps.JOUR <= now) ->
     suspensions st' !! m
     = filter (GestionEmprunt.en_vigueur now) (suspensions st) !! m) /\
  fichier_emprunts st'
  = Some (map (Emprunt.data_format now) (Dict.values (emprunts st')),
          suspensions st').
Proof.
  intros st'. split; [|split].
  - intros avant apres e Hl Hlate Hlast.
    subst st'. unfold GestionEmprunt.appliquer_penalites.
    cbn [GestionEmprunt.sauvegarder GestionEmprunt.nettoyer_suspensions
         suspensions set_suspensions set_fichier_emprunts].
    rewrite lookup_nettoyees, Hl, fold_left_app. cbn [fold_left].
    rewrite (penaliser_les_autres now _ apres _ Hlast).
    rewrite penaliser_spec.
    destruct (Emprunt.date_echeance e + Temps.JOUR <=? now) eqn:E; [|lia].
    rewrite lookup_insert_eq, fromisoformat_isoformat.
    pose proof (days_positif (now - Emprunt.date_echeance e)) as Hd.
    pose proof JOUR_positif as HJ.
    assert (0 < Temps.days (now - Emprunt.date_echeance e)) by (apply Hd; lia).
    unfold Temps.timedelta.
    destruct (now <? _) eqn:E'.
    + cbn [fmap option_fmap option_map].
      rewrite fromisoformat_isoformat. reflexivity.
    + exfalso. apply Z.ltb_ge in E'. nia.
  - intros m H. subst st'. unfold GestionEmprunt.appliquer_penalites.
    cbn [GestionEmprunt.sauvegarder GestionEmprunt.nettoyer_suspensions
         suspensions set_suspensions set_fichier_emprunts].
    rewrite !lookup_nettoyees.
    rewrite (penaliser_les_autres now m _ _ H). reflexivity.
  - reflexivity.
Qed.

Lemma C6_penalites_temoin :
  let m := "U-MMMMMMMM" in
  let e1 := Emprunt.mk "EMP-00000001" m "9780306406157" "00001" Exemple.T0
              (Exemple.T0 + Exemple.jours 14) None 0 in
  let e2 := Emprunt.mk "EMP-00000002" m "9780306406157" "00002" Exemple.T0
              (Exemple.T0 + Exemple.jours 17) None 0 in
  let st := mk_etat [Exemple.livre] [Exemple.membre]
              [("EMP-00000001", e1); ("EMP-00000002", e2)]
              {[ m := Temps.isoformat (Exemple.T0 + Exemple.jours 40) ]}
              [] ∅ [] None None Bibliotheque.cablage_complet in
  let now := Exemple.T0 + Exemple.jours 19 in
  Temps.fromisoformat <$>
    (suspensions (GestionEmprunt.appliquer_penalites now st) !! m)
  = Some (now + Exemple.jours 6).
Proof.
  intros m e1 e2 st now.
  apply (proj1 (C6_penalites now st) [e1] [] e2).
  - reflexivity.
  - vm_compute. discriminate.
  - intros e' [].
Defined.

(** ** C7: Reserving a book *)

(** A member who has been notified that the book is available and who
    reserves it again is refused because the book is available, not because
    of the reservation in progress; and an unknown member is refused as
    unknown even though the book is available. *)
Lemma C7_deux_refus_a_la_fois :
  let st := Exemple.notifie_et_suspendu in
  let now := Exemple.T0 + Exemple.jours 1 in
  (exists l, GestionLivre.get_livre "9780306406157" st = Some l /\
             exists ex, In ex (Livre.exemplaires l) /\
                        Exemplaire.statut ex = DISPONIBLE) /\
  (exists r, In r (Dict.values (reservations st)) /\
             Reservation.matricule_user r = "U-MMMMMMMM" /\
             Reservation.isbn r = "9780306406157" /\
             Reservation.statut r = Reservation.NOTIFIE) /\
  GestionReservation.reserver now "RES-00000002" "U-MMMMMMMM" "9780306406157" st
  = (Leve LivreDejaDisponible, st) /\
  fst (GestionReservation.reserver now "RES-00000002" "U-MMMMMMMM"
         "9780306406157" st) <> Leve ReservationEnCours /\
  GestionReservation.reserver now "RES-00000002" "U-XXXXXXXX" "9780306406157" st
  = (Leve UtilisateurIntrouvable, st) /\
  fst (GestionReservation.reserver now "RES-00000002" "U-XXXXXXXX"
         "9780306406157" st) <> Leve LivreDejaDisponible.
Proof.
  intros st now. repeat split.
  - exists Exemple.livre. split; [reflexivity|].
    exists Exemple.copie. split; [left; reflexivity | reflexivity].
  - exists Exemple.reservation_notifiee.
    repeat split. left. reflexivity.
  - vm_compute. intros H. discriminate H.
  - vm_compute. intros H. discriminate H.
Qed.

(** C7, as the code has it.  For a registered member, [reserver] raises
    "the book is already available" whenever the catalogue is attached and
    the book has an available copy; it raises "a reservation is in progress"
    whenever the book is in the catalogue without an available copy and the
    member already has a pending or notified reservation for it.  When it
    succeeds, the new reservation is pending and its identifier is the last
    of the queue of the book. *)
Theorem C7_reserver (now : Z) (id_neuf matricule isbn : string) (st : Etat) :
  (is_Some (GestionUtilisateur.get_utilisateur_par_matricule matricule st) ->
   reservation_gestion_livre (cablage st) = true ->
   forall l : Livre.t,
     GestionLivre.get_livre isbn st = Some l ->
     (exists ex, In ex (Livre.exemplaires l) /\
                 Exemplaire.statut ex = DISPONIBLE) ->
     GestionReservation.reserver now id_neuf matricule isbn st
     = (Leve LivreDejaDisponible, st)) /\
  (is_Some (GestionUtilisateur.get_utilisateur_par_matricule matricule st) ->
   forall (l : Livre.t) (r : Reservation.t),
     GestionLivre.get_livre isbn st = Some l ->
     (forall ex, In ex (Livre.exemplaires l) ->
                 Exemplaire.statut ex <> DISPONIBLE) ->
     In r (Dict.values (reservations st)) ->
     Reservation.matricule_user r = matricule ->
     Reservation.isbn r = isbn ->
     Reservation.statut r = Reservation.EN_ATTENTE \/
     Reservation.statut r = Reservation.NOTIFIE ->
     GestionReservation.reserver now id_neuf matricule isbn st
     = (Leve ReservationEnCours, st)) /\
  (forall (r : Reservation.t) (st' : Etat),
     GestionReservation.reserver now id_neuf matricule isbn st = (Ok r, st') ->
     Reservation.statut r = Reservation.EN_ATTENTE /\
     Reservation.id r = id_neuf /\
     Reservation.matricule_user r = matricule /\
     Reservation.isbn r = isbn /\
     Dict.get id_neuf (reservations st') = Some r /\
     files st' !! isbn
     = Some (default [] (files st !! isbn) ++ [id_neuf])%list).
Proof.
  split; [|split].
  - intros [u Hu] Hgl l Hl Hdispo.
    unfold GestionReservation.reserver.
    rewrite Hu, Hl, Hgl. simpl. rewrite andb_false_r.
    apply est_disponible_spec in Hdispo. rewrite Hdispo. reflexivity.
  - intros [u Hu] l r Hl Hnone Hin Hm Hi Hs.
    unfold GestionReservation.reserver.
    rewrite Hu, Hl. simpl. rewrite !andb_false_r.
    assert (Hd : Livre.est_disponible l = false).
    { destruct (Livre.est_disponible l) eqn:E; [|reflexivity].
      apply est_disponible_spec in E. destruct E as (ex & Hex & Hst).
      exfalso. exact (Hnone ex Hex Hst). }
    rewrite Hd, andb_false_r.
    assert (He : existsb (GestionReservation.en_cours_pour isbn)
                   (GestionReservation.lister_par_user matricule st) = true).
    { apply existsb_exists. exists r. split.
      - unfold GestionReservation.lister_par_user.
        apply List.filter_In. split; [exact Hin|].
        rewrite Hm. apply String.eqb_refl.
      - unfold GestionReservation.en_cours_pour.
        rewrite Hi, String.eqb_refl. simpl.
        destruct Hs as [Hs|Hs]; rewrite Hs; reflexivity. }
    rewrite He. reflexivity.
  - intros r st' H. unfold GestionReservation.reserver in H.
    destruct (_ && _); [discriminate|].
    destruct (_ && _); [discriminate|].
    destruct (_ && _); [discriminate|].
    destruct (existsb _ _); [discriminate|].
    unfold Reservation.init in H.
    destruct (String.eqb matricule ""); [discriminate|].
    destruct (String.eqb isbn ""); [discriminate|].
    injection H as <- <-. simpl.
    repeat split; try reflexivity.
    + apply dict_get_set_eq.
    + apply lookup_insert_eq.
Qed.

Lemma C7_reserver_temoin :
  let now := Exemple.T0 + Exemple.jours 1 in
  let m := "U-MMMMMMMM" in
  let isbn := "9780306406157" in
  let r := Reservation.mk "RES-00000001" m isbn now Reservation.EN_ATTENTE in
  let st' := snd (GestionReservation.reserver now "RES-00000001" m isbn
                    Exemple.apres_emprunt) in
  GestionReservation.reserver now "RES-00000002" m isbn
    Exemple.notifie_et_suspendu
  = (Leve LivreDejaDisponible, Exemple.notifie_et_suspendu) /\
  GestionReservation.reserver now "RES-00000002" m isbn st'
  = (Leve ReservationEnCours, st') /\
  Dict.get "RES-00000001" (reservations st') = Some r /\
  files st' !! isbn = Some ["RES-00000001"].
Proof.
  intros now m isbn r st'. split; [|split].
  - apply (proj1 (C7_reserver now "RES-00000002" m isbn
                    Exemple.notifie_et_suspendu)) with (l := Exemple.livre).
    + vm_compute. eexists. reflexivity.
    + reflexivity.
    + reflexivity.
    + exists Exemple.copie. split; [left; reflexivity | reflexivity].
  - destruct (C7_reserver now "RES-00000002" m isbn st') as (_ & H & _).
    apply H with (l := Livre.mk isbn
                         [Exemplaire.set_statut EMPRUNTE Exemple.copie]
                         EMPRUNTE 1)
                 (r := r).
    + vm_compute. eexists. reflexivity.
    + vm_compute. reflexivity.
    + intros ex [<-|[]]. discriminate.
    + vm_compute. left. reflexivity.
    + reflexivity.
    + reflexivity.
    + left. reflexivity.
  - destruct (C7_reserver now "RES-00000001" m isbn Exemple.apres_emprunt)
      as (_ & _ & H).
    destruct (H r st') as (_ & _ & _ & _ & H5 & H6).
    + vm_compute. reflexivity.
    + split; [exact H5|]. rewrite H6. vm_compute. reflexivity.
Defined.

(** ** C8: Returning an unknown or returned loan *)

(** C8. The return of a loan that does not exist raises [EmpruntNonTrouve];
    the return of a loan that already has a return date gives back that
    loan and leaves the whole state as it was. *)
Theorem C8_retour_inconnu_ou_deja_fait (now : Z) (id_emprunt : string)
    (st : Etat) :
  (Dict.get id_emprunt (emprunts st) = None ->
   GestionEmprunt.retourner now id_emprunt st = (Leve EmpruntNonTrouve, st)) /\
  (forall (emprunt : Emprunt.t) (retour : Z),
     Dict.get id_emprunt (emprunts st) = Some emprunt ->
     Emprunt.date_retour emprunt = Some retour ->
     GestionEmprunt.retourner now id_emprunt st = (Ok emprunt, st)).
Proof.
  unfold GestionEmprunt.retourner. split.
  - intros ->. reflexivity.
  - intros emprunt retour -> ->. reflexivity.
Qed.

Lemma C8_retour_inconnu_ou_deja_fait_temoin :
  let st := snd (GestionEmprunt.retourner (Exemple.T0 + Exemple.jours 3)
                   "EMP-00000001" Exemple.apres_emprunt) in
  GestionEmprunt.retourner (Exemple.T0 + Exemple.jours 4) "EMP-99999999" st
  = (Leve EmpruntNonTrouve, st) /\
  GestionEmprunt.retourner (Exemple.T0 + Exemple.jours 4) "EMP-00000001" st
  = (Ok (Emprunt.mk "EMP-00000001" "U-MMMMMMMM" "9780306406157" "00001"
           Exemple.T0 (Exemple.T0 + Exemple.jours 14)
           (Some (Exemple.T0 + Exemple.jours 3)) 0), st).
Proof.
  intros st. split.
  - apply (C8_retour_inconnu_ou_deja_fait (Exemple.T0 + Exemple.jours 4)
             "EMP-99999999" st).
    vm_compute. reflexivity.
  - apply (proj2 (C8_retour_inconnu_ou_deja_fait (Exemple.T0 + Exemple.jours 4)
                    "EMP-00000001" st))
      with (retour := Exemple.T0 + Exemple.jours 3).
    + vm_compute. reflexivity.
    + reflexivity.
Defined.

(** ** C9: Records written and read back *)

(** A loan that came back half a second after it was due, within the same
    second: it is late, and the loan read back from its record is on time.
    A loan still out whose due date is later in the current second: it is
    not late, and the loan read back is. *)
Lemma C9_statut_perdu_a_la_seconde :
  let echeance := Exemple.T0 + Exemple.jours 14 + 200000 in
  let rendu :=
    Emprunt.mk "EMP-00000001" "U-MMMMMMMM" "9780306406157" "00001"
      (Exemple.T0 + 200000) echeance (Some (echeance + 500000)) 0 in
  let sorti :=
    Emprunt.mk "EMP-00000001" "U-MMMMMMMM" "9780306406157" "00001"
      (Exemple.T0 + 200000) echeance None 0 in
  let now := Exemple.T0 + Exemple.jours 14 + 100000 in
  (exists rendu',
     Emprunt.from_dict (Emprunt.data_format now rendu) = Ok rendu' /\
     Emprunt.statut now rendu = Emprunt.en_retard /\
     Emprunt.statut now rendu' = Emprunt.retourne) /\
  (exists sorti',
     Emprunt.from_dict (Emprunt.data_format now sorti) = Ok sorti' /\
     Emprunt.statut now sorti = Emprunt.emprunte /\
     Emprunt.statut now sorti' = Emprunt.en_retard).
Proof.
  intros echeance rendu sorti now. split.
  - eexists. split; [vm_compute; reflexivity|]. split; reflexivity.
  - eexists. split; [vm_compute; reflexivity|]. split; reflexivity.
Qed.

(** C9, as the code has it.  A loan written by [data_format] and read back
    by [from_dict] has the same identifier, member, ISBN and bar code (and
    the same counter).  Its status, at whatever instant it is asked, is the
    status of the original except in two cases, both within one second of
    the due date, the record keeping the dates to the second: the loan came
    back after its due date and within the same second, and is late where
    the loan read back is on time; the loan is still out and the status is
    asked within the second of its due date, not after the due date, and it
    is on time where the loan read back is late.  In particular the status
    is the same at every instant when the due date and the return date, if
    any, fall on a whole second.  A reservation written and read back is the
    same reservation: identifier, member, ISBN, date and status. *)
Theorem C9_aller_retour :
  (forall (now : Z) (e : Emprunt.t),
     valider_code_barre (Emprunt.code_barre e) = true ->
     exists e' : Emprunt.t,
       Emprunt.from_dict (Emprunt.data_format now e) = Ok e' /\
       Emprunt.id_emprunt e' = Emprunt.id_emprunt e /\
       Emprunt.matricule_user e' = Emprunt.matricule_user e /\
       Emprunt.isbn e' = Emprunt.isbn e /\
       Emprunt.code_barre e' = Emprunt.code_barre e /\
       Emprunt.renouvellements e' = Emprunt.renouvellements e /\
       (forall now' : Z,
          (Emprunt.statut now' e' = Emprunt.statut now' e <->
           ~ statut_perdu now' e) /\
          (statut_perdu now' e ->
           match Emprunt.date_retour e with
           | Some _ =>
               Emprunt.statut now' e = Emprunt.en_retard /\
               Emprunt.statut now' e' = Emprunt.retourne
           | None =>
               Emprunt.statut now' e = Emprunt.emprunte /\
               Emprunt.statut now' e' = Emprunt.en_retard
           end)) /\
       (Temps.seconde_entiere (Emprunt.date_echeance e) ->
        (forall retour, Emprunt.date_retour e = Some retour ->
                        Temps.seconde_entiere retour) ->
        forall now' : Z, Emprunt.statut now' e' = Emprunt.statut now' e)) /\
  (forall (r : Reservation.t) (id_neuf : string) (now : Z),
     Reservation.bien_formee r ->
     Reservation.from_dict (Reservation.data_format r) id_neuf now = Ok r).
Proof.
  split.
  - intros now e Hcb. rewrite (from_dict_data_format now e Hcb).
    eexists. split; [reflexivity|].
    cbn [Emprunt.id_emprunt Emprunt.matricule_user Emprunt.isbn
         Emprunt.code_barre Emprunt.renouvellements].
    do 5 (split; [reflexivity|]). split.
    + intros now'. unfold Emprunt.statut, statut_perdu.
      cbn [Emprunt.date_retour Emprunt.date_echeance].
      destruct (Emprunt.date_retour e) as [retour|];
        cbn [fmap option_fmap option_map];
        unfold Temps.isoformat_seconds, Temps.fromisoformat, Temps.MICRO.
      * destruct (Z.ltb_spec (Emprunt.date_echeance e / 1000000 * 1000000)
                    (retour / 1000000 * 1000000));
          destruct (Z.ltb_spec (Emprunt.date_echeance e) retour);
          (split; [split; [intros E H'; try discriminate E
                          | intros H'; try reflexivity; exfalso]
                  | intros H'; try (split; reflexivity); exfalso]);
          Z.div_mod_to_equations; lia.
      * destruct (Z.ltb_spec (Emprunt.date_echeance e / 1000000 * 1000000)
                    now');
          destruct (Z.ltb_spec (Emprunt.date_echeance e) now');
          (split; [split; [intros E H'; try discriminate E
                          | intros H'; try reflexivity; exfalso]
                  | intros H'; try (split; reflexivity); exfalso]);
          Z.div_mod_to_equations; lia.
    + intros Hech Hret now'. unfold Emprunt.statut.
      cbn [Emprunt.date_retour Emprunt.date_echeance].
      rewrite (fromisoformat_isoformat_seconds _ Hech).
      destruct (Emprunt.date_retour e) as [retour|]; [|reflexivity].
      cbn [fmap option_fmap option_map].
      rewrite (fromisoformat_isoformat_seconds retour (Hret retour eq_refl)).
      reflexivity.
  - intros r id_neuf now (Hid & Hm & Hi).
    unfold Reservation.from_dict, Reservation.data_format, Reservation.init.
    simpl. rewrite statut_de_texte_de_statut, fromisoformat_isoformat. simpl.
    destruct (String.eqb_spec (Reservation.matricule_user r) "") as [E|_];
      [contradiction|].
    destruct (String.eqb_spec (Reservation.isbn r) "") as [E|_];
      [contradiction|].
    destruct (String.eqb_spec (Reservation.id r) "") as [E|_];
      [contradiction|].
    destruct r; reflexivity.
Qed.

(** A loan as [emprunter] makes them, with microseconds in its dates, that
    came back five days late: read back from its record it is late at every
    instant, as it was. *)
Lemma C9_aller_retour_temoin :
  let e := Emprunt.mk "EMP-00000001" "U-MMMMMMMM" "9780306406157" "00001"
             (Exemple.T0 + 123456) (Exemple.T0 + Exemple.jours 14 + 123456)
             (Some (Exemple.T0 + Exemple.jours 19 + 654321)) 1 in
  (exists e',
     Emprunt.from_dict (Emprunt.data_format (Exemple.T0 + Exemple.jours 20) e)
     = Ok e' /\
     Emprunt.id_emprunt e' = "EMP-00000001" /\
     Emprunt.statut (Exemple.T0 + Exemple.jours 21) e' = Emprunt.en_retard) /\
  Reservation.from_dict (Reservation.data_format Exemple.reservation_notifiee)
    "RES-00000009" (Exemple.T0 + Exemple.jours 20)
  = Ok Exemple.reservation_notifiee.
Proof.
  intros e. split.
  - destruct (proj1 C9_aller_retour (Exemple.T0 + Exemple.jours 20) e)
      as (e' & H1 & H2 & _ & _ & _ & _ & H7 & _); [reflexivity|].
    exists e'. split; [exact H1|]. split; [exact H2|].
    rewrite (proj2 (proj1 (H7 (Exemple.T0 + Exemple.jours 21))));
      [reflexivity|].
    vm_compute. intros (_ & H). discriminate H.
  - apply (proj2 C9_aller_retour). repeat split; discriminate.
Defined.

(** ** C10: A refused loan changes nothing *)

(** C10. A call of [emprunter] that raises, whatever the reason, leaves the
    state in memory as it was, except that the suspension table may have
    lost entries that had run out: the loans, the books with their copies,
    counters and statuses, the members with their current loans, the
    reservations and their queues are the same. *)
Theorem C10_emprunt_refuse_sans_effet (now : Z) (id_neuf matricule isbn : string)
    (code_barre : option string) (duree_jours : Z) (st st' : Etat)
    (e : Exception) :
  GestionEmprunt.emprunter now id_neuf matricule isbn code_barre duree_jours st
  = (Leve e, st') ->
  emprunts st' = emprunts st /\
  livres st' = livres st /\
  utilisateurs st' = utilisateurs st /\
  reservations st' = reservations st /\
  files st' = files st /\
  notifications st' = notifications st /\
  cablage st' = cablage st /\
  forall k : string,
    suspensions st' !! k = suspensions st !! k \/
    (suspensions st' !! k = None /\
     exists iso, suspensions st !! k = Some iso /\
                 Temps.fromisoformat iso <= now).
Proof.
  intros H. apply emprunter_refuse in H.
  destruct H as (H1 & H2 & H3 & H4 & H5 & H6 & _ & H8 & H9).
  repeat split; assumption.
Qed.

Lemma C10_emprunt_refuse_sans_effet_temoin :
  let st := Exemple.apres_emprunt in
  let st' := snd (GestionEmprunt.emprunter (Exemple.T0 + Exemple.jours 1)
                    "EMP-00000002" "U-MMMMMMMM" "9780306406157" None 14 st) in
  fst (GestionEmprunt.emprunter (Exemple.T0 + Exemple.jours 1)
         "EMP-00000002" "U-MMMMMMMM" "9780306406157" None 14 st)
  = Leve ExemplaireIndisponible /\
  emprunts st' = emprunts st /\ livres st' = livres st /\
  utilisateurs st' = utilisateurs st.
Proof.
  intros st st'. split; [vm_compute; reflexivity|].
  pose proof (C10_emprunt_refuse_sans_effet (Exemple.T0 + Exemple.jours 1)
                "EMP-00000002" "U-MMMMMMMM" "9780306406157" None 14 st st'
                ExemplaireIndisponible) as H.
  destruct H as (H1 & H2 & H3 & _); [vm_compute; reflexivity|].
  repeat split; assumption.
Defined.

(** * Further properties of the services *)

(** ** Lists updated in place *)

Lemma in_maj_premier {A} (p : A -> bool) (f : A -> A) (l : list A) (y : A) :
  In y (maj_premier p f l) ->
  In y l \/ exists x, List.find p l = Some x /\ y = f x.
Proof.
  induction l as [|x l IH]; simpl; [tauto|].
  destruct (p x) eqn:Hx; simpl.
  - intros [<-|Hin]; [right; eauto | left; right; exact Hin].
  - intros [<-|Hin]; [left; left; reflexivity|].
    destruct (IH Hin) as [H|H]; [left; right; exact H | right; exact H].
Qed.

Lemma maj_premier_sans_cible {A} (p : A -> bool) (f : A -> A) (l : list A) :
  List.find p l = None -> maj_premier p f l = l.
Proof.
  induction l as [|x l IH]; simpl; [reflexivity|].
  destruct (p x); [discriminate|]. intros H. rewrite (IH H). reflexivity.
Qed.

(** ** The book after a loan *)

Lemma mettre_a_jour_statut_exemplaires (l : Livre.t) :
  Livre.exemplaires (Livre.mettre_a_jour_statut l) = Livre.exemplaires l.
Proof.
  unfold Livre.mettre_a_jour_statut.
  destruct (Nat.eqb _ _); [reflexivity|].
  destruct (Nat.ltb _ _); reflexivity.
Qed.

Lemma mettre_a_jour_statut_compteur (l : Livre.t) :
  Livre.compteur_emprunts (Livre.mettre_a_jour_statut l)
  = Livre.compteur_emprunts l.
Proof.
  unfold Livre.mettre_a_jour_statut.
  destruct (Nat.eqb _ _); [reflexivity|].
  destruct (Nat.ltb _ _); reflexivity.
Qed.

Lemma disponibles_apres_pret (p : Exemplaire.t -> bool)
    (l : list Exemplaire.t) (ex : Exemplaire.t) :
  List.find p l = Some ex ->
  Exemplaire.statut ex = DISPONIBLE ->
  S (length (List.filter Exemplaire.est_disponible
               (maj_premier p (Exemplaire.set_statut EMPRUNTE) l)))
  = length (List.filter Exemplaire.est_disponible l).
Proof.
  intros Hfind Hdispo. induction l as [|x l IH]; simpl in *; [discriminate|].
  destruct (p x) eqn:Hx.
  - injection Hfind as ->.
    assert (Houi : Exemplaire.est_disponible ex = true)
      by (apply bool_decide_eq_true_2; exact Hdispo).
    cbn [List.filter]. rewrite Houi.
    change (Exemplaire.est_disponible (Exemplaire.set_statut EMPRUNTE ex))
      with false.
    reflexivity.
  - simpl. destruct (Exemplaire.est_disponible x); simpl;
      rewrite (IH Hfind); reflexivity.
Qed.

(** The whole of a loan that is granted: what was checked and what was
    written. *)
Lemma emprunter_inversion (now : Z) (id_neuf matricule isbn : string)
    (code_barre : option string) (duree_jours : Z) (st st' : Etat)
    (emprunt : Emprunt.t) :
  GestionEmprunt.emprunter now id_neuf matricule isbn code_barre duree_jours st
  = (Ok emprunt, st') ->
  exists (user : User.t) (st1 : Etat) (livre : Livre.t)
         (exemplaire : Exemplaire.t),
    GestionUtilisateur.get_utilisateur_par_matricule matricule st = Some user /\
    GestionEmprunt.is_suspended now matricule st = (None, st1) /\
    User.peut_emprunter user = true /\
    GestionLivre.get_livre isbn st1 = Some livre /\
    GestionEmprunt.trouver_exemplaire livre code_barre = Some exemplaire /\
    Exemplaire.statut exemplaire = DISPONIBLE /\
    valider_code_barre (Exemplaire.code_barre exemplaire) = true /\
    emprunt = Emprunt.mk id_neuf matricule isbn
                (Exemplaire.code_barre exemplaire) now
                (now + Temps.timedelta duree_jours) None 0 /\
    st' =
      GestionEmprunt.sauvegarder now
        (set_emprunts
           (Dict.set id_neuf emprunt (emprunts st1))
           (GestionUtilisateur.sur_utilisateur matricule
              (User.enregistrer_emprunt now isbn
                 (Exemplaire.code_barre exemplaire))
              (GestionLivre.sur_livre isbn
                 (GestionEmprunt.preter code_barre) st1))).
Proof.
  unfold GestionEmprunt.emprunter. intros H.
  destruct (GestionUtilisateur.get_utilisateur_par_matricule matricule st)
    as [user|] eqn:Hu; [|discriminate].
  destruct (GestionEmprunt.is_suspended now matricule st) as [suspendu st1]
    eqn:Hs.
  destruct suspendu as [iso|]; [discriminate|]. simpl in H.
  destruct (User.peut_emprunter user) eqn:Hp; [|discriminate]. simpl in H.
  destruct (GestionLivre.get_livre isbn st1) as [livre|] eqn:Hl; [|discriminate].
  destruct (GestionEmprunt.trouver_exemplaire livre code_barre) as [ex|] eqn:Hex;
    [|discriminate].
  destruct (Exemplaire.est_disponible ex) eqn:Hd; [|discriminate]. simpl in H.
  destruct (Temps.plus_jours now duree_jours) as [echeance|] eqn:Hj;
    [|discriminate].
  apply plus_jours_spec in Hj. destruct Hj as (-> & _).
  unfold Emprunt.init in H.
  destruct (valider_code_barre (Exemplaire.code_barre ex)) eqn:Hcb;
    [|discriminate].
  simpl in H. injection H as <- <-.
  unfold Exemplaire.est_disponible in Hd. apply bool_decide_eq_true in Hd.
  exists user, st1, livre, ex. repeat split; try reflexivity; assumption.
Qed.

Lemma is_suspended_non (now : Z) (matricule : string) (st st1 : Etat) :
  GestionEmprunt.is_suspended now matricule st = (None, st1) ->
  (forall iso, suspensions st !! matricule = Some iso ->
               Temps.fromisoformat iso <= now) /\
  livres st1 = livres st /\ utilisateurs st1 = utilisateurs st /\
  emprunts st1 = emprunts st.
Proof.
  unfold GestionEmprunt.is_suspended.
  destruct (suspensions st !! matricule) as [iso|] eqn:Hm.
  - destruct (now <? Temps.fromisoformat iso) eqn:E; [discriminate|].
    intros H. injection H as <-. simpl. repeat split.
    intros iso' H. injection H as <-. lia.
  - intros H. injection H as <-. repeat split. discriminate.
Qed.

(** X1. A loan is only granted to a registered member who is not suspended
    and who may borrow, on a copy of the book that was available; the loan
    made names that member, that book and that copy, starts at [now], is
    due [duree_jours] days later, and is in the table under the identifier
    drawn.  When a bar code is given, the copy lent is a copy with that bar
    code. *)
Theorem X1_emprunt_accorde (now : Z) (id_neuf matricule isbn : string)
    (code_barre : option string) (duree_jours : Z) (st st' : Etat)
    (emprunt : Emprunt.t) :
  GestionEmprunt.emprunter now id_neuf matricule isbn code_barre duree_jours st
  = (Ok emprunt, st') ->
  emprunt = Emprunt.mk id_neuf matricule isbn (Emprunt.code_barre emprunt) now
              (now + Temps.timedelta duree_jours) None 0 /\
  GestionEmprunt.get_emprunt id_neuf st' = Some emprunt /\
  (exists user : User.t,
     GestionUtilisateur.get_utilisateur_par_matricule matricule st = Some user /\
     User.peut_emprunter user = true) /\
  (forall iso, suspensions st !! matricule = Some iso ->
               Temps.fromisoformat iso <= now) /\
  (exists (livre : Livre.t) (ex : Exemplaire.t),
     GestionLivre.get_livre isbn st = Some livre /\
     In ex (Livre.exemplaires livre) /\
     Exemplaire.code_barre ex = Emprunt.code_barre emprunt /\
     Exemplaire.statut ex = DISPONIBLE) /\
  (forall c : string,
     code_barre = Some c -> c <> "" -> Emprunt.code_barre emprunt = c).
Proof.
  intros H. apply emprunter_inversion in H.
  destruct H as (user & st1 & livre & ex & Hu & Hs & Hp & Hl & Hex & Hd & Hcb
                 & -> & ->).
  apply is_suspended_non in Hs. destruct Hs as (Hsusp & Hlv & _).
  unfold GestionEmprunt.trouver_exemplaire in Hex.
  apply List.find_some in Hex. destruct Hex as (Hin & Hcrit).
  repeat split.
  - unfold GestionEmprunt.get_emprunt. simpl. apply dict_get_set_eq.
  - exists user. split; assumption.
  - exact Hsusp.
  - exists livre, ex. unfold GestionLivre.get_livre in *.
    rewrite <- Hlv. repeat split; assumption.
  - intros c -> Hc. simpl. unfold GestionEmprunt.critere in Hcrit.
    destruct (String.eqb_spec c "") as [E|_]; [contradiction|].
    unfold Livre.a_code_barre in Hcrit. apply String.eqb_eq in Hcrit.
    exact Hcrit.
Qed.

Lemma X1_emprunt_accorde_temoin :
  GestionEmprunt.get_emprunt "EMP-00000001" Exemple.apres_emprunt
  = Some (Emprunt.mk "EMP-00000001" "U-MMMMMMMM" "9780306406157" "00001"
            Exemple.T0 (Exemple.T0 + Exemple.jours 14) None 0).
Proof.
  destruct (X1_emprunt_accorde Exemple.T0 "EMP-00000001" "U-MMMMMMMM"
              "9780306406157" (Some "00001") 14 Exemple.ouverture
              Exemple.apres_emprunt
              (Emprunt.mk "EMP-00000001" "U-MMMMMMMM" "9780306406157" "00001"
                 Exemple.T0 (Exemple.T0 + Exemple.jours 14) None 0))
    as (_ & H & _).
  - vm_compute. reflexivity.
  - exact H.
Defined.

(** X2. A loan that is granted takes exactly one copy out of the available
    copies of the book, leaves the number of copies as it was and adds one
    to the counter of the book; when the copy was the last one available the
    book is [EMPRUNTE]. *)
Theorem X2_un_exemplaire_de_moins (now : Z) (id_neuf matricule isbn : string)
    (code_barre : option string) (duree_jours : Z) (st st' : Etat)
    (emprunt : Emprunt.t) :
  GestionEmprunt.emprunter now id_neuf matricule isbn code_barre duree_jours st
  = (Ok emprunt, st') ->
  exists l l' : Livre.t,
    GestionLivre.get_livre isbn st = Some l /\
    GestionLivre.get_livre isbn st' = Some l' /\
    S (Livre.exemplaires_disponibles l') = Livre.exemplaires_disponibles l /\
    Livre.nombre_exemplaires l' = Livre.nombre_exemplaires l /\
    Livre.compteur_emprunts l' = Livre.compteur_emprunts l + 1 /\
    (Livre.exemplaires_disponibles l = 1%nat -> Livre.statut l' = EMPRUNTE).
Proof.
  intros H. pose proof (emprunter_livre_apres _ _ _ _ _ _ _ _ _ H) as Hl.
  destruct Hl as (l & Hl & Hl').
  apply emprunter_inversion in H.
  destruct H as (user & st1 & livre & ex & _ & Hs & _ & Hl1 & Hex & Hd & _).
  apply is_suspended_non in Hs. destruct Hs as (_ & Hlv & _).
  assert (livre = l) as ->.
  { unfold GestionLivre.get_livre in *. rewrite Hlv, Hl in Hl1.
    injection Hl1 as <-. reflexivity. }
  exists l, (GestionEmprunt.preter code_barre l).
  split; [exact Hl|]. split; [exact Hl'|].
  assert (Hdispo :
    S (Livre.exemplaires_disponibles (GestionEmprunt.preter code_barre l))
    = Livre.exemplaires_disponibles l).
  { unfold Livre.exemplaires_disponibles, GestionEmprunt.preter.
    rewrite mettre_a_jour_statut_exemplaires. simpl.
    apply disponibles_apres_pret with (ex := ex); assumption. }
  assert (Hnombre :
    Livre.nombre_exemplaires (GestionEmprunt.preter code_barre l)
    = Livre.nombre_exemplaires l).
  { unfold Livre.nombre_exemplaires, GestionEmprunt.preter.
    rewrite mettre_a_jour_statut_exemplaires. simpl.
    clear. induction (Livre.exemplaires l) as [|x xs IH]; simpl;
      [reflexivity|].
    destruct (GestionEmprunt.critere code_barre x); simpl; congruence. }
  split; [exact Hdispo|]. split; [exact Hnombre|]. split.
  - unfold GestionEmprunt.preter. rewrite mettre_a_jour_statut_compteur.
    reflexivity.
  - intros Hun. rewrite Hun in Hdispo. injection Hdispo as Hzero.
    assert (Hpos : Livre.nombre_exemplaires l <> 0%nat).
    { unfold Livre.nombre_exemplaires.
      unfold GestionEmprunt.trouver_exemplaire in Hex.
      apply List.find_some in Hex. destruct Hex as (Hin & _).
      destruct (Livre.exemplaires l); [destruct Hin | discriminate]. }
    unfold GestionEmprunt.preter in *.
    set (l0 := Livre.incrementer_compteur _) in *.
    unfold Livre.mettre_a_jour_statut.
    assert (Hn0 : Livre.nombre_exemplaires l0 = Livre.nombre_exemplaires l).
    { rewrite <- Hnombre. unfold Livre.nombre_exemplaires.
      rewrite mettre_a_jour_statut_exemplaires. reflexivity. }
    assert (Hd0 : Livre.exemplaires_disponibles l0 = 0%nat).
    { rewrite <- Hzero. unfold Livre.exemplaires_disponibles.
      rewrite mettre_a_jour_statut_exemplaires. reflexivity. }
    rewrite Hn0, Hd0.
    destruct (Nat.eqb_spec (Livre.nombre_exemplaires l) 0);
      [contradiction | reflexivity].
Qed.

Lemma X2_un_exemplaire_de_moins_temoin :
  exists l' : Livre.t,
    GestionLivre.get_livre "9780306406157" Exemple.apres_emprunt = Some l' /\
    Livre.exemplaires_disponibles l' = 0%nat /\
    Livre.compteur_emprunts l' = 1 /\ Livre.statut l' = EMPRUNTE.
Proof.
  destruct (X2_un_exemplaire_de_moins Exemple.T0 "EMP-00000001" "U-MMMMMMMM"
              "9780306406157" None 14 Exemple.ouverture Exemple.apres_emprunt
              (Emprunt.mk "EMP-00000001" "U-MMMMMMMM" "9780306406157" "00001"
                 Exemple.T0 (Exemple.T0 + Exemple.jours 14) None 0))
    as (l & l' & Hl & Hl' & Hd & _ & Hc & Hs).
  - vm_compute. reflexivity.
  - exists l'. split; [exact Hl'|].
    vm_compute in Hl. injection Hl as <-.
    split; [|split].
    + vm_compute in Hd. injection Hd as Hd. exact Hd.
    + exact Hc.
    + apply Hs. reflexivity.
Defined.

(** ** The members *)

Lemma find_maj_premier_autre {A} (p q : A -> bool) (f : A -> A) (l : list A) :
  (forall x, p x = true -> q x = false /\ q (f x) = false) ->
  List.find q (maj_premier p f l) = List.find q l.
Proof.
  intros H. induction l as [|x l IH]; simpl; [reflexivity|].
  destruct (p x) eqn:Hx; simpl.
  - destruct (H x Hx) as (-> & ->). reflexivity.
  - destruct (q x); [reflexivity | exact IH].
Qed.

Lemma retour_raccourcit (now : Z) (isbn id_exemplaire : string) (u : User.t) :
  (length (User.livres_empruntes
             (User.enregistrer_retour now isbn id_exemplaire u))
   <= length (User.livres_empruntes u))%nat.
Proof.
  simpl. induction (User.livres_empruntes u) as [|x l IH]; simpl; [lia|].
  destruct (negb (User.concerne isbn id_exemplaire x)); simpl; lia.
Qed.

(** X3. If no member holds more loans than their limit, this is still so
    after [emprunter] and after [retourner], whatever they return. *)
Theorem X3_limites_respectees (st : Etat) :
  limites_respectees st ->
  (forall (now : Z) (id_neuf matricule isbn : string)
          (code_barre : option string) (duree_jours : Z),
     limites_respectees
       (snd (GestionEmprunt.emprunter now id_neuf matricule isbn code_barre
               duree_jours st))) /\
  (forall (now : Z) (id_emprunt : string),
     limites_respectees (snd (GestionEmprunt.retourner now id_emprunt st))).
Proof.
  intros Hinv. split.
  - intros now id_neuf matricule isbn cb d.
    destruct (GestionEmprunt.emprunter now id_neuf matricule isbn cb d st)
      as [[emprunt|e] st'] eqn:H; simpl.
    + apply emprunter_inversion in H.
      destruct H as (user & st1 & livre & ex & Hu & Hs & Hp & _ & _ & _ & _
                     & _ & ->).
      apply is_suspended_non in Hs. destruct Hs as (_ & _ & Hus & _).
      intros u' Hin. simpl in Hin. rewrite Hus in Hin.
      apply in_maj_premier in Hin. destruct Hin as [Hin|(x & Hx & ->)].
      * apply Hinv. exact Hin.
      * unfold GestionUtilisateur.get_utilisateur_par_matricule in Hu.
        rewrite Hu in Hx. injection Hx as <-.
        unfold User.peut_emprunter in Hp. simpl.
        rewrite length_app. simpl.
        destruct (User.statut user); [lia | discriminate].
    + apply emprunter_refuse in H. destruct H as (_ & Hus & _).
      intros u' Hin. rewrite Hus in Hin. apply Hinv. exact Hin.
  - intros now id. unfold limites_respectees.
    destruct (Dict.get id (emprunts st)) as [e0|] eqn:Hget.
    + destruct (Emprunt.date_retour e0) as [r|] eqn:Hret.
      * unfold GestionEmprunt.retourner. rewrite Hget, Hret. exact Hinv.
      * destruct (retourner_en_cours now id st e0 Hget Hret)
          as (st' & -> & _ & Hus & _).
        simpl. intros u' Hin. rewrite Hus in Hin.
        apply in_maj_premier in Hin. destruct Hin as [Hin|(x & Hx & ->)].
        -- apply Hinv. exact Hin.
        -- apply List.find_some in Hx. destruct Hx as (Hin & _).
           pose proof (Hinv x Hin) as Hx.
           pose proof (retour_raccourcit now (Emprunt.isbn e0)
                         (Emprunt.code_barre e0) x) as Hle.
           change (User.limite_emprunts
                     (User.enregistrer_retour now (Emprunt.isbn e0)
                        (Emprunt.code_barre e0) x))
             with (User.limite_emprunts x).
           lia.
    + unfold GestionEmprunt.retourner. rewrite Hget. exact Hinv.
Qed.

Lemma X3_limites_respectees_temoin :
  limites_respectees Exemple.apres_emprunt.
Proof.
  apply (proj1 (X3_limites_respectees Exemple.ouverture
    ltac:(intros u [<-|[]]; vm_compute; discriminate))
    Exemple.T0 "EMP-00000001" "U-MMMMMMMM" "9780306406157" None 14).
Defined.

(** X4. [desactiver_utilisateur] returns [False] and changes nothing for a
    matricule that is not registered.  For a registered member it returns
    [True], the member is inactive and the other members are as they were;
    from then on every call of [emprunter] for that member raises, because
    the member is suspended or "limit or status".  [activer_utilisateur]
    after it gives the member the status [actif] again. *)
Theorem X4_membre_desactive (matricule : string) (st : Etat) :
  (GestionUtilisateur.get_utilisateur_par_matricule matricule st = None ->
   GestionUtilisateur.desactiver_utilisateur matricule st = (false, st)) /\
  (forall u : User.t,
     GestionUtilisateur.get_utilisateur_par_matricule matricule st = Some u ->
     exists st' : Etat,
       GestionUtilisateur.desactiver_utilisateur matricule st = (true, st') /\
       GestionUtilisateur.get_utilisateur_par_matricule matricule st'
       = Some (User.definir_statut User.inactif u) /\
       (forall autre : string,
          autre <> matricule ->
          GestionUtilisateur.get_utilisateur_par_matricule autre st'
          = GestionUtilisateur.get_utilisateur_par_matricule autre st) /\
       (forall (now : Z) (id_neuf isbn : string) (code_barre : option string)
               (duree_jours : Z),
          exists (e : Exception) (st'' : Etat),
            GestionEmprunt.emprunter now id_neuf matricule isbn code_barre
              duree_jours st' = (Leve e, st'') /\
            (e = UtilisateurSuspendu \/ e = LimiteAtteinte)) /\
       exists st'' : Etat,
         GestionUtilisateur.activer_utilisateur matricule st' = (true, st'') /\
         GestionUtilisateur.get_utilisateur_par_matricule matricule st''
         = Some (User.definir_statut User.actif u)).
Proof.
  split.
  - intros H. unfold GestionUtilisateur.desactiver_utilisateur.
    rewrite H. reflexivity.
  - intros u Hu. unfold GestionUtilisateur.desactiver_utilisateur.
    rewrite Hu. eexists. split; [reflexivity|].
    assert (Hget :
      GestionUtilisateur.get_utilisateur_par_matricule matricule
        (GestionUtilisateur.sur_utilisateur matricule
           (User.definir_statut User.inactif) st)
      = Some (User.definir_statut User.inactif u)).
    { unfold GestionUtilisateur.get_utilisateur_par_matricule,
        GestionUtilisateur.sur_utilisateur in *. simpl.
      rewrite get_utilisateur_maj, Hu by reflexivity. reflexivity. }
    split; [exact Hget|]. split; [|split].
    + intros autre Hne.
      unfold GestionUtilisateur.get_utilisateur_par_matricule,
        GestionUtilisateur.sur_utilisateur. simpl.
      apply find_maj_premier_autre. intros x Hx.
      unfold GestionUtilisateur.a_matricule in *. simpl.
      apply String.eqb_eq in Hx. rewrite Hx.
      destruct (String.eqb_spec matricule autre) as [E|_];
        [congruence | split; reflexivity].
    + intros now id_neuf isbn cb d.
      unfold GestionEmprunt.emprunter. rewrite Hget.
      destruct (GestionEmprunt.is_suspended now matricule _)
        as [[iso|] st1]; simpl; eauto.
    + unfold GestionUtilisateur.activer_utilisateur. rewrite Hget.
      eexists. split; [reflexivity|].
      unfold GestionUtilisateur.get_utilisateur_par_matricule,
        GestionUtilisateur.sur_utilisateur in *. simpl.
      rewrite get_utilisateur_maj by reflexivity.
      rewrite get_utilisateur_maj, Hu by reflexivity. reflexivity.
Qed.

Lemma X4_membre_desactive_temoin :
  exists (st' : Etat) (e : Exception) (st'' : Etat),
    GestionUtilisateur.desactiver_utilisateur "U-MMMMMMMM" Exemple.ouverture
    = (true, st') /\
    GestionEmprunt.emprunter Exemple.T0 "EMP-00000001" "U-MMMMMMMM"
      "9780306406157" None 14 st' = (Leve e, st'') /\
    (e = UtilisateurSuspendu \/ e = LimiteAtteinte).
Proof.
  destruct (proj2 (X4_membre_desactive "U-MMMMMMMM" Exemple.ouverture)
              Exemple.membre eq_refl) as (st' & H1 & _ & _ & H4 & _).
  destruct (H4 Exemple.T0 "EMP-00000001" "9780306406157" None 14)
    as (e & st'' & H & He).
  exists st', e, st''. split; [exact H1|]. split; [exact H | exact He].
Defined.

(** ** Returns *)

(** X5. The return of a loan still out succeeds even when the book or the
    member of the loan is no longer there: the loan gets [now] as return
    date and stays in the table; a catalogue without the book, and a list of
    members without the member, are left as they are. *)
Theorem X5_retour_sans_livre_ni_membre (now : Z) (id_emprunt : string)
    (st : Etat) (emprunt0 : Emprunt.t) :
  Dict.get id_emprunt (emprunts st) = Some emprunt0 ->
  Emprunt.date_retour emprunt0 = None ->
  exists st' : Etat,
    GestionEmprunt.retourner now id_emprunt st
    = (Ok (Emprunt.retourner None now emprunt0), st') /\
    GestionEmprunt.get_emprunt id_emprunt st'
    = Some (Emprunt.retourner None now emprunt0) /\
    Emprunt.date_retour (Emprunt.retourner None now emprunt0) = Some now /\
    (GestionLivre.get_livre (Emprunt.isbn emprunt0) st = None ->
     livres st' = livres st) /\
    (GestionUtilisateur.get_utilisateur_par_matricule
       (Emprunt.matricule_user emprunt0) st = None ->
     utilisateurs st' = utilisateurs st).
Proof.
  intros Hget Hret.
  destruct (retourner_en_cours now id_emprunt st emprunt0 Hget Hret)
    as (st' & Heq & Hlv & Hus & Hem & _).
  exists st'. split; [exact Heq|]. split; [|split; [reflexivity|split]].
  - unfold GestionEmprunt.get_emprunt. rewrite Hem. apply dict_get_set_eq.
  - intros H. rewrite Hlv. apply maj_premier_sans_cible. exact H.
  - intros H. rewrite Hus. apply maj_premier_sans_cible. exact H.
Qed.

Lemma X5_retour_sans_livre_ni_membre_temoin :
  let st1 := snd (GestionLivre.supprimer_livre "9780306406157"
                    Exemple.apres_emprunt) in
  let st2 := snd (GestionUtilisateur.supprimer_utilisateur "U-MMMMMMMM" st1) in
  exists st' : Etat,
    a_reussi (fst (GestionEmprunt.retourner (Exemple.T0 + Exemple.jours 3)
                     "EMP-00000001" st2)) = true /\
    st' = snd (GestionEmprunt.retourner (Exemple.T0 + Exemple.jours 3)
                 "EMP-00000001" st2) /\
    livres st' = [] /\ utilisateurs st' = [].
Proof.
  intros st1 st2.
  destruct (X5_retour_sans_livre_ni_membre (Exemple.T0 + Exemple.jours 3)
              "EMP-00000001" st2
              (Emprunt.mk "EMP-00000001" "U-MMMMMMMM" "9780306406157" "00001"
                 Exemple.T0 (Exemple.T0 + Exemple.jours 14) None 0))
    as (st' & Heq & _ & _ & Hl & Hu).
  - vm_compute. reflexivity.
  - reflexivity.
  - exists st'. rewrite Heq. split; [reflexivity|]. split; [reflexivity|].
    split.
    + rewrite Hl; [vm_compute; reflexivity | vm_compute; reflexivity].
    + rewrite Hu; [vm_compute; reflexivity | vm_compute; reflexivity].
Defined.

Lemma statut_apres_retour (retour now : Z) (e : Emprunt.t) :
  Emprunt.statut now (Emprunt.retourner None retour e)
  = if Emprunt.date_echeance e <? retour then Emprunt.en_retard
    else Emprunt.retourne.
Proof. reflexivity. Qed.

(** X6. The return, not after its due date, of a loan still out writes no
    suspension: the table afterwards is the table before without the
    entries that have run out; and whenever it is asked afterwards, the
    status of the loan is [retourne]. *)
Theorem X6_retour_a_temps (now : Z) (id_emprunt : string) (st : Etat)
    (emprunt0 : Emprunt.t) :
  Dict.get id_emprunt (emprunts st) = Some emprunt0 ->
  Emprunt.date_retour emprunt0 = None ->
  now <= Emprunt.date_echeance emprunt0 ->
  exists (emprunt : Emprunt.t) (st' : Etat),
    GestionEmprunt.retourner now id_emprunt st = (Ok emprunt, st') /\
    suspensions st'
    = filter (GestionEmprunt.en_vigueur now) (suspensions st) /\
    (suspensions st !! Emprunt.matricule_user emprunt0 = None ->
     suspensions st' !! Emprunt.matricule_user emprunt0 = None) /\
    forall plus_tard : Z, Emprunt.statut plus_tard emprunt = Emprunt.retourne.
Proof.
  intros Hget Hret Htemps.
  destruct (retourner_en_cours now id_emprunt st emprunt0 Hget Hret)
    as (st' & Heq & _ & _ & _ & Hsusp & _).
  exists (Emprunt.retourner None now emprunt0), st'.
  assert (E : (Emprunt.date_echeance emprunt0 <? now) = false) by lia.
  rewrite E in Hsusp.
  split; [exact Heq|]. split; [exact Hsusp|]. split.
  - intros Hnone. rewrite Hsusp, lookup_nettoyees, Hnone. reflexivity.
  - intros plus_tard. rewrite statut_apres_retour, E. reflexivity.
Qed.

Lemma X6_retour_a_temps_temoin :
  exists (emprunt : Emprunt.t) (st' : Etat),
    GestionEmprunt.retourner (Exemple.T0 + Exemple.jours 14) "EMP-00000001"
      Exemple.apres_emprunt = (Ok emprunt, st') /\
    suspensions st' !! "U-MMMMMMMM" = None /\
    Emprunt.statut (Exemple.T0 + Exemple.jours 400) emprunt = Emprunt.retourne.
Proof.
  destruct (X6_retour_a_temps (Exemple.T0 + Exemple.jours 14) "EMP-00000001"
              Exemple.apres_emprunt
              (Emprunt.mk "EMP-00000001" "U-MMMMMMMM" "9780306406157" "00001"
                 Exemple.T0 (Exemple.T0 + Exemple.jours 14) None 0))
    as (emprunt & st' & Heq & _ & Hnone & Hstatut).
  - vm_compute. reflexivity.
  - reflexivity.
  - vm_compute. discriminate.
  - exists emprunt, st'. split; [exact Heq|]. split.
    + apply Hnone. vm_compute. reflexivity.
    + apply Hstatut.
Defined.

(** X7. After the return of a loan still out, if the book is in the
    catalogue and has a copy with the bar code of the loan, the book is
    [DISPONIBLE]; and if the member is registered, none of their current
    loans is for that book and that copy any more, while their other
    current loans are kept. *)
Theorem X7_apres_le_retour (now : Z) (id_emprunt : string) (st : Etat)
    (emprunt0 : Emprunt.t) :
  Dict.get id_emprunt (emprunts st) = Some emprunt0 ->
  Emprunt.date_retour emprunt0 = None ->
  exists st' : Etat,
    snd (GestionEmprunt.retourner now id_emprunt st) = st' /\
    (forall (l : Livre.t) (ex : Exemplaire.t),
       GestionLivre.get_livre (Emprunt.isbn emprunt0) st = Some l ->
       In ex (Livre.exemplaires l) ->
       Exemplaire.code_barre ex = Emprunt.code_barre emprunt0 ->
       exists l' : Livre.t,
         GestionLivre.get_livre (Emprunt.isbn emprunt0) st' = Some l' /\
         Livre.statut l' = DISPONIBLE /\ Livre.est_disponible l' = true) /\
    (forall u : User.t,
       GestionUtilisateur.get_utilisateur_par_matricule
         (Emprunt.matricule_user emprunt0) st = Some u ->
       exists u' : User.t,
         GestionUtilisateur.get_utilisateur_par_matricule
           (Emprunt.matricule_user emprunt0) st' = Some u' /\
         forall info : User.InfoEmprunt,
           In info (User.livres_empruntes u') <->
           In info (User.livres_empruntes u) /\
           User.concerne (Emprunt.isbn emprunt0) (Emprunt.code_barre emprunt0)
             info = false).
Proof.
  intros Hget Hret.
  destruct (retourner_en_cours now id_emprunt st emprunt0 Hget Hret)
    as (st' & Heq & Hlv & Hus & _).
  exists st'. rewrite Heq. split; [reflexivity|]. split.
  - intros l ex Hl Hin Hcb.
    exists (GestionEmprunt.reprendre (Emprunt.code_barre emprunt0) l).
    assert (Hl' : GestionLivre.get_livre (Emprunt.isbn emprunt0) st'
                  = Some (GestionEmprunt.reprendre
                            (Emprunt.code_barre emprunt0) l)).
    { unfold GestionLivre.get_livre in *. rewrite Hlv.
      rewrite find_maj_premier, Hl; [reflexivity|].
      intros x Hx. unfold GestionLivre.a_isbn in *.
      rewrite reprendre_isbn. exact Hx. }
    split; [exact Hl'|].
    assert (Hex : exists ex',
      In ex' (Livre.exemplaires
                (GestionEmprunt.reprendre (Emprunt.code_barre emprunt0) l)) /\
      Exemplaire.statut ex' = DISPONIBLE).
    { unfold GestionEmprunt.reprendre.
      rewrite mettre_a_jour_statut_exemplaires. simpl.
      clear - Hin Hcb. induction (Livre.exemplaires l) as [|x xs IH];
        [destruct Hin|].
      simpl. destruct (Livre.a_code_barre (Emprunt.code_barre emprunt0) x)
        eqn:Hx.
      - eexists. split; [left; reflexivity | reflexivity].
      - destruct Hin as [->|Hin].
        + unfold Livre.a_code_barre in Hx. rewrite Hcb in Hx.
          rewrite String.eqb_refl in Hx. discriminate.
        + destruct (IH Hin) as (ex' & Hin' & Hs).
          exists ex'. split; [right; exact Hin' | exact Hs]. }
    split.
    + apply (mettre_a_jour_statut_coherent _). exact Hex.
    + apply est_disponible_spec. exact Hex.
  - intros u Hu.
    exists (User.enregistrer_retour now (Emprunt.isbn emprunt0)
              (Emprunt.code_barre emprunt0) u).
    split.
    + unfold GestionUtilisateur.get_utilisateur_par_matricule in *.
      rewrite Hus, get_utilisateur_maj, Hu by reflexivity. reflexivity.
    + intros info. simpl. rewrite List.filter_In, negb_true_iff. tauto.
Qed.

Lemma X7_apres_le_retour_temoin :
  exists l' : Livre.t,
    GestionLivre.get_livre "9780306406157"
      (snd (GestionEmprunt.retourner (Exemple.T0 + Exemple.jours 3)
              "EMP-00000001" Exemple.apres_emprunt)) = Some l' /\
    Livre.statut l' = DISPONIBLE.
Proof.
  destruct (X7_apres_le_retour (Exemple.T0 + Exemple.jours 3) "EMP-00000001"
              Exemple.apres_emprunt
              (Emprunt.mk "EMP-00000001" "U-MMMMMMMM" "9780306406157" "00001"
                 Exemple.T0 (Exemple.T0 + Exemple.jours 14) None 0))
    as (st' & <- & Hl & _).
  - vm_compute. reflexivity.
  - reflexivity.
  - destruct (Hl (Livre.mk "9780306406157"
                    [Exemplaire.set_statut EMPRUNTE Exemple.copie] EMPRUNTE 1)
                (Exemplaire.set_statut EMPRUNTE Exemple.copie))
      as (l' & H1 & H2 & _).
    + vm_compute. reflexivity.
    + left. reflexivity.
    + reflexivity.
    + exists l'. split; assumption.
Defined.

(** ** The table of loans *)

Lemma in_values_set {V} (k : string) (v : V) (d : Dict.t V) (x : V) :
  In x (Dict.values (Dict.set k v d)) -> x = v \/ In x (Dict.values d).
Proof.
  unfold Dict.values. induction d as [|[k' v'] d IH]; simpl.
  - intros [<-|[]]. left. reflexivity.
  - destruct (String.eqb k' k); simpl.
    + intros [<-|H]; [left; reflexivity | right; right; exact H].
    + intros [<-|H]; [right; left; reflexivity|].
      destruct (IH H) as [->|H']; [left; reflexivity | right; right; exact H'].
Qed.

Lemma cles_apres_set {V} (k : string) (v : V) (d : Dict.t V) :
  map fst (Dict.set k v d)
  = match Dict.get k d with
    | Some _ => map fst d
    | None => (map fst d ++ [k])%list
    end.
Proof.
  induction d as [|[k' v'] d IH]; simpl; [reflexivity|].
  destruct (String.eqb_spec k' k) as [->|Hne]; simpl; [reflexivity|].
  rewrite IH. destruct (Dict.get k d); reflexivity.
Qed.

Lemma dict_get_in_values {V} (k : string) (v : V) (d : Dict.t V) :
  Dict.get k d = Some v -> In v (Dict.values d).
Proof.
  unfold Dict.values. induction d as [|[k' v'] d IH]; simpl; [discriminate|].
  destruct (String.eqb k' k).
  - intros H. injection H as ->. left. reflexivity.
  - intros H. right. apply IH. exact H.
Qed.

Lemma meme_pret_refl (e : Emprunt.t) : meme_pret e e.
Proof. repeat split. Qed.

Lemma prets_conserves_refl (d : Dict.t Emprunt.t) : prets_conserves d d.
Proof. intros id e H. exists e. split; [exact H | apply meme_pret_refl]. Qed.

Lemma prets_conserves_set (id : string) (e e' : Emprunt.t)
    (d : Dict.t Emprunt.t) :
  Dict.get id d = Some e -> meme_pret e e' ->
  prets_conserves d (Dict.set id e' d).
Proof.
  intros Hget Hm id0 e0 H0.
  destruct (decide (id = id0)) as [<-|Hne].
  - rewrite dict_get_set_eq. exists e'. split; [reflexivity|].
    rewrite Hget in H0. injection H0 as <-. exact Hm.
  - rewrite dict_get_set_ne by exact Hne. exists e0.
    split; [exact H0 | apply meme_pret_refl].
Qed.

(** X8. The services never delete a loan and never change who borrowed
    which copy and when.  [emprunter] with an identifier that is not in the
    table leaves every loan of the table as it is; [retourner] and
    [renouveler] keep every loan under its key with the same identifier,
    member, ISBN, bar code and loan date; [appliquer_penalites] leaves the
    table as it is. *)
Theorem X8_prets_conserves (st : Etat) :
  (forall (now : Z) (id_neuf matricule isbn : string)
          (code_barre : option string) (duree_jours : Z),
     Dict.get id_neuf (emprunts st) = None ->
     forall (id : string) (e : Emprunt.t),
       Dict.get id (emprunts st) = Some e ->
       Dict.get id
         (emprunts (snd (GestionEmprunt.emprunter now id_neuf matricule isbn
                           code_barre duree_jours st))) = Some e) /\
  (forall (now : Z) (id_emprunt : string),
     prets_conserves (emprunts st)
       (emprunts (snd (GestionEmprunt.retourner now id_emprunt st)))) /\
  (forall (now : Z) (id_emprunt : string) (jours : Z),
     prets_conserves (emprunts st)
       (emprunts (snd (GestionEmprunt.renouveler now id_emprunt jours st)))) /\
  (forall now : Z,
     emprunts (GestionEmprunt.appliquer_penalites now st) = emprunts st).
Proof.
  split; [|split; [|split]].
  - intros now id_neuf matricule isbn cb d Hneuf id e Hget.
    destruct (GestionEmprunt.emprunter now id_neuf matricule isbn cb d st)
      as [[emprunt|ex] st'] eqn:H; simpl.
    + apply emprunter_inversion in H.
      destruct H as (user & st1 & livre & exm & _ & Hs & _ & _ & _ & _ & _
                     & _ & ->).
      apply is_suspended_non in Hs. destruct Hs as (_ & _ & _ & Hem).
      simpl. rewrite Hem. rewrite dict_get_set_ne; [exact Hget|].
      intros ->. congruence.
    + apply emprunter_refuse in H. destruct H as (_ & _ & Hem & _).
      rewrite Hem. exact Hget.
  - intros now id.
    destruct (Dict.get id (emprunts st)) as [e0|] eqn:Hget.
    + destruct (Emprunt.date_retour e0) as [r|] eqn:Hret.
      * unfold GestionEmprunt.retourner. rewrite Hget, Hret.
        apply prets_conserves_refl.
      * destruct (retourner_en_cours now id st e0 Hget Hret)
          as (st' & Heq & _ & _ & Hem & _).
        rewrite Heq. cbn [snd]. rewrite Hem.
        apply prets_conserves_set with (e := e0); [exact Hget|].
        repeat split.
    + unfold GestionEmprunt.retourner. rewrite Hget.
      apply prets_conserves_refl.
  - intros now id jours.
    destruct (Dict.get id (emprunts st)) as [e0|] eqn:Hget.
    + rewrite (renouveler_service now id jours st e0 Hget).
      destruct (Emprunt.peut_renouveler now e0);
        [|apply prets_conserves_refl].
      destruct (Temps.plus_jours (Emprunt.date_echeance e0) jours);
        [|apply prets_conserves_refl].
      simpl. apply prets_conserves_set with (e := e0); [exact Hget|].
      repeat split.
    + unfold GestionEmprunt.renouveler. rewrite Hget.
      apply prets_conserves_refl.
  - intros now. reflexivity.
Qed.

Lemma X8_prets_conserves_temoin :
  let st' := snd (GestionEmprunt.emprunter (Exemple.T0 + Exemple.jours 1)
                    "EMP-00000002" "U-MMMMMMMM" "9780306406157" None 14
                    Exemple.apres_emprunt) in
  Dict.get "EMP-00000001" (emprunts st')
  = Some (Emprunt.mk "EMP-00000001" "U-MMMMMMMM" "9780306406157" "00001"
            Exemple.T0 (Exemple.T0 + Exemple.jours 14) None 0).
Proof.
  intros st'.
  apply (proj1 (X8_prets_conserves Exemple.apres_emprunt)).
  - vm_compute. reflexivity.
  - vm_compute. reflexivity.
Defined.

(** X9. The renewal counters stay between 0 and the maximum of two: if this
    is so for every loan of the table, it is still so after [emprunter],
    after [retourner] and after [renouveler], whatever they return. *)
Theorem X9_compteurs_bornes (st : Etat) :
  compteurs_bornes st ->
  (forall (now : Z) (id_neuf matricule isbn : string)
          (code_barre : option string) (duree_jours : Z),
     compteurs_bornes
       (snd (GestionEmprunt.emprunter now id_neuf matricule isbn code_barre
               duree_jours st))) /\
  (forall (now : Z) (id_emprunt : string),
     compteurs_bornes (snd (GestionEmprunt.retourner now id_emprunt st))) /\
  (forall (now : Z) (id_emprunt : string) (jours : Z),
     compteurs_bornes
       (snd (GestionEmprunt.renouveler now id_emprunt jours st))).
Proof.
  intros Hinv. unfold compteurs_bornes in *.
  change Emprunt.MAX_RENOUVELLEMENTS with 2 in *.
  split; [|split].
  - intros now id_neuf matricule isbn cb d.
    destruct (GestionEmprunt.emprunter now id_neuf matricule isbn cb d st)
      as [[emprunt|ex] st'] eqn:H; simpl.
    + apply emprunter_inversion in H.
      destruct H as (user & st1 & livre & exm & _ & Hs & _ & _ & _ & _ & _
                     & -> & ->).
      apply is_suspended_non in Hs. destruct Hs as (_ & _ & _ & Hem).
      simpl. rewrite Hem. intros e Hin. apply in_values_set in Hin.
      destruct Hin as [->|Hin]; [simpl; lia | apply Hinv; exact Hin].
    + apply emprunter_refuse in H. destruct H as (_ & _ & Hem & _).
      rewrite Hem. exact Hinv.
  - intros now id.
    destruct (Dict.get id (emprunts st)) as [e0|] eqn:Hget.
    + destruct (Emprunt.date_retour e0) as [r|] eqn:Hret.
      * unfold GestionEmprunt.retourner. rewrite Hget, Hret. exact Hinv.
      * destruct (retourner_en_cours now id st e0 Hget Hret)
          as (st' & Heq & _ & _ & Hem & _).
        rewrite Heq. cbn [snd]. rewrite Hem.
        intros e Hin. apply in_values_set in Hin.
        destruct Hin as [->|Hin]; [|apply Hinv; exact Hin].
        simpl. apply Hinv. apply dict_get_in_values with (k := id). exact Hget.
    + unfold GestionEmprunt.retourner. rewrite Hget. exact Hinv.
  - intros now id jours.
    destruct (Dict.get id (emprunts st)) as [e0|] eqn:Hget.
    + rewrite (renouveler_service now id jours st e0 Hget).
      destruct (Emprunt.peut_renouveler now e0) eqn:Hp; [|exact Hinv].
      destruct (Temps.plus_jours (Emprunt.date_echeance e0) jours);
        [|exact Hinv].
      simpl. intros e Hin. apply in_values_set in Hin.
      destruct Hin as [->|Hin]; [|apply Hinv; exact Hin].
      simpl. apply peut_renouveler_spec in Hp. destruct Hp as (_ & _ & Hmax).
      change Emprunt.MAX_RENOUVELLEMENTS with 2 in Hmax.
      pose proof (Hinv e0 (dict_get_in_values id e0 _ Hget)). lia.
    + unfold GestionEmprunt.renouveler. rewrite Hget. exact Hinv.
Qed.

Lemma X9_compteurs_bornes_temoin :
  compteurs_bornes
    (snd (GestionEmprunt.renouveler (Exemple.T0 + Exemple.jours 1)
            "EMP-00000001" 7 Exemple.apres_emprunt)).
Proof.
  apply (X9_compteurs_bornes Exemple.apres_emprunt).
  intros e [<-|[]]. vm_compute. split; discriminate.
Defined.

(** ** The queues *)

Lemma filter_tete {A} (p : A -> bool) (l : list A) :
  match List.find p l with
  | Some x => exists t, List.filter p l = x :: t
  | None => List.filter p l = []
  end.
Proof.
  induction l as [|x l IH]; simpl; [reflexivity|].
  destruct (p x); [eexists; reflexivity | exact IH].
Qed.

Lemma retirer_premier_sans_cible {A} (p : A -> bool) (l : list A) :
  existsb p l = false -> retirer_premier p l = l.
Proof.
  induction l as [|x l IH]; simpl; [reflexivity|].
  destruct (p x); simpl; [discriminate|].
  intros H. rewrite (IH H). reflexivity.
Qed.

Lemma traiter_file_notifie (now : Z) (isbn : string) (st : Etat)
    (l : Livre.t) (id : string) :
  reservation_gestion_livre (cablage st) = true ->
  GestionLivre.get_livre isbn st = Some l ->
  Livre.est_disponible l = true ->
  premier_en_attente st isbn = Some id ->
  exists r : Reservation.t,
    Dict.get id (reservations st) = Some r /\
    Reservation.statut r = Reservation.EN_ATTENTE /\
    GestionReservation.traiter_file now isbn st
    = (Some (Reservation.id r), apres_notification now isbn id r st).
Proof.
  intros Hgl Hl Hd Hp. unfold premier_en_attente in Hp.
  pose proof (filter_tete (GestionReservation.encore_en_attente st)
                (default [] (files st !! isbn))) as Ht.
  rewrite Hp in Ht. destruct Ht as (t & Ht).
  apply List.find_some in Hp. destruct Hp as (_ & Hp).
  unfold GestionReservation.encore_en_attente in Hp.
  destruct (Dict.get id (reservations st)) as [r|] eqn:Hr; [|discriminate].
  apply bool_decide_eq_true in Hp.
  exists r. split; [reflexivity|]. split; [exact Hp|].
  unfold GestionReservation.traiter_file.
  rewrite Hgl, Hl, Hd, Ht. cbn [negb set_files reservations].
  rewrite Hr. unfold Reservation.notifier.
  rewrite bool_decide_eq_true_2 by exact Hp. cbn [negb].
  unfold apres_notification. rewrite Ht. reflexivity.
Qed.

Lemma traiter_file_personne (now : Z) (isbn : string) (st : Etat)
    (l : Livre.t) :
  reservation_gestion_livre (cablage st) = true ->
  GestionLivre.get_livre isbn st = Some l ->
  Livre.est_disponible l = true ->
  premier_en_attente st isbn = None ->
  GestionReservation.traiter_file now isbn st
  = (None, set_files (<[isbn := []]> (files st)) st).
Proof.
  intros Hgl Hl Hd Hp. unfold premier_en_attente in Hp.
  pose proof (filter_tete (GestionReservation.encore_en_attente st)
                (default [] (files st !! isbn))) as Ht.
  rewrite Hp in Ht.
  unfold GestionReservation.traiter_file.
  rewrite Hgl, Hl, Hd, Ht. reflexivity.
Qed.

(** X10. [traiter_file] notifies nobody and changes nothing when the
    catalogue is not attached, when the book is not found or when it has no
    available copy.  Otherwise it notifies the first reservation of the
    queue of the book that is still pending, and only that one: it becomes
    notified, one notification for its member is written, the other
    reservations are as they were, and the queue keeps the identifiers whose
    reservation was pending, in their order.  When no reservation of the
    queue is pending the queue is emptied and nobody is notified. *)
Theorem X10_traiter_file (now : Z) (isbn : string) (st : Etat) :
  (reservation_gestion_livre (cablage st) = false ->
   GestionReservation.traiter_file now isbn st = (None, st)) /\
  (GestionLivre.get_livre isbn st = None ->
   GestionReservation.traiter_file now isbn st = (None, st)) /\
  (forall l : Livre.t,
     GestionLivre.get_livre isbn st = Some l ->
     Livre.est_disponible l = false ->
     GestionReservation.traiter_file now isbn st = (None, st)) /\
  (forall l : Livre.t,
     reservation_gestion_livre (cablage st) = true ->
     GestionLivre.get_livre isbn st = Some l ->
     Livre.est_disponible l = true ->
     match premier_en_attente st isbn with
     | None =>
         exists st' : Etat,
           GestionReservation.traiter_file now isbn st = (None, st') /\
           reservations st' = reservations st /\
           notifications st' = notifications st /\
           files st' !! isbn = Some []
     | Some id =>
         exists (r : Reservation.t) (st' : Etat),
           Dict.get id (reservations st) = Some r /\
           Reservation.statut r = Reservation.EN_ATTENTE /\
           GestionReservation.traiter_file now isbn st
           = (Some (Reservation.id r), st') /\
           Dict.get id (reservations st')
           = Some (Reservation.set_statut Reservation.NOTIFIE r) /\
           (forall autre : string,
              autre <> id ->
              Dict.get autre (reservations st')
              = Dict.get autre (reservations st)) /\
           notifications st'
           = (notifications st ++
                [mk_notification now (Reservation.matricule_user r)
                   (Reservation.isbn r) (Reservation.id r)])%list /\
           files st' !! isbn
           = Some (List.filter (GestionReservation.encore_en_attente st)
                     (default [] (files st !! isbn)))
     end).
Proof.
  split; [|split; [|split]].
  - intros H. unfold GestionReservation.traiter_file. rewrite H. reflexivity.
  - intros H. unfold GestionReservation.traiter_file. rewrite H.
    destruct (negb _); reflexivity.
  - intros l Hl Hd. unfold GestionReservation.traiter_file. rewrite Hl, Hd.
    destruct (negb _); reflexivity.
  - intros l Hgl Hl Hd.
    destruct (premier_en_attente st isbn) as [id|] eqn:Hp.
    + destruct (traiter_file_notifie now isbn st l id Hgl Hl Hd Hp)
        as (r & Hr & Hs & Heq).
      exists r, (apres_notification now isbn id r st).
      split; [exact Hr|]. split; [exact Hs|]. split; [exact Heq|].
      unfold apres_notification. simpl. split; [apply dict_get_set_eq|].
      split; [|split; [reflexivity | apply lookup_insert_eq]].
      intros autre Hne. apply dict_get_set_ne. congruence.
    + rewrite (traiter_file_personne now isbn st l Hgl Hl Hd Hp).
      eexists. split; [reflexivity|]. simpl.
      repeat split. apply lookup_insert_eq.
Qed.

Lemma X10_traiter_file_temoin :
  exists st' : Etat,
    GestionReservation.traiter_file Exemple.T0 "9780306406157"
      Exemple.trois_reservations = (Some "RES-00000002", st') /\
    Reservation.statut <$> Dict.get "RES-00000002" (reservations st')
    = Some Reservation.NOTIFIE /\
    Dict.get "RES-00000003" (reservations st')
    = Dict.get "RES-00000003" (reservations Exemple.trois_reservations) /\
    files st' !! "9780306406157" = Some ["RES-00000002"; "RES-00000003"].
Proof.
  destruct (X10_traiter_file Exemple.T0 "9780306406157"
              Exemple.trois_reservations) as (_ & _ & _ & H).
  specialize (H Exemple.livre eq_refl eq_refl eq_refl).
  change (premier_en_attente Exemple.trois_reservations "9780306406157")
    with (Some "RES-00000002") in H.
  destruct H as (r & st' & Hr & _ & Heq & Hn & Ha & _ & Hf).
  vm_compute in Hr. injection Hr as <-.
  exists st'. split; [exact Heq|]. split; [rewrite Hn; reflexivity|].
  split; [apply Ha; discriminate|].
  rewrite Hf. vm_compute. reflexivity.
Defined.

Lemma retirer_de_file_spec (isbn id : string) (st : Etat) :
  let st' := GestionReservation._retirer_de_file isbn id st in
  default [] (files st' !! isbn)
  = retirer_premier (String.eqb id) (default [] (files st !! isbn)) /\
  (forall autre : string, autre <> isbn -> files st' !! autre = files st !! autre) /\
  reservations st' = reservations st /\ emprunts st' = emprunts st /\
  livres st' = livres st /\ utilisateurs st' = utilisateurs st /\
  suspensions st' = suspensions st /\ notifications st' = notifications st.
Proof.
  unfold GestionReservation._retirer_de_file.
  destruct (files st !! isbn) as [file|] eqn:Hf.
  - destruct (existsb (String.eqb id) file) eqn:He.
    + simpl. rewrite lookup_insert_eq. simpl. repeat split.
      intros autre Hne. apply lookup_insert_ne. congruence.
    + simpl. rewrite Hf. simpl.
      rewrite (retirer_premier_sans_cible _ _ He). repeat split.
  - simpl. rewrite Hf. simpl. repeat split.
Qed.

Lemma emprunter_laisse_reservations (now : Z) (id_neuf matricule isbn : string)
    (code_barre : option string) (duree_jours : Z) (st : Etat) :
  let st' := snd (GestionEmprunt.emprunter now id_neuf matricule isbn
                    code_barre duree_jours st) in
  reservations st' = reservations st /\ files st' = files st /\
  notifications st' = notifications st.
Proof.
  destruct (GestionEmprunt.emprunter now id_neuf matricule isbn code_barre
              duree_jours st) as [[emprunt|e] st'] eqn:H; simpl.
  - apply emprunter_accorde in H.
    destruct H as (st1 & livre & ex & Hinch & _ & _ & _ & _ & ->).
    destruct Hinch as (_ & _ & _ & Hr & Hf & Hn & _). simpl. tauto.
  - apply emprunter_refuse in H.
    destruct H as (_ & _ & _ & Hr & Hf & Hn & _). tauto.
Qed.

Lemma confirmer_accorde (now : Z) (id_neuf id_reservation : string)
    (st : Etat) (r : Reservation.t) (emprunt : Emprunt.t) (st1 : Etat) :
  GestionReservation.get_reservation id_reservation st = Some r ->
  Reservation.statut r = Reservation.NOTIFIE ->
  Bibliotheque.service_emprunt now id_neuf (Reservation.matricule_user r)
    (Reservation.isbn r) st = (Ok emprunt, st1) ->
  Bibliotheque.confirmer now id_neuf id_reservation st
  = (true,
     GestionReservation.sauvegarder
       (GestionReservation._retirer_de_file (Reservation.isbn r)
          id_reservation
          (set_reservations
             (Dict.set id_reservation
                (Reservation.set_statut Reservation.CONFIRME r)
                (reservations st1)) st1))).
Proof.
  unfold GestionReservation.get_reservation, Bibliotheque.confirmer,
    GestionReservation_confirmer.
  intros Hr Hs Hemp. rewrite Hr. unfold Reservation.est_confirmable.
  rewrite bool_decide_eq_true_2 by exact Hs. cbn [negb]. rewrite Hemp.
  unfold Bibliotheque.service_emprunt in Hemp.
  pose proof (emprunter_laisse_reservations now id_neuf
                (Reservation.matricule_user r) (Reservation.isbn r) None 14
                st) as Hres.
  rewrite Hemp in Hres. cbn [snd] in Hres. destruct Hres as (Hres & _).
  rewrite Hres, Hr. unfold Reservation.confirmer.
  change (default r (Some r)) with r.
  rewrite bool_decide_eq_true_2 by exact Hs. reflexivity.
Qed.

(** X11. [confirmer] returns [False] and changes nothing when the
    reservation does not exist or is not notified.  When it is notified and
    the loan is granted, [confirmer] returns [True]: the reservation is
    confirmed, its identifier has left the queue of the book (its first
    occurrence), and the table of loans holds the new loan, made for the
    member and the book of the reservation. *)
Theorem X11_confirmation (now : Z) (id_neuf id_reservation : string)
    (st : Etat) :
  (GestionReservation.get_reservation id_reservation st = None ->
   Bibliotheque.confirmer now id_neuf id_reservation st = (false, st)) /\
  (forall r : Reservation.t,
     GestionReservation.get_reservation id_reservation st = Some r ->
     Reservation.statut r <> Reservation.NOTIFIE ->
     Bibliotheque.confirmer now id_neuf id_reservation st = (false, st)) /\
  (forall (r : Reservation.t) (emprunt : Emprunt.t) (st1 : Etat),
     GestionReservation.get_reservation id_reservation st = Some r ->
     Reservation.statut r = Reservation.NOTIFIE ->
     Bibliotheque.service_emprunt now id_neuf (Reservation.matricule_user r)
       (Reservation.isbn r) st = (Ok emprunt, st1) ->
     exists st' : Etat,
       Bibliotheque.confirmer now id_neuf id_reservation st = (true, st') /\
       GestionReservation.get_reservation id_reservation st'
       = Some (Reservation.set_statut Reservation.CONFIRME r) /\
       default [] (files st' !! Reservation.isbn r)
       = retirer_premier (String.eqb id_reservation)
           (default [] (files st !! Reservation.isbn r)) /\
       GestionEmprunt.get_emprunt id_neuf st' = Some emprunt /\
       Emprunt.matricule_user emprunt = Reservation.matricule_user r /\
       Emprunt.isbn emprunt = Reservation.isbn r /\
       Emprunt.date_echeance emprunt = now + Temps.timedelta 14).
Proof.
  split; [|split].
  - unfold GestionReservation.get_reservation, Bibliotheque.confirmer,
      GestionReservation_confirmer. intros ->. reflexivity.
  - unfold GestionReservation.get_reservation, Bibliotheque.confirmer,
      GestionReservation_confirmer. intros r -> Hs.
    unfold Reservation.est_confirmable.
    rewrite bool_decide_eq_false_2 by exact Hs. reflexivity.
  - intros r emprunt st1 Hr Hs Hemp.
    rewrite (confirmer_accorde now id_neuf id_reservation st r emprunt st1
               Hr Hs Hemp).
    eexists. split; [reflexivity|].
    unfold Bibliotheque.service_emprunt in Hemp.
    pose proof (emprunter_laisse_reservations now id_neuf
                  (Reservation.matricule_user r) (Reservation.isbn r) None 14
                  st) as Hres.
    rewrite Hemp in Hres. cbn [snd] in Hres. destruct Hres as (_ & Hf & _).
    apply emprunter_inversion in Hemp.
    destruct Hemp as (user & st0 & livre & ex & _ & _ & _ & _ & _ & _ & _
                      & He & Hst1).
    assert (Hloan : Dict.get id_neuf (emprunts st1) = Some emprunt)
      by (rewrite Hst1; simpl; apply dict_get_set_eq).
    pose proof (retirer_de_file_spec (Reservation.isbn r) id_reservation
                  (set_reservations
                     (Dict.set id_reservation
                        (Reservation.set_statut Reservation.CONFIRME r)
                        (reservations st1)) st1)) as Hq.
    cbv zeta in Hq. destruct Hq as (Hq & _ & Hq2 & Hq3 & _).
    unfold GestionReservation.get_reservation, GestionEmprunt.get_emprunt.
    cbn [GestionReservation.sauvegarder reservations files emprunts
         set_fichier_reservations].
    rewrite Hq, Hq2, Hq3. cbn [reservations files emprunts set_reservations].
    rewrite Hf. split; [apply dict_get_set_eq|]. split; [reflexivity|].
    split; [exact Hloan|]. rewrite He. repeat split.
Qed.

Lemma X11_confirmation_temoin :
  let st := snd (GestionEmprunt.retourner (Exemple.T0 + Exemple.jours 5)
                   "EMP-00000001" Exemple.pret_et_attente) in
  exists st' : Etat,
    Bibliotheque.confirmer (Exemple.T0 + Exemple.jours 6) "EMP-00000002"
      "RES-00000001" st = (true, st') /\
    Reservation.statut <$> GestionReservation.get_reservation "RES-00000001" st'
    = Some Reservation.CONFIRME /\
    default [] (files st' !! "9780306406157") = [] /\
    Emprunt.matricule_user <$> GestionEmprunt.get_emprunt "EMP-00000002" st'
    = Some "U-NNNNNNNN".
Proof.
  intros st.
  destruct (X11_confirmation (Exemple.T0 + Exemple.jours 6) "EMP-00000002"
              "RES-00000001" st) as (_ & _ & H).
  destruct (H (Reservation.mk "RES-00000001" "U-NNNNNNNN" "9780306406157"
                 (Exemple.T0 + Exemple.jours 1) Reservation.NOTIFIE)
              (Emprunt.mk "EMP-00000002" "U-NNNNNNNN" "9780306406157" "00001"
                 (Exemple.T0 + Exemple.jours 6)
                 (Exemple.T0 + Exemple.jours 20) None 0)
              (snd (Bibliotheque.service_emprunt
                      (Exemple.T0 + Exemple.jours 6) "EMP-00000002"
                      "U-NNNNNNNN" "9780306406157" st)))
    as (st' & H1 & H2 & H3 & H4 & _).
  - vm_compute. reflexivity.
  - reflexivity.
  - vm_compute. reflexivity.
  - exists st'. split; [exact H1|]. split; [rewrite H2; reflexivity|].
    split; [cbn [Reservation.isbn] in H3; rewrite H3; vm_compute; reflexivity|].
    rewrite H4. reflexivity.
Defined.

Lemma annuler_statut (r : Reservation.t) :
  snd (Reservation.annuler r) = Reservation.set_statut Reservation.ANNULE r.
Proof.
  unfold Reservation.annuler. destruct r as [i m b d s].
  destruct s; reflexivity.
Qed.

Lemma dict_set_set {V} (k : string) (v v' : V) (d : Dict.t V) :
  Dict.set k v (Dict.set k v' d) = Dict.set k v d.
Proof.
  induction d as [|[k0 v0] d IH]; simpl.
  - rewrite String.eqb_refl. reflexivity.
  - destruct (String.eqb k0 k) eqn:E; simpl.
    + rewrite String.eqb_refl. reflexivity.
    + rewrite E, IH. reflexivity.
Qed.

(** X12. [annuler] returns [False] and changes nothing for an identifier
    that is not in the table.  Otherwise it returns [True], whatever the
    status was: the reservation is cancelled, the other reservations are as
    they were, the first occurrence of the identifier has left the queue of
    the book and the other queues are as they were.  Cancelling once more
    leaves the table of reservations as it is. *)
Theorem X12_annulation (id_reservation : string) (st : Etat) :
  (GestionReservation.get_reservation id_reservation st = None ->
   GestionReservation.annuler id_reservation st = (false, st)) /\
  (forall r : Reservation.t,
     GestionReservation.get_reservation id_reservation st = Some r ->
     exists st' : Etat,
       GestionReservation.annuler id_reservation st = (true, st') /\
       GestionReservation.get_reservation id_reservation st'
       = Some (Reservation.set_statut Reservation.ANNULE r) /\
       (forall autre : string,
          autre <> id_reservation ->
          GestionReservation.get_reservation autre st'
          = GestionReservation.get_reservation autre st) /\
       default [] (files st' !! Reservation.isbn r)
       = retirer_premier (String.eqb id_reservation)
           (default [] (files st !! Reservation.isbn r)) /\
       (forall autre : string,
          autre <> Reservation.isbn r ->
          files st' !! autre = files st !! autre) /\
       fst (GestionReservation.annuler id_reservation st') = true /\
       reservations (snd (GestionReservation.annuler id_reservation st'))
       = reservations st').
Proof.
  unfold GestionReservation.get_reservation. split.
  - intros H. unfold GestionReservation.annuler. rewrite H. reflexivity.
  - intros r Hr. unfold GestionReservation.annuler at 1. rewrite Hr.
    rewrite annuler_statut. eexists. split; [reflexivity|].
    pose proof (retirer_de_file_spec (Reservation.isbn r) id_reservation
                  (set_reservations
                     (Dict.set id_reservation
                        (Reservation.set_statut Reservation.ANNULE r)
                        (reservations st)) st)) as Hq.
    cbv zeta in Hq. destruct Hq as (Hq & Hq1 & Hq2 & _).
    cbn [Reservation.isbn Reservation.set_statut
         GestionReservation.sauvegarder reservations files
         set_fichier_reservations].
    cbn [Reservation.isbn Reservation.set_statut] in Hq, Hq1, Hq2.
    rewrite Hq, Hq2. cbn [reservations files set_reservations].
    split; [apply dict_get_set_eq|]. split; [|split; [reflexivity|split]].
    + intros autre Hne. apply dict_get_set_ne. congruence.
    + intros autre Hne. rewrite (Hq1 autre Hne). reflexivity.
    + unfold GestionReservation.annuler.
      cbn [GestionReservation.sauvegarder reservations
           set_fichier_reservations].
      rewrite Hq2. cbn [reservations set_reservations].
      rewrite dict_get_set_eq. split; [reflexivity|].
      rewrite annuler_statut.
      match goal with
      | |- context [GestionReservation._retirer_de_file ?i ?k ?s] =>
          pose proof (retirer_de_file_spec i k s) as Hq'
      end.
      cbv zeta in Hq'. destruct Hq' as (_ & _ & Hq' & _).
      cbn [snd GestionReservation.sauvegarder reservations
           set_fichier_reservations].
      rewrite Hq'. cbn [reservations set_reservations].
      rewrite dict_set_set. reflexivity.
Qed.

Lemma X12_annulation_temoin :
  exists st' : Etat,
    GestionReservation.annuler "RES-00000002" Exemple.trois_reservations
    = (true, st') /\
    Reservation.statut <$> GestionReservation.get_reservation "RES-00000002" st'
    = Some Reservation.ANNULE /\
    default [] (files st' !! "9780306406157")
    = ["RES-00000001"; "RES-00000003"].
Proof.
  destruct (proj2 (X12_annulation "RES-00000002" Exemple.trois_reservations)
              (Exemple.reservation "RES-00000002" "U-NNNNNNNN"
                 Reservation.EN_ATTENTE) eq_refl)
    as (st' & H1 & H2 & _ & H4 & _).
  exists st'. split; [exact H1|]. split; [rewrite H2; reflexivity|].
  cbn [Reservation.isbn Exemple.reservation] in H4. rewrite H4.
  vm_compute. reflexivity.
Defined.

Lemma reserver_inversion (now : Z) (id_neuf matricule isbn : string)
    (st st' : Etat) (r : Reservation.t) :
  GestionReservation.reserver now id_neuf matricule isbn st = (Ok r, st') ->
  r = Reservation.mk id_neuf matricule isbn now Reservation.EN_ATTENTE /\
  st' = GestionReservation.sauvegarder
          (GestionReservation._ajouter_a_file isbn id_neuf
             (set_reservations (Dict.set id_neuf r (reservations st)) st)).
Proof.
  unfold GestionReservation.reserver. intros H.
  destruct (_ && _); [discriminate|].
  destruct (_ && _); [discriminate|].
  destruct (_ && _); [discriminate|].
  destruct (existsb _ _); [discriminate|].
  unfold Reservation.init in H.
  destruct (String.eqb matricule ""); [discriminate|].
  destruct (String.eqb isbn ""); [discriminate|].
  injection H as <- <-. split; reflexivity.
Qed.

Lemma lister_file_autre_table (id : string) (r : Reservation.t)
    (d : Dict.t Reservation.t) (l : list string) :
  ~ In id l ->
  omap (fun i =>
          match Dict.get i (Dict.set id r d) with
          | Some r0 =>
              if bool_decide (Reservation.statut r0 = Reservation.EN_ATTENTE)
              then Some r0 else None
          | None => None
          end) l
  = omap (fun i =>
            match Dict.get i d with
            | Some r0 =>
                if bool_decide (Reservation.statut r0 = Reservation.EN_ATTENTE)
                then Some r0 else None
            | None => None
            end) l.
Proof.
  induction l as [|x l IH]; intros Hn; [reflexivity|].
  cbn [omap list_omap].
  rewrite dict_get_set_ne by (intros ->; apply Hn; left; reflexivity).
  rewrite IH by (intros H; apply Hn; right; exact H). reflexivity.
Qed.

(** X13. A reservation that is made, under an identifier that is neither in
    the table nor in a queue, comes last in the list of the pending
    reservations of its book: the list is the list before followed by the
    new reservation, and the lists of the other books are as they were. *)
Theorem X13_reservation_en_queue (now : Z) (id_neuf matricule isbn : string)
    (st st' : Etat) (r : Reservation.t) :
  GestionReservation.reserver now id_neuf matricule isbn st = (Ok r, st') ->
  Dict.get id_neuf (reservations st) = None ->
  (forall q : string, ~ In id_neuf (default [] (files st !! q))) ->
  GestionReservation.lister_file_pour_isbn isbn st'
  = (GestionReservation.lister_file_pour_isbn isbn st ++ [r])%list /\
  forall autre : string,
    autre <> isbn ->
    GestionReservation.lister_file_pour_isbn autre st'
    = GestionReservation.lister_file_pour_isbn autre st.
Proof.
  intros H Hneuf Hqueues. apply reserver_inversion in H.
  destruct H as (Hr & ->).
  unfold GestionReservation.lister_file_pour_isbn.
  cbn [GestionReservation.sauvegarder GestionReservation._ajouter_a_file
       reservations files set_fichier_reservations set_files
       set_reservations].
  split.
  - rewrite lookup_insert_eq. cbn [default from_option id].
    rewrite omap_app.
    rewrite lister_file_autre_table by apply Hqueues.
    f_equal. cbn [omap list_omap]. rewrite dict_get_set_eq.
    rewrite Hr. reflexivity.
  - intros autre Hne. rewrite lookup_insert_ne by congruence.
    apply lister_file_autre_table. apply Hqueues.
Qed.

Lemma X13_reservation_en_queue_temoin :
  let r := Reservation.mk "RES-00000004" "U-NNNNNNNN" "9780306406157"
             (Exemple.T0 + Exemple.jours 2) Reservation.EN_ATTENTE in
  let st := snd (GestionEmprunt.emprunter Exemple.T0 "EMP-00000001"
                   "U-MMMMMMMM" "9780306406157" None 14
                   Exemple.trois_reservations) in
  let st' := snd (GestionReservation.reserver (Exemple.T0 + Exemple.jours 2)
                    "RES-00000004" "U-NNNNNNNN" "9780306406157"
                    (snd (GestionReservation.annuler "RES-00000002" st))) in
  GestionReservation.lister_file_pour_isbn "9780306406157" st'
  = [Exemple.reservation "RES-00000003" "U-MMMMMMMM" Reservation.EN_ATTENTE; r].
Proof.
  intros r st st'.
  destruct (X13_reservation_en_queue (Exemple.T0 + Exemple.jours 2)
              "RES-00000004" "U-NNNNNNNN" "9780306406157"
              (snd (GestionReservation.annuler "RES-00000002" st)) st' r)
    as (H & _).
  - vm_compute. reflexivity.
  - vm_compute. reflexivity.
  - intros q.
    destruct (decide (q = "9780306406157")) as [->|Hne].
    + vm_compute. intros [H|[H|[]]]; discriminate.
    + assert (E : files (snd (GestionReservation.annuler "RES-00000002" st))
                  !! q = None).
      { change (files (snd (GestionReservation.annuler "RES-00000002" st)))
          with (<["9780306406157" := ["RES-00000001"; "RES-00000003"]]>
                  (files st)).
        rewrite lookup_insert_ne by congruence.
        change (files st)
          with (<["9780306406157" :=
                    ["RES-00000001"; "RES-00000002"; "RES-00000003"]]>
                  (∅ : gmap string (list string))).
        rewrite lookup_insert_ne by congruence. apply lookup_empty. }
      rewrite E. intros [].
  - rewrite H. vm_compute. reflexivity.
Defined.

(** ** The reservations through the services *)

Lemma evolue_refl (r : Reservation.t) : evolue r r.
Proof. left. reflexivity. Qed.

Lemma reservations_conservees_refl (d : Dict.t Reservation.t) :
  reservations_conservees d d.
Proof. intros id r H. exists r. split; [exact H | apply evolue_refl]. Qed.

Lemma reservations_conservees_set (id : string) (r r' : Reservation.t)
    (d : Dict.t Reservation.t) :
  Dict.get id d = Some r -> evolue r r' ->
  reservations_conservees d (Dict.set id r' d).
Proof.
  intros Hget Hev id0 r0 H0.
  destruct (decide (id = id0)) as [<-|Hne].
  - rewrite dict_get_set_eq. exists r'. split; [reflexivity|].
    rewrite Hget in H0. injection H0 as <-. exact Hev.
  - rewrite dict_get_set_ne by exact Hne. exists r0.
    split; [exact H0 | apply evolue_refl].
Qed.

Lemma evolue_methode (m : Methode) (r : Reservation.t) :
  evolue r (snd (appliquer m r)).
Proof.
  destruct r as [i mu ib d s].
  destruct m, s; vm_compute;
    first [ left; reflexivity
          | right; split; [reflexivity | tauto] ].
Qed.

Lemma traiter_file_conserve (now : Z) (isbn : string) (st : Etat) :
  reservations_conservees (reservations st)
    (reservations (snd (GestionReservation.traiter_file now isbn st))).
Proof.
  unfold GestionReservation.traiter_file.
  destruct (negb (reservation_gestion_livre (cablage st)));
    [apply reservations_conservees_refl|].
  destruct (GestionLivre.get_livre isbn st) as [livre|];
    [|apply reservations_conservees_refl].
  destruct (negb (Livre.est_disponible livre));
    [apply reservations_conservees_refl|].
  destruct (List.filter _ _) as [|first_id file];
    [apply reservations_conservees_refl|].
  cbn [reservations set_files].
  destruct (Dict.get first_id (reservations st)) as [r|] eqn:Hr;
    [|apply reservations_conservees_refl].
  pose proof (evolue_methode m_notifier r) as Hev. cbn [appliquer] in Hev.
  destruct (Reservation.notifier r) as [[u|e] r'];
    [|apply reservations_conservees_refl].
  cbn [snd] in Hev |- *.
  cbn [GestionReservation.sauvegarder reservations set_fichier_reservations
       set_notifications set_reservations].
  apply reservations_conservees_set with (r := r); assumption.
Qed.

(** The state that [retourner] hands to [traiter_file] and what it makes of
    the answer. *)
Lemma retourner_puis_file (now : Z) (id_emprunt : string) (st : Etat)
    (emprunt0 : Emprunt.t) :
  Dict.get id_emprunt (emprunts st) = Some emprunt0 ->
  Emprunt.date_retour emprunt0 = None ->
  exists st4 : Etat,
    livres st4
    = maj_premier (GestionLivre.a_isbn (Emprunt.isbn emprunt0))
        (GestionEmprunt.reprendre (Emprunt.code_barre emprunt0)) (livres st) /\
    reservations st4 = reservations st /\ files st4 = files st /\
    notifications st4 = notifications st /\ cablage st4 = cablage st /\
    let st5 :=
      if emprunt_gestion_reservation (cablage st)
      then snd (GestionReservation.traiter_file now (Emprunt.isbn emprunt0) st4)
      else st4 in
    let st' := snd (GestionEmprunt.retourner now id_emprunt st) in
    reservations st' = reservations st5 /\ files st' = files st5 /\
    notifications st' = notifications st5.
Proof.
  intros Hget Hret. unfold GestionEmprunt.retourner. rewrite Hget, Hret.
  match goal with
  | |- context [if emprunt_gestion_reservation (cablage ?s) then _ else _] =>
      exists s
  end.
  destruct (bool_decide _); cbn [snd]; repeat split.
Qed.

(** X14. The services never delete a reservation, and never change
    anything of a reservation but its status, which only moves along the
    transitions pending to notified, notified to confirmed, and pending,
    notified or confirmed to cancelled.  This holds of [reserver] (with an
    identifier that is not in the table), [annuler], [traiter_file],
    [confirmer] and [retourner], whatever they return; [emprunter] leaves
    the table of reservations as it is. *)
Theorem X14_reservations_conservees (st : Etat) :
  (forall (now : Z) (id_neuf matricule isbn : string),
     Dict.get id_neuf (reservations st) = None ->
     reservations_conservees (reservations st)
       (reservations
          (snd (GestionReservation.reserver now id_neuf matricule isbn st)))) /\
  (forall id_reservation : string,
     reservations_conservees (reservations st)
       (reservations (snd (GestionReservation.annuler id_reservation st)))) /\
  (forall (now : Z) (isbn : string),
     reservations_conservees (reservations st)
       (reservations (snd (GestionReservation.traiter_file now isbn st)))) /\
  (forall (now : Z) (id_neuf id_reservation : string),
     reservations_conservees (reservations st)
       (reservations
          (snd (Bibliotheque.confirmer now id_neuf id_reservation st)))) /\
  (forall (now : Z) (id_emprunt : string),
     reservations_conservees (reservations st)
       (reservations (snd (GestionEmprunt.retourner now id_emprunt st)))) /\
  (forall (now : Z) (id_neuf matricule isbn : string)
          (code_barre : option string) (duree_jours : Z),
     reservations
       (snd (GestionEmprunt.emprunter now id_neuf matricule isbn code_barre
               duree_jours st)) = reservations st).
Proof.
  split; [|split; [|split; [|split; [|split]]]].
  - intros now id_neuf matricule isbn Hneuf.
    destruct (GestionReservation.reserver now id_neuf matricule isbn st)
      as [[r|e] st'] eqn:H.
    + apply reserver_inversion in H. destruct H as (_ & ->).
      cbn. intros id r0 H0. exists r0. split; [|apply evolue_refl].
      rewrite dict_get_set_ne; [exact H0|]. intros ->. congruence.
    + unfold GestionReservation.reserver in H.
      repeat (destruct (_ && _); [injection H as _ <-;
                                  apply reservations_conservees_refl|]).
      destruct (existsb _ _);
        [injection H as _ <-; apply reservations_conservees_refl|].
      destruct (Reservation.init _ _ _ _ _ _ _); [discriminate|].
      injection H as _ <-. apply reservations_conservees_refl.
  - intros id. unfold GestionReservation.annuler.
    destruct (Dict.get id (reservations st)) as [r|] eqn:Hr;
      [|apply reservations_conservees_refl].
    match goal with
    | |- context [GestionReservation._retirer_de_file ?i ?k ?s] =>
        pose proof (retirer_de_file_spec i k s) as Hq
    end.
    cbv zeta in Hq. destruct Hq as (_ & _ & Hq & _).
    cbn [snd GestionReservation.sauvegarder reservations
         set_fichier_reservations].
    rewrite Hq. cbn [reservations set_reservations].
    apply reservations_conservees_set with (r := r); [exact Hr|].
    apply (evolue_methode m_annuler r).
  - intros now isbn. apply traiter_file_conserve.
  - intros now id_neuf id.
    destruct (GestionReservation.get_reservation id st) as [r|] eqn:Hr.
    + destruct (decide (Reservation.statut r = Reservation.NOTIFIE))
        as [Hs|Hs].
      * destruct (Bibliotheque.service_emprunt now id_neuf
                    (Reservation.matricule_user r) (Reservation.isbn r) st)
          as [[emprunt|e] st1] eqn:Hemp.
        -- rewrite (confirmer_accorde now id_neuf id st r emprunt st1 Hr Hs
                      Hemp).
           unfold Bibliotheque.service_emprunt in Hemp.
           pose proof (emprunter_laisse_reservations now id_neuf
                         (Reservation.matricule_user r) (Reservation.isbn r)
                         None 14 st) as Hres.
           rewrite Hemp in Hres. cbn [snd] in Hres.
           destruct Hres as (Hres & _).
           match goal with
           | |- context [GestionReservation._retirer_de_file ?i ?k ?s] =>
               pose proof (retirer_de_file_spec i k s) as Hq
           end.
           cbv zeta in Hq. destruct Hq as (_ & _ & Hq & _).
           cbn [snd GestionReservation.sauvegarder reservations
                set_fichier_reservations].
           rewrite Hq. cbn [reservations set_reservations]. rewrite Hres.
           apply reservations_conservees_set with (r := r); [exact Hr|].
           right. split; [reflexivity|]. cbn. rewrite Hs. tauto.
        -- unfold Bibliotheque.confirmer, GestionReservation_confirmer.
           unfold GestionReservation.get_reservation in Hr. rewrite Hr.
           unfold Reservation.est_confirmable.
           rewrite bool_decide_eq_true_2 by exact Hs. cbn [negb].
           rewrite Hemp. cbn [snd].
           unfold Bibliotheque.service_emprunt in Hemp.
           apply emprunter_refuse in Hemp.
           destruct Hemp as (_ & _ & _ & -> & _).
           apply reservations_conservees_refl.
      * unfold Bibliotheque.confirmer, GestionReservation_confirmer.
        unfold GestionReservation.get_reservation in Hr. rewrite Hr.
        unfold Reservation.est_confirmable.
        rewrite bool_decide_eq_false_2 by exact Hs.
        apply reservations_conservees_refl.
    + unfold Bibliotheque.confirmer, GestionReservation_confirmer.
      unfold GestionReservation.get_reservation in Hr. rewrite Hr.
      apply reservations_conservees_refl.
  - intros now id.
    destruct (Dict.get id (emprunts st)) as [e0|] eqn:Hget.
    + destruct (Emprunt.date_retour e0) as [ret|] eqn:Hret.
      * unfold GestionEmprunt.retourner. rewrite Hget, Hret.
        apply reservations_conservees_refl.
      * destruct (retourner_puis_file now id st e0 Hget Hret)
          as (st4 & _ & Hr4 & _ & _ & _ & H).
        cbv zeta in H. destruct H as (-> & _).
        destruct (emprunt_gestion_reservation (cablage st)).
        -- rewrite <- Hr4. apply traiter_file_conserve.
        -- rewrite Hr4. apply reservations_conservees_refl.
    + unfold GestionEmprunt.retourner. rewrite Hget.
      apply reservations_conservees_refl.
  - intros now id_neuf matricule isbn cb d.
    apply emprunter_laisse_reservations.
Qed.

Lemma X14_reservations_conservees_temoin :
  exists r' : Reservation.t,
    Dict.get "RES-00000003"
      (reservations
         (snd (GestionReservation.reserver Exemple.T0 "RES-00000004"
                 "U-NNNNNNNN" "9780306406157" Exemple.trois_reservations)))
    = Some r' /\
    evolue (Exemple.reservation "RES-00000003" "U-MMMMMMMM"
              Reservation.EN_ATTENTE) r'.
Proof.
  apply (proj1 (X14_reservations_conservees Exemple.trois_reservations)
           Exemple.T0 "RES-00000004" "U-NNNNNNNN" "9780306406157").
  - vm_compute. reflexivity.
  - vm_compute. reflexivity.
Defined.

(** ** A copy that becomes available *)

Lemma reprendre_disponible (code_barre : string) (l : Livre.t)
    (ex : Exemplaire.t) :
  In ex (Livre.exemplaires l) ->
  Exemplaire.code_barre ex = code_barre ->
  Livre.est_disponible (GestionEmprunt.reprendre code_barre l) = true.
Proof.
  intros Hin Hcb. apply est_disponible_spec.
  unfold GestionEmprunt.reprendre.
  rewrite mettre_a_jour_statut_exemplaires. simpl.
  induction (Livre.exemplaires l) as [|x xs IH]; [destruct Hin|].
  simpl. destruct (Livre.a_code_barre code_barre x) eqn:Hx.
  - eexists. split; [left; reflexivity | reflexivity].
  - destruct Hin as [->|Hin].
    + unfold Livre.a_code_barre in Hx. rewrite Hcb in Hx.
      rewrite String.eqb_refl in Hx. discriminate.
    + destruct (IH Hin) as (ex' & Hin' & Hs).
      exists ex'. split; [right; exact Hin' | exact Hs].
Qed.

Lemma premier_en_attente_ext (st st' : Etat) (isbn : string) :
  reservations st' = reservations st -> files st' = files st ->
  premier_en_attente st' isbn = premier_en_attente st isbn.
Proof.
  intros Hr Hf. unfold premier_en_attente, GestionReservation.encore_en_attente.
  rewrite Hr, Hf. reflexivity.
Qed.

(** X15. When a copy comes back to a book that members wait for, the first
    of them is told: with the services attached, after the return of a loan
    still out whose book has a copy with the bar code of the loan, the first
    pending reservation of the queue of the book is notified, a notification
    for its member is written, and the other reservations are as they
    were. *)
Theorem X15_retour_notifie (now : Z) (id_emprunt : string) (st : Etat)
    (emprunt0 : Emprunt.t) (l : Livre.t) (ex : Exemplaire.t) (rid : string) :
  Dict.get id_emprunt (emprunts st) = Some emprunt0 ->
  Emprunt.date_retour emprunt0 = None ->
  emprunt_gestion_reservation (cablage st) = true ->
  reservation_gestion_livre (cablage st) = true ->
  GestionLivre.get_livre (Emprunt.isbn emprunt0) st = Some l ->
  In ex (Livre.exemplaires l) ->
  Exemplaire.code_barre ex = Emprunt.code_barre emprunt0 ->
  premier_en_attente st (Emprunt.isbn emprunt0) = Some rid ->
  exists r : Reservation.t,
    Dict.get rid (reservations st) = Some r /\
    Reservation.statut r = Reservation.EN_ATTENTE /\
    let st' := snd (GestionEmprunt.retourner now id_emprunt st) in
    Dict.get rid (reservations st')
    = Some (Reservation.set_statut Reservation.NOTIFIE r) /\
    notifications st'
    = (notifications st ++
         [mk_notification now (Reservation.matricule_user r)
            (Reservation.isbn r) (Reservation.id r)])%list /\
    forall autre : string,
      autre <> rid ->
      Dict.get autre (reservations st') = Dict.get autre (reservations st).
Proof.
  intros Hget Hret Hwe Hwl Hl Hin Hcb Hp.
  destruct (retourner_puis_file now id_emprunt st emprunt0 Hget Hret)
    as (st4 & Hlv & Hr4 & Hf4 & Hn4 & Hc4 & H).
  cbv zeta in H. rewrite Hwe in H. destruct H as (Hres & _ & Hnot).
  assert (Hl4 : GestionLivre.get_livre (Emprunt.isbn emprunt0) st4
                = Some (GestionEmprunt.reprendre
                          (Emprunt.code_barre emprunt0) l)).
  { unfold GestionLivre.get_livre in *. rewrite Hlv.
    rewrite find_maj_premier, Hl; [reflexivity|].
    intros x Hx. unfold GestionLivre.a_isbn in *.
    rewrite reprendre_isbn. exact Hx. }
  assert (Hwl4 : reservation_gestion_livre (cablage st4) = true)
    by (rewrite Hc4; exact Hwl).
  assert (Hp4 : premier_en_attente st4 (Emprunt.isbn emprunt0) = Some rid)
    by (rewrite (premier_en_attente_ext st st4 _ Hr4 Hf4); exact Hp).
  destruct (traiter_file_notifie now (Emprunt.isbn emprunt0) st4 _ rid Hwl4
              Hl4 (reprendre_disponible _ l ex Hin Hcb) Hp4)
    as (r & Hr & Hs & Heq).
  exists r. rewrite Hr4 in Hr. split; [exact Hr|]. split; [exact Hs|].
  cbv zeta. rewrite Hres, Hnot, Heq. unfold apres_notification.
  cbn [snd GestionReservation.sauvegarder reservations notifications
       set_fichier_reservations set_notifications set_reservations set_files].
  rewrite Hr4, Hn4. split; [apply dict_get_set_eq|]. split; [reflexivity|].
  intros autre Hne. apply dict_get_set_ne. congruence.
Qed.

Lemma X15_retour_notifie_temoin :
  let st' := snd (GestionEmprunt.retourner (Exemple.T0 + Exemple.jours 5)
                    "EMP-00000001" Exemple.pret_et_attente) in
  Reservation.statut <$> Dict.get "RES-00000001" (reservations st')
  = Some Reservation.NOTIFIE /\
  map notif_matricule (notifications st') = ["U-NNNNNNNN"].
Proof.
  intros st'.
  destruct (X15_retour_notifie (Exemple.T0 + Exemple.jours 5) "EMP-00000001"
              Exemple.pret_et_attente
              (Emprunt.mk "EMP-00000001" "U-MMMMMMMM" "9780306406157" "00001"
                 Exemple.T0 (Exemple.T0 + Exemple.jours 14) None 0)
              (Livre.mk "9780306406157"
                 [Exemplaire.set_statut EMPRUNTE Exemple.copie] EMPRUNTE 1)
              (Exemplaire.set_statut EMPRUNTE Exemple.copie) "RES-00000001")
    as (r & Hr & _ & H1 & H2 & _).
  - vm_compute. reflexivity.
  - reflexivity.
  - reflexivity.
  - reflexivity.
  - vm_compute. reflexivity.
  - left. reflexivity.
  - reflexivity.
  - vm_compute. reflexivity.
  - vm_compute in Hr. injection Hr as <-. fold st' in H1, H2.
    split; [rewrite H1; reflexivity | rewrite H2; reflexivity].
Defined.

Lemma ajouter_disponible (ex : Exemplaire.t) (l : Livre.t) :
  Exemplaire.statut ex = DISPONIBLE ->
  Livre.est_disponible (Livre.ajouter_exemplaire ex l) = true.
Proof.
  intros Hs. apply est_disponible_spec. unfold Livre.ajouter_exemplaire.
  rewrite mettre_a_jour_statut_exemplaires. simpl.
  exists ex. split; [apply in_or_app; right; left; reflexivity | exact Hs].
Qed.

(** X16. [GestionLivre.ajouter_exemplaire] raises "book not found" for an
    ISBN that is not in the catalogue and "bar code already used" when a
    copy of some book has the same bar code up to spaces around it and to
    case; in both cases nothing changes.  Otherwise the copy becomes the
    last copy of the book; and if the copy is available and the services
    are attached, the first pending reservation of the queue of the book is
    notified. *)
Theorem X16_ajout_d_exemplaire (normaliser : string -> string) (now : Z)
    (isbn : string) (ex : Exemplaire.t) (st : Etat) :
  (GestionLivre.get_livre isbn st = None ->
   GestionLivre_ajouter_exemplaire normaliser now isbn ex st
   = (Leve LivreIntrouvable, st)) /\
  (forall l : Livre.t,
     GestionLivre.get_livre isbn st = Some l ->
     GestionLivre_code_barre_existe normaliser (Exemplaire.code_barre ex) st
     = true ->
     GestionLivre_ajouter_exemplaire normaliser now isbn ex st
     = (Leve CodeBarreDejaUtilise, st)) /\
  (forall l : Livre.t,
     GestionLivre.get_livre isbn st = Some l ->
     GestionLivre_code_barre_existe normaliser (Exemplaire.code_barre ex) st
     = false ->
     exists (st' : Etat) (l' : Livre.t),
       GestionLivre_ajouter_exemplaire normaliser now isbn ex st
       = (Ok tt, st') /\
       GestionLivre.get_livre isbn st' = Some l' /\
       Livre.exemplaires l' = (Livre.exemplaires l ++ [ex])%list /\
       (Exemplaire.statut ex = DISPONIBLE ->
        livre_gestion_reservation (cablage st) = true ->
        reservation_gestion_livre (cablage st) = true ->
        forall rid : string,
          premier_en_attente st isbn = Some rid ->
          exists r : Reservation.t,
            Dict.get rid (reservations st) = Some r /\
            Reservation.statut r = Reservation.EN_ATTENTE /\
            Dict.get rid (reservations st')
            = Some (Reservation.set_statut Reservation.NOTIFIE r))).
Proof.
  unfold GestionLivre_ajouter_exemplaire. split; [|split].
  - intros ->. reflexivity.
  - intros l -> ->. reflexivity.
  - intros l Hl Hnon. rewrite Hl, Hnon.
    set (st1 := GestionLivre.sur_livre isbn (Livre.ajouter_exemplaire ex) st).
    assert (Hl1 : GestionLivre.get_livre isbn st1
                  = Some (Livre.ajouter_exemplaire ex l)).
    { subst st1. rewrite get_livre_sur_livre, Hl; [reflexivity|].
      intros l0. unfold Livre.ajouter_exemplaire.
      rewrite mettre_a_jour_statut_isbn. reflexivity. }
    eexists. exists (Livre.ajouter_exemplaire ex l).
    split; [reflexivity|]. split; [|split].
    + destruct (livre_gestion_reservation (cablage st1)); [|exact Hl1].
      pose proof (traiter_file_preserve now isbn st1) as (Hlv & _).
      unfold GestionLivre.get_livre in *. rewrite Hlv. exact Hl1.
    + unfold Livre.ajouter_exemplaire.
      rewrite mettre_a_jour_statut_exemplaires. reflexivity.
    + intros Hs Hw1 Hw2 rid Hp.
      change (cablage st1) with (cablage st). rewrite Hw1.
      assert (Hp1 : premier_en_attente st1 isbn = Some rid)
        by (rewrite (premier_en_attente_ext st st1 isbn eq_refl eq_refl);
            exact Hp).
      destruct (traiter_file_notifie now isbn st1 _ rid Hw2 Hl1
                  (ajouter_disponible ex l Hs) Hp1) as (r & Hr & Hst & Heq).
      exists r. split; [exact Hr|]. split; [exact Hst|].
      rewrite Heq. unfold apres_notification. cbn. apply dict_get_set_eq.
Qed.

Lemma X16_ajout_d_exemplaire_temoin :
  let ex := Exemplaire.mk "EX-BBBBBBBB" "00002" "bon" "stock" DISPONIBLE
              (Exemple.T0 + Exemple.jours 2) in
  exists st' : Etat,
    GestionLivre_ajouter_exemplaire (fun s => s) (Exemple.T0 + Exemple.jours 2)
      "9780306406157" ex Exemple.pret_et_attente = (Ok tt, st') /\
    Reservation.statut <$> Dict.get "RES-00000001" (reservations st')
    = Some Reservation.NOTIFIE.
Proof.
  intros ex.
  destruct (X16_ajout_d_exemplaire (fun s => s) (Exemple.T0 + Exemple.jours 2)
              "9780306406157" ex Exemple.pret_et_attente) as (_ & _ & H).
  destruct (H (Livre.mk "9780306406157"
                 [Exemplaire.set_statut EMPRUNTE Exemple.copie] EMPRUNTE 1))
    as (st' & l' & Heq & _ & _ & Hn).
  - vm_compute. reflexivity.
  - vm_compute. reflexivity.
  - exists st'. split; [exact Heq|].
    destruct (Hn eq_refl eq_refl eq_refl "RES-00000001") as (r & Hr & _ & Hr').
    + vm_compute. reflexivity.
    + vm_compute in Hr. injection Hr as <-. rewrite Hr'. reflexivity.
Defined.

(** ** The catalogue *)

Lemma find_app_none {A} (p : A -> bool) (l : list A) (x : A) :
  List.find p l = None -> List.find p (l ++ [x]) = if p x then Some x else None.
Proof.
  induction l as [|y l IH]; simpl; [reflexivity|].
  destruct (p y); [discriminate | exact IH].
Qed.

Lemma find_app_some {A} (p : A -> bool) (l l' : list A) (y : A) :
  List.find p l = Some y -> List.find p (l ++ l') = Some y.
Proof.
  induction l as [|z l IH]; simpl; [discriminate|].
  destruct (p z); [trivial | exact IH].
Qed.

Lemma existsb_find_none {A} (p : A -> bool) (l : list A) :
  existsb p l = false <-> List.find p l = None.
Proof.
  induction l as [|x l IH]; simpl; [tauto|].
  destruct (p x); simpl; [split; discriminate | exact IH].
Qed.

Lemma retirer_premier_app_dernier {A} (p : A -> bool) (l : list A) (x : A) :
  List.find p l = None -> p x = true -> retirer_premier p (l ++ [x]) = l.
Proof.
  intros Hnone Hx. induction l as [|y l IH]; simpl.
  - rewrite Hx. reflexivity.
  - simpl in Hnone. destruct (p y); [discriminate|]. rewrite IH; trivial.
Qed.

Lemma find_retirer_premier_autre {A} (p q : A -> bool) (l : list A) :
  (forall x, p x = true -> q x = false) ->
  List.find q (retirer_premier p l) = List.find q l.
Proof.
  intros H. induction l as [|x l IH]; simpl; [reflexivity|].
  destruct (p x) eqn:Hx; simpl.
  - rewrite (H x Hx). reflexivity.
  - destruct (q x); [reflexivity | exact IH].
Qed.

Lemma length_retirer_premier {A} (p : A -> bool) (l : list A) (x : A) :
  List.find p l = Some x ->
  (length (retirer_premier p l) + 1 = length l)%nat.
Proof.
  induction l as [|y l IH]; simpl; [discriminate|].
  destruct (p y); simpl; [lia|]. intros H. rewrite <- (IH H). lia.
Qed.

Lemma nodup_retirer_premier {A B} (cle : A -> B) (p : A -> bool)
    (l : list A) :
  NoDup (map cle l) -> NoDup (map cle (retirer_premier p l)).
Proof.
  induction l as [|x l IH]; simpl; [trivial|].
  intros Hnd. apply NoDup_cons in Hnd.
  destruct Hnd as (Hnot & Hnd').
  destruct (p x); [exact Hnd'|]. simpl. apply NoDup_cons. split.
  - intros Hin. apply Hnot. apply list_elem_of_In.
    apply list_elem_of_In in Hin. clear - Hin.
    induction l as [|y l IH]; simpl in *; [exact Hin|].
    destruct (p y); [right; exact Hin|].
    destruct Hin as [Hin|Hin]; [left; exact Hin | right; exact (IH Hin)].
  - exact (IH Hnd').
Qed.

Lemma find_retirer_premier_unique {A} (cle : A -> string) (k : string)
    (l : list A) :
  NoDup (map cle l) ->
  List.find (fun x => String.eqb (cle x) k)
    (retirer_premier (fun x => String.eqb (cle x) k) l) = None.
Proof.
  induction l as [|x l IH]; simpl; [reflexivity|].
  intros Hnd. apply NoDup_cons in Hnd. destruct Hnd as (Hnot & Hnd).
  rewrite list_elem_of_In in Hnot.
  destruct (String.eqb_spec (cle x) k) as [E|E].
  - destruct (List.find (fun x0 => String.eqb (cle x0) k) l) as [y|] eqn:Hf;
      [|reflexivity].
    apply List.find_some in Hf. destruct Hf as (Hin & Hy).
    apply String.eqb_eq in Hy. exfalso. apply Hnot.
    rewrite E, <- Hy. apply in_map. exact Hin.
  - simpl. destruct (String.eqb_spec (cle x) k); [contradiction|].
    exact (IH Hnd).
Qed.

(** X17. [ajouter_livre] refuses a book whose ISBN is already in the
    catalogue, and the catalogue is as it was.  Otherwise the book is the
    last of the catalogue and is the one [get_livre] finds under its ISBN;
    the books under the other ISBNs are found as before; ISBNs that were
    pairwise distinct still are; and deleting the book again gives back
    the state before. *)
Theorem X17_ajout_de_livre (livre : Livre.t) (st : Etat) :
  (GestionLivre.isbn_existe (Livre.isbn livre) st = true ->
   GestionLivre.ajouter_livre livre st
   = (Some GestionLivre.IsbnDejaExistant, st)) /\
  (GestionLivre.isbn_existe (Livre.isbn livre) st = false ->
   exists st' : Etat,
     GestionLivre.ajouter_livre livre st = (None, st') /\
     GestionLivre.lister_livres st'
     = (GestionLivre.lister_livres st ++ [livre])%list /\
     GestionLivre.get_livre (Livre.isbn livre) st' = Some livre /\
     (forall isbn : string,
        isbn <> Livre.isbn livre ->
        GestionLivre.get_livre isbn st' = GestionLivre.get_livre isbn st) /\
     (isbn_uniques st -> isbn_uniques st') /\
     GestionLivre.supprimer_livre (Livre.isbn livre) st' = (true, st)).
Proof.
  unfold GestionLivre.ajouter_livre. split; intros H; rewrite H;
    [reflexivity|].
  eexists. split; [reflexivity|].
  unfold GestionLivre.isbn_existe in H.
  pose proof (proj1 (existsb_find_none _ _) H) as Hnone.
  assert (Hlivre : GestionLivre.a_isbn (Livre.isbn livre) livre = true)
    by apply String.eqb_refl.
  split; [reflexivity|]. split; [|split; [|split]].
  - unfold GestionLivre.get_livre. simpl.
    rewrite (find_app_none _ _ livre Hnone), Hlivre. reflexivity.
  - intros isbn Hne. unfold GestionLivre.get_livre. simpl.
    destruct (List.find (GestionLivre.a_isbn isbn) (livres st)) as [l|] eqn:Hf.
    + apply find_app_some. exact Hf.
    + rewrite (find_app_none _ _ livre Hf). unfold GestionLivre.a_isbn.
      destruct (String.eqb_spec (Livre.isbn livre) isbn); [congruence|].
      reflexivity.
  - unfold isbn_uniques. simpl. intros Hnd. rewrite map_app. simpl.
    apply NoDup_app. split; [exact Hnd|]. split.
    + intros x Hin Hx. apply list_elem_of_singleton in Hx. subst x.
      apply list_elem_of_In, in_map_iff in Hin. destruct Hin as (l & Hl & Hin).
      assert (Hex : existsb (GestionLivre.a_isbn (Livre.isbn livre)) (livres st)
                    = true).
      { apply existsb_exists. exists l. split; [exact Hin|].
        apply String.eqb_eq. exact Hl. }
      congruence.
    + apply NoDup_singleton.
  - unfold GestionLivre.supprimer_livre. simpl.
    rewrite existsb_app. cbn [existsb]. rewrite Hlivre.
    cbn [orb]. rewrite orb_true_r.
    rewrite (retirer_premier_app_dernier _ _ livre Hnone Hlivre).
    destruct st; reflexivity.
Qed.

Lemma X17_ajout_de_livre_temoin :
  let second := Livre.mk "9791032305690" [] INDISPONIBLE 0 in
  exists st' : Etat,
    GestionLivre.ajouter_livre second Exemple.ouverture = (None, st') /\
    GestionLivre.get_livre "9791032305690" st' = Some second /\
    GestionLivre.supprimer_livre "9791032305690" st'
    = (true, Exemple.ouverture).
Proof.
  intros second.
  destruct (proj2 (X17_ajout_de_livre second Exemple.ouverture))
    as (st' & H1 & _ & H2 & _ & _ & H3); [vm_compute; reflexivity|].
  exists st'. split; [exact H1|]. split; [exact H2 | exact H3].
Defined.

(** X18. [supprimer_livre] returns [False] and changes nothing when no
    book has the ISBN.  Otherwise it returns [True], the catalogue has one
    book less, the books under the other ISBNs are found as before, and the
    loans, the reservations and the queues are not touched, those of the
    deleted book no more than the others; when the ISBNs of the catalogue
    are pairwise distinct they still are, and no book is found under the
    deleted ISBN. *)
Theorem X18_suppression_de_livre (isbn : string) (st : Etat) :
  (GestionLivre.get_livre isbn st = None ->
   GestionLivre.supprimer_livre isbn st = (false, st)) /\
  (forall l : Livre.t,
     GestionLivre.get_livre isbn st = Some l ->
     exists st' : Etat,
       GestionLivre.supprimer_livre isbn st = (true, st') /\
       (length (livres st') + 1 = length (livres st))%nat /\
       (forall autre : string,
          autre <> isbn ->
          GestionLivre.get_livre autre st' = GestionLivre.get_livre autre st) /\
       emprunts st' = emprunts st /\
       utilisateurs st' = utilisateurs st /\
       reservations st' = reservations st /\
       files st' = files st /\
       (isbn_uniques st ->
        isbn_uniques st' /\ GestionLivre.get_livre isbn st' = None)).
Proof.
  unfold GestionLivre.supprimer_livre, GestionLivre.get_livre. split.
  - intros Hnone. rewrite (proj2 (existsb_find_none _ _) Hnone). reflexivity.
  - intros l Hl.
    destruct (existsb (GestionLivre.a_isbn isbn) (livres st)) eqn:Hex.
    2:{ apply existsb_find_none in Hex. congruence. }
    eexists. split; [reflexivity|]. simpl.
    split; [exact (length_retirer_premier _ _ l Hl)|].
    split; [|repeat split].
    + intros autre Hne. apply find_retirer_premier_autre.
      intros x Hx. unfold GestionLivre.a_isbn in *.
      apply String.eqb_eq in Hx. apply String.eqb_neq. congruence.
    + apply nodup_retirer_premier. exact H.
    + exact (find_retirer_premier_unique Livre.isbn isbn (livres st) H).
Qed.

Lemma X18_suppression_de_livre_temoin :
  exists st' : Etat,
    GestionLivre.supprimer_livre "9780306406157" Exemple.apres_emprunt
    = (true, st') /\
    livres st' = [] /\
    emprunts st' = emprunts Exemple.apres_emprunt.
Proof.
  destruct (proj2 (X18_suppression_de_livre "9780306406157"
                     Exemple.apres_emprunt)
              (Livre.mk "9780306406157"
                 [Exemplaire.set_statut EMPRUNTE Exemple.copie] EMPRUNTE 1))
    as (st' & H1 & H2 & _ & H3 & _); [vm_compute; reflexivity|].
  exists st'. split; [exact H1|]. split; [|exact H3].
  assert (E : length (livres Exemple.apres_emprunt) = 1%nat)
    by (vm_compute; reflexivity).
  rewrite E in H2. destruct (livres st'); [reflexivity | simpl in H2; lia].
Defined.

(** ** What a loan and a return write in the catalogue and the members *)

Lemma emprunter_tables (now : Z) (id_neuf matricule isbn : string)
    (code_barre : option string) (duree_jours : Z) (st : Etat) :
  let st' := snd (GestionEmprunt.emprunter now id_neuf matricule isbn
                    code_barre duree_jours st) in
  (livres st' = livres st /\ utilisateurs st' = utilisateurs st) \/
  (exists id_exemplaire : string,
     livres st'
     = maj_premier (GestionLivre.a_isbn isbn) (GestionEmprunt.preter code_barre)
         (livres st) /\
     utilisateurs st'
     = maj_premier (GestionUtilisateur.a_matricule matricule)
         (User.enregistrer_emprunt now isbn id_exemplaire) (utilisateurs st)).
Proof.
  destruct (GestionEmprunt.emprunter now id_neuf matricule isbn code_barre
              duree_jours st) as [[emprunt|e] st'] eqn:H; cbn [snd].
  - right. apply emprunter_inversion in H.
    destruct H as (user & st1 & livre & ex & _ & Hs & _ & _ & _ & _ & _ & _
                   & ->).
    apply is_suspended_non in Hs. destruct Hs as (_ & Hl & Hu & _).
    exists (Exemplaire.code_barre ex). simpl. rewrite Hl, Hu. split; reflexivity.
  - left. apply emprunter_refuse in H. destruct H as (Hl & Hu & _).
    split; assumption.
Qed.

Lemma retourner_tables (now : Z) (id_emprunt : string) (st : Etat) :
  let st' := snd (GestionEmprunt.retourner now id_emprunt st) in
  (livres st' = livres st /\ utilisateurs st' = utilisateurs st) \/
  (exists emprunt0 : Emprunt.t,
     livres st'
     = maj_premier (GestionLivre.a_isbn (Emprunt.isbn emprunt0))
         (GestionEmprunt.reprendre (Emprunt.code_barre emprunt0)) (livres st) /\
     utilisateurs st'
     = maj_premier
         (GestionUtilisateur.a_matricule (Emprunt.matricule_user emprunt0))
         (User.enregistrer_retour now (Emprunt.isbn emprunt0)
            (Emprunt.code_barre emprunt0)) (utilisateurs st)).
Proof.
  cbv zeta.
  destruct (Dict.get id_emprunt (emprunts st)) as [e0|] eqn:Hget.
  - destruct (Emprunt.date_retour e0) as [r|] eqn:Hret.
    + left. unfold GestionEmprunt.retourner. rewrite Hget, Hret.
      split; reflexivity.
    + right. destruct (retourner_en_cours now id_emprunt st e0 Hget Hret)
        as (st' & Heq & Hl & Hu & _).
      exists e0. rewrite Heq. cbn [snd]. split; assumption.
  - left. unfold GestionEmprunt.retourner. rewrite Hget. split; reflexivity.
Qed.

(** ** The bar codes of the catalogue *)

Lemma map_maj_premier {A B} (cle : A -> B) (p : A -> bool) (f : A -> A)
    (l : list A) :
  (forall x, cle (f x) = cle x) -> map cle (maj_premier p f l) = map cle l.
Proof.
  intros H. induction l as [|x l IH]; simpl; [reflexivity|].
  destruct (p x); simpl; [rewrite H | rewrite IH]; reflexivity.
Qed.

Lemma flat_map_maj_premier {A B} (g : A -> list B) (p : A -> bool)
    (f : A -> A) (l : list A) :
  (forall x, g (f x) = g x) -> flat_map g (maj_premier p f l) = flat_map g l.
Proof.
  intros H. induction l as [|x l IH]; simpl; [reflexivity|].
  destruct (p x); simpl; [rewrite H | rewrite IH]; reflexivity.
Qed.

Lemma flat_map_maj_premier_ajout {A B} (g : A -> list B) (p : A -> bool)
    (f : A -> A) (l : list A) (b : B) :
  (forall x, g (f x) = (g x ++ [b])%list) ->
  flat_map g (maj_premier p f l)
  ≡ₚ ((if existsb p l then [b] else []) ++ flat_map g l)%list.
Proof.
  intros H. induction l as [|x l IH]; simpl; [reflexivity|].
  destruct (p x); simpl.
  - rewrite H. rewrite <- app_assoc. simpl.
    rewrite <- Permutation_middle. reflexivity.
  - rewrite IH. destruct (existsb p l); simpl; [|reflexivity].
    rewrite <- Permutation_middle. reflexivity.
Qed.

Lemma code_barre_libre (normaliser : string -> string) (code_barre : string)
    (st : Etat) :
  code_barre <> "" ->
  GestionLivre_code_barre_existe normaliser code_barre st = false ->
  ~ In (normaliser code_barre) (codes_barres normaliser st).
Proof.
  unfold GestionLivre_code_barre_existe, codes_barres. intros Hne.
  destruct (String.eqb_spec code_barre ""); [contradiction|].
  intros Hnon Hin. apply in_flat_map in Hin. destruct Hin as (l & Hl & Hin).
  apply in_map_iff in Hin. destruct Hin as (ex & Hex & Hin).
  assert (Houi :
    existsb
      (fun livre =>
         existsb
           (fun ex => String.eqb (normaliser (Exemplaire.code_barre ex))
                        (normaliser code_barre))
           (Livre.exemplaires livre))
      (livres st) = true).
  { apply existsb_exists. exists l. split; [exact Hl|].
    apply existsb_exists. exists ex. split; [exact Hin|].
    apply String.eqb_eq. exact Hex. }
  congruence.
Qed.

Lemma codes_apres_pret (normaliser : string -> string)
    (code_barre : option string) (l : Livre.t) :
  map (fun ex => normaliser (Exemplaire.code_barre ex))
    (Livre.exemplaires (GestionEmprunt.preter code_barre l))
  = map (fun ex => normaliser (Exemplaire.code_barre ex)) (Livre.exemplaires l).
Proof.
  unfold GestionEmprunt.preter. rewrite mettre_a_jour_statut_exemplaires.
  simpl. apply map_maj_premier. reflexivity.
Qed.

Lemma codes_apres_retour (normaliser : string -> string) (code_barre : string)
    (l : Livre.t) :
  map (fun ex => normaliser (Exemplaire.code_barre ex))
    (Livre.exemplaires (GestionEmprunt.reprendre code_barre l))
  = map (fun ex => normaliser (Exemplaire.code_barre ex)) (Livre.exemplaires l).
Proof.
  unfold GestionEmprunt.reprendre. rewrite mettre_a_jour_statut_exemplaires.
  simpl. apply map_maj_premier. reflexivity.
Qed.

(** X19. No two copies of the catalogue share a bar code, up to the spaces
    around it and to the case of its letters: if this holds, it still holds
    after [GestionLivre.ajouter_exemplaire], whatever it returns, for a copy
    whose bar code is not empty; and a loan and a return, whatever they
    return, leave the bar codes of the catalogue as they are. *)
Theorem X19_codes_barres_uniques (normaliser : string -> string) (st : Etat) :
  NoDup (codes_barres normaliser st) ->
  (forall (now : Z) (isbn : string) (ex : Exemplaire.t),
     Exemplaire.code_barre ex <> "" ->
     NoDup
       (codes_barres normaliser
          (snd (GestionLivre_ajouter_exemplaire normaliser now isbn ex st)))) /\
  (forall (now : Z) (id_neuf matricule isbn : string)
          (code_barre : option string) (duree_jours : Z),
     codes_barres normaliser
       (snd (GestionEmprunt.emprunter now id_neuf matricule isbn code_barre
               duree_jours st))
     = codes_barres normaliser st) /\
  (forall (now : Z) (id_emprunt : string),
     codes_barres normaliser (snd (GestionEmprunt.retourner now id_emprunt st))
     = codes_barres normaliser st).
Proof.
  intros Hnd. split; [|split].
  - intros now isbn ex Hne. unfold GestionLivre_ajouter_exemplaire.
    destruct (GestionLivre.get_livre isbn st) as [l|] eqn:Hl; [|exact Hnd].
    destruct (GestionLivre_code_barre_existe normaliser
                (Exemplaire.code_barre ex) st) eqn:Hnon; [exact Hnd|].
    cbn [snd].
    set (st1 := GestionLivre.sur_livre isbn (Livre.ajouter_exemplaire ex) st).
    assert (H1 : NoDup (codes_barres normaliser st1)).
    { unfold codes_barres, st1. simpl.
      rewrite (flat_map_maj_premier_ajout _ _ _ _
                 (normaliser (Exemplaire.code_barre ex))).
      - destruct (existsb (GestionLivre.a_isbn isbn) (livres st));
          [|exact Hnd].
        simpl. apply NoDup_cons. split; [|exact Hnd].
        rewrite list_elem_of_In.
        exact (code_barre_libre normaliser _ st Hne Hnon).
      - intros x. unfold Livre.ajouter_exemplaire.
        rewrite mettre_a_jour_statut_exemplaires. simpl.
        rewrite map_app. reflexivity. }
    destruct (livre_gestion_reservation (cablage st1)); [|exact H1].
    pose proof (traiter_file_preserve now isbn st1) as (Hlv & _).
    unfold codes_barres in *. rewrite Hlv. exact H1.
  - intros now id_neuf matricule isbn cb d. unfold codes_barres.
    destruct (emprunter_tables now id_neuf matricule isbn cb d st)
      as [(-> & _)|(ide & -> & _)]; [reflexivity|].
    apply flat_map_maj_premier. intros x. apply codes_apres_pret.
  - intros now id. unfold codes_barres.
    destruct (retourner_tables now id st) as [(-> & _)|(e0 & -> & _)];
      [reflexivity|].
    apply flat_map_maj_premier. intros x. apply codes_apres_retour.
Qed.

Lemma X19_codes_barres_uniques_temoin :
  NoDup
    (codes_barres (fun s => s)
       (snd (GestionLivre_ajouter_exemplaire (fun s => s)
               (Exemple.T0 + Exemple.jours 2) "9780306406157"
               (Exemplaire.mk "EX-BBBBBBBB" "00002" "bon" "stock" DISPONIBLE
                  (Exemple.T0 + Exemple.jours 2))
               Exemple.pret_et_attente))).
Proof.
  apply (X19_codes_barres_uniques (fun s => s) Exemple.pret_et_attente).
  - vm_compute. apply NoDup_singleton.
  - discriminate.
Defined.

(** ** The inventory *)

(** The decisions between two members of an enumeration are computed. *)
Ltac decisions_closes :=
  repeat match goal with
         | |- context [bool_decide ?P] =>
             let b := eval vm_compute in (bool_decide P) in
             change (bool_decide P) with b
         end.

Lemma nombre_parmi_cons (s : StatutLivre) (ex : Exemplaire.t)
    (exs : list Exemplaire.t) :
  nombre_parmi s (ex :: exs)
  = (if bool_decide (Exemplaire.statut ex = s) then 1 else 0)
    + nombre_parmi s exs.
Proof.
  unfold nombre_parmi. cbn [List.filter].
  destruct (bool_decide (Exemplaire.statut ex = s)); cbn [length]; lia.
Qed.

Lemma nombre_parmi_app (s : StatutLivre) (exs exs' : list Exemplaire.t) :
  nombre_parmi s (exs ++ exs') = nombre_parmi s exs + nombre_parmi s exs'.
Proof.
  induction exs as [|ex exs IH]; [reflexivity|].
  rewrite <- app_comm_cons, !nombre_parmi_cons, IH. lia.
Qed.

Lemma compter_exemplaires (exs : list Exemplaire.t)
    (c : Statistiques.Inventaire) :
  fold_left Statistiques.compter exs c
  = Statistiques.mk_inventaire
      (Statistiques.disponible c + nombre_parmi DISPONIBLE exs)
      (Statistiques.emprunte c + nombre_parmi EMPRUNTE exs)
      (Statistiques.reserve c + nombre_parmi RESERVE exs)
      (Statistiques.perdu c + nombre_parmi PERDU exs)
      (Statistiques.endommage c + nombre_parmi ENDOMMAGE exs)
      (Statistiques.total c + Z.of_nat (length exs)).
Proof.
  revert c. induction exs as [|ex exs IH]; intros c.
  - destruct c. simpl. unfold nombre_parmi. simpl. f_equal; lia.
  - cbn [fold_left]. rewrite IH, !nombre_parmi_cons.
    unfold Statistiques.compter.
    destruct (Exemplaire.statut ex); cbn; decisions_closes; f_equal; lia.
Qed.

Lemma compter_livres (ls : list Livre.t) (c : Statistiques.Inventaire) :
  fold_left
    (fun c livre => fold_left Statistiques.compter (Livre.exemplaires livre) c)
    ls c
  = Statistiques.mk_inventaire
      (Statistiques.disponible c
       + nombre_parmi DISPONIBLE (flat_map Livre.exemplaires ls))
      (Statistiques.emprunte c
       + nombre_parmi EMPRUNTE (flat_map Livre.exemplaires ls))
      (Statistiques.reserve c
       + nombre_parmi RESERVE (flat_map Livre.exemplaires ls))
      (Statistiques.perdu c
       + nombre_parmi PERDU (flat_map Livre.exemplaires ls))
      (Statistiques.endommage c
       + nombre_parmi ENDOMMAGE (flat_map Livre.exemplaires ls))
      (Statistiques.total c
       + Z.of_nat (length (flat_map Livre.exemplaires ls))).
Proof.
  revert c. induction ls as [|l ls IH]; intros c.
  - destruct c. simpl. unfold nombre_parmi. simpl. f_equal; lia.
  - cbn [fold_left flat_map]. rewrite IH, compter_exemplaires.
    rewrite !nombre_parmi_app, length_app. cbn. f_equal; lia.
Qed.

Lemma total_par_statut (exs : list Exemplaire.t) :
  nombre_parmi DISPONIBLE exs + nombre_parmi EMPRUNTE exs
  + nombre_parmi RESERVE exs + nombre_parmi PERDU exs
  + nombre_parmi ENDOMMAGE exs + nombre_parmi INDISPONIBLE exs
  = Z.of_nat (length exs).
Proof.
  induction exs as [|ex exs IH]; [reflexivity|].
  rewrite !nombre_parmi_cons. cbn [length].
  destruct (Exemplaire.statut ex); decisions_closes; lia.
Qed.

Lemma inventaire_par_statut (st : Etat) :
  Statistiques.etat_inventaire st
  = Statistiques.mk_inventaire
      (nombre_de_statut DISPONIBLE st) (nombre_de_statut EMPRUNTE st)
      (nombre_de_statut RESERVE st) (nombre_de_statut PERDU st)
      (nombre_de_statut ENDOMMAGE st)
      (Z.of_nat (length (exemplaires_du_catalogue st))).
Proof.
  unfold Statistiques.etat_inventaire, GestionLivre.lister_livres.
  rewrite compter_livres. reflexivity.
Qed.

(** X20. The inventory counts the copies, not the books: its total is the
    number of copies of the whole catalogue, and each of its five entries is
    the number of copies with that status.  The copies whose status is
    "indisponible" are in the total and in no entry, so that the five entries
    add up to the total less the number of these copies. *)
Theorem X20_inventaire (st : Etat) :
  let c := Statistiques.etat_inventaire st in
  Statistiques.total c = Z.of_nat (length (exemplaires_du_catalogue st)) /\
  Statistiques.disponible c = nombre_de_statut DISPONIBLE st /\
  Statistiques.emprunte c = nombre_de_statut EMPRUNTE st /\
  Statistiques.reserve c = nombre_de_statut RESERVE st /\
  Statistiques.perdu c = nombre_de_statut PERDU st /\
  Statistiques.endommage c = nombre_de_statut ENDOMMAGE st /\
  Statistiques.disponible c + Statistiques.emprunte c + Statistiques.reserve c
  + Statistiques.perdu c + Statistiques.endommage c
  = Statistiques.total c - nombre_de_statut INDISPONIBLE st.
Proof.
  cbv zeta. rewrite inventaire_par_statut. cbn.
  repeat split.
  pose proof (total_par_statut (exemplaires_du_catalogue st)).
  unfold nombre_de_statut. lia.
Qed.

Lemma nombre_parmi_maj_premier (s : StatutLivre) (p : Exemplaire.t -> bool)
    (f : Exemplaire.t -> Exemplaire.t) (exs : list Exemplaire.t)
    (ex : Exemplaire.t) :
  List.find p exs = Some ex ->
  nombre_parmi s (maj_premier p f exs)
  + (if bool_decide (Exemplaire.statut ex = s) then 1 else 0)
  = nombre_parmi s exs
    + (if bool_decide (Exemplaire.statut (f ex) = s) then 1 else 0).
Proof.
  induction exs as [|x exs IH]; simpl; [discriminate|].
  destruct (p x).
  - intros [= ->]. rewrite !nombre_parmi_cons. lia.
  - intros H. pose proof (IH H). rewrite !nombre_parmi_cons. lia.
Qed.

Lemma nombre_catalogue_maj_premier (s : StatutLivre) (p : Livre.t -> bool)
    (f : Livre.t -> Livre.t) (ls : list Livre.t) (l : Livre.t) :
  List.find p ls = Some l ->
  nombre_parmi s (flat_map Livre.exemplaires (maj_premier p f ls))
  + nombre_parmi s (Livre.exemplaires l)
  = nombre_parmi s (flat_map Livre.exemplaires ls)
    + nombre_parmi s (Livre.exemplaires (f l)).
Proof.
  induction ls as [|x ls IH]; simpl; [discriminate|].
  destruct (p x).
  - intros [= ->]. simpl. rewrite !nombre_parmi_app. lia.
  - intros H. pose proof (IH H). simpl. rewrite !nombre_parmi_app. lia.
Qed.

Lemma length_maj_premier {A} (p : A -> bool) (f : A -> A) (l : list A) :
  length (maj_premier p f l) = length l.
Proof.
  induction l as [|x l IH]; simpl; [reflexivity|].
  destruct (p x); simpl; [reflexivity | rewrite IH; reflexivity].
Qed.

Lemma length_flat_map_maj_premier {A B} (g : A -> list B) (p : A -> bool)
    (f : A -> A) (l : list A) :
  (forall x, length (g (f x)) = length (g x)) ->
  length (flat_map g (maj_premier p f l)) = length (flat_map g l).
Proof.
  intros H. induction l as [|x l IH]; simpl; [reflexivity|].
  destruct (p x); simpl; rewrite !length_app; [rewrite H | rewrite IH];
    reflexivity.
Qed.

Lemma inventaire_apres_echange (st st' : Etat) (isbn : string)
    (f : Livre.t -> Livre.t) (p : Exemplaire.t -> bool) (a b : StatutLivre)
    (l : Livre.t) (ex : Exemplaire.t) :
  livres st' = maj_premier (GestionLivre.a_isbn isbn) f (livres st) ->
  (forall x, Livre.exemplaires (f x)
             = maj_premier p (Exemplaire.set_statut b) (Livre.exemplaires x)) ->
  GestionLivre.get_livre isbn st = Some l ->
  List.find p (Livre.exemplaires l) = Some ex ->
  Exemplaire.statut ex = a ->
  (forall s : StatutLivre,
     nombre_de_statut s st' + (if bool_decide (a = s) then 1 else 0)
     = nombre_de_statut s st + (if bool_decide (b = s) then 1 else 0)) /\
  length (exemplaires_du_catalogue st') = length (exemplaires_du_catalogue st).
Proof.
  intros Hlv Hf Hl Hex Ha. unfold nombre_de_statut, exemplaires_du_catalogue.
  rewrite Hlv. split.
  - intros s.
    pose proof (nombre_catalogue_maj_premier s _ f _ _ Hl) as H1.
    pose proof (nombre_parmi_maj_premier s _ (Exemplaire.set_statut b) _ _ Hex)
      as H2.
    rewrite Ha in H2. cbn [Exemplaire.statut Exemplaire.set_statut] in H2.
    rewrite Hf in H1. lia.
  - apply length_flat_map_maj_premier. intros x. rewrite Hf.
    apply length_maj_premier.
Qed.

(** X21. The inventory follows the loans.  After a loan that is granted,
    one copy less is available and one more is out; the other entries and
    the total are as before.  A return, whatever it returns, leaves the
    total as it is; when the loan was still out and the copy with its bar
    code, in the book of the loan, had the status "emprunte", one copy less
    is out and one more is available. *)
Theorem X21_inventaire_et_prets (st : Etat) :
  (forall (now : Z) (id_neuf matricule isbn : string)
          (code_barre : option string) (duree_jours : Z) (st' : Etat)
          (emprunt : Emprunt.t),
     GestionEmprunt.emprunter now id_neuf matricule isbn code_barre
       duree_jours st = (Ok emprunt, st') ->
     Statistiques.etat_inventaire st'
     = let c := Statistiques.etat_inventaire st in
       Statistiques.mk_inventaire
         (Statistiques.disponible c - 1) (Statistiques.emprunte c + 1)
         (Statistiques.reserve c) (Statistiques.perdu c)
         (Statistiques.endommage c) (Statistiques.total c)) /\
  (forall (now : Z) (id_emprunt : string),
     Statistiques.total
       (Statistiques.etat_inventaire
          (snd (GestionEmprunt.retourner now id_emprunt st)))
     = Statistiques.total (Statistiques.etat_inventaire st)) /\
  (forall (now : Z) (id_emprunt : string) (emprunt0 : Emprunt.t)
          (l : Livre.t) (ex : Exemplaire.t),
     Dict.get id_emprunt (emprunts st) = Some emprunt0 ->
     Emprunt.date_retour emprunt0 = None ->
     GestionLivre.get_livre (Emprunt.isbn emprunt0) st = Some l ->
     List.find (Livre.a_code_barre (Emprunt.code_barre emprunt0))
       (Livre.exemplaires l) = Some ex ->
     Exemplaire.statut ex = EMPRUNTE ->
     Statistiques.etat_inventaire
       (snd (GestionEmprunt.retourner now id_emprunt st))
     = let c := Statistiques.etat_inventaire st in
       Statistiques.mk_inventaire
         (Statistiques.disponible c + 1) (Statistiques.emprunte c - 1)
         (Statistiques.reserve c) (Statistiques.perdu c)
         (Statistiques.endommage c) (Statistiques.total c)).
Proof.
  split; [|split].
  - intros now id_neuf matricule isbn cb d st' emprunt H.
    apply emprunter_inversion in H.
    destruct H as (user & st1 & livre & ex & _ & Hs & _ & Hl & Hex & Hd & _
                   & _ & Heq).
    apply is_suspended_non in Hs. destruct Hs as (_ & Hlv & _).
    unfold GestionLivre.get_livre in Hl. rewrite Hlv in Hl.
    assert (Hlv' : livres st'
                   = maj_premier (GestionLivre.a_isbn isbn)
                       (GestionEmprunt.preter cb) (livres st))
      by (rewrite Heq; simpl; rewrite Hlv; reflexivity).
    destruct (inventaire_apres_echange st st' isbn (GestionEmprunt.preter cb)
                (GestionEmprunt.critere cb) DISPONIBLE EMPRUNTE livre ex Hlv')
      as (Hs & Hlen); trivial.
    { intros x. unfold GestionEmprunt.preter.
      rewrite mettre_a_jour_statut_exemplaires. reflexivity. }
    rewrite !inventaire_par_statut. cbn.
    pose proof (Hs DISPONIBLE) as H1. pose proof (Hs EMPRUNTE) as H2.
    pose proof (Hs RESERVE) as H3. pose proof (Hs PERDU) as H4.
    pose proof (Hs ENDOMMAGE) as H5.
    revert H1 H2 H3 H4 H5. decisions_closes. cbv iota.
    intros H1 H2 H3 H4 H5. f_equal; lia.
  - intros now id. rewrite !inventaire_par_statut. cbn.
    unfold exemplaires_du_catalogue.
    destruct (retourner_tables now id st) as [(-> & _)|(e0 & -> & _)];
      [reflexivity|].
    f_equal. apply length_flat_map_maj_premier. intros x.
    unfold GestionEmprunt.reprendre. rewrite mettre_a_jour_statut_exemplaires.
    simpl. apply length_maj_premier.
  - intros now id e0 l ex Hget Hret Hl Hex Hst.
    destruct (retourner_en_cours now id st e0 Hget Hret)
      as (st' & Heq & Hlv & _).
    rewrite Heq. cbn [snd].
    destruct (inventaire_apres_echange st st' (Emprunt.isbn e0)
                (GestionEmprunt.reprendre (Emprunt.code_barre e0))
                (Livre.a_code_barre (Emprunt.code_barre e0))
                EMPRUNTE DISPONIBLE l ex Hlv)
      as (Hs & Hlen); trivial.
    { intros x. unfold GestionEmprunt.reprendre.
      rewrite mettre_a_jour_statut_exemplaires. reflexivity. }
    rewrite !inventaire_par_statut. cbn.
    pose proof (Hs DISPONIBLE) as H1. pose proof (Hs EMPRUNTE) as H2.
    pose proof (Hs RESERVE) as H3. pose proof (Hs PERDU) as H4.
    pose proof (Hs ENDOMMAGE) as H5.
    revert H1 H2 H3 H4 H5. decisions_closes. cbv iota.
    intros H1 H2 H3 H4 H5. f_equal; lia.
Qed.

Lemma X21_inventaire_et_prets_temoin :
  Statistiques.etat_inventaire Exemple.apres_emprunt
  = Statistiques.mk_inventaire 0 1 0 0 0 1 /\
  Statistiques.etat_inventaire
    (snd (GestionEmprunt.retourner (Exemple.T0 + Exemple.jours 5)
            "EMP-00000001" Exemple.apres_emprunt))
  = Statistiques.mk_inventaire 1 0 0 0 0 1.
Proof.
  split.
  - rewrite (proj1 (X21_inventaire_et_prets Exemple.ouverture) Exemple.T0
               "EMP-00000001" "U-MMMMMMMM" "9780306406157" None 14
               Exemple.apres_emprunt
               (Emprunt.mk "EMP-00000001" "U-MMMMMMMM" "9780306406157" "00001"
                  Exemple.T0 (Exemple.T0 + Exemple.jours 14) None 0)).
    + vm_compute. reflexivity.
    + vm_compute. reflexivity.
  - rewrite (proj2 (proj2 (X21_inventaire_et_prets Exemple.apres_emprunt))
               (Exemple.T0 + Exemple.jours 5) "EMP-00000001"
               (Emprunt.mk "EMP-00000001" "U-MMMMMMMM" "9780306406157" "00001"
                  Exemple.T0 (Exemple.T0 + Exemple.jours 14) None 0)
               (Livre.mk "9780306406157"
                  [Exemplaire.set_statut EMPRUNTE Exemple.copie] EMPRUNTE 1)
               (Exemplaire.set_statut EMPRUNTE Exemple.copie)).
    + vm_compute. reflexivity.
    + vm_compute. reflexivity.
    + reflexivity.
    + vm_compute. reflexivity.
    + reflexivity.
    + reflexivity.
Defined.

(** ** The statistics of the loans *)

Lemma length_dict_set {V} (k : string) (v : V) (d : Dict.t V) :
  length (Dict.set k v d)
  = match Dict.get k d with
    | Some _ => length d
    | None => S (length d)
    end.
Proof.
  induction d as [|[k' v'] d IH]; simpl; [reflexivity|].
  destruct (String.eqb k' k); simpl; [reflexivity|].
  rewrite IH. destruct (Dict.get k d); reflexivity.
Qed.

Lemma map_values_set {V B} (cle : V -> B) (k : string) (v v' : V)
    (d : Dict.t V) :
  Dict.get k d = Some v -> cle v' = cle v ->
  map cle (Dict.values (Dict.set k v' d)) = map cle (Dict.values d).
Proof.
  unfold Dict.values. intros Hget Hcle.
  induction d as [|[k' x] d IH]; simpl in *; [discriminate|].
  destruct (String.eqb k' k); simpl.
  - injection Hget as ->. rewrite Hcle. reflexivity.
  - rewrite (IH Hget). reflexivity.
Qed.

Lemma map_filter_maj_premier {A B} (cle : A -> B) (q : B -> bool)
    (p : A -> bool) (f : A -> A) (l : list A) :
  (forall x, cle (f x) = cle x) ->
  map cle (List.filter (fun x => q (cle x)) (maj_premier p f l))
  = map cle (List.filter (fun x => q (cle x)) l).
Proof.
  intros H. induction l as [|x l IH]; simpl; [reflexivity|].
  destruct (p x); simpl.
  - rewrite H. destruct (q (cle x)); simpl; [rewrite H|]; reflexivity.
  - destruct (q (cle x)); simpl; rewrite IH; reflexivity.
Qed.

(** X22. The loans counted by the statistics are all the loans ever made.
    A loan that is granted, under an identifier that no loan has yet, makes
    the total one more, and from then on the book is not among the books
    never borrowed.  A return, whatever it returns, changes neither the
    total nor the ISBNs of the books never borrowed: the book that comes
    back stays a book that has been borrowed. *)
Theorem X22_statistiques_des_emprunts (st : Etat) :
  (forall (now : Z) (id_neuf matricule isbn : string)
          (code_barre : option string) (duree_jours : Z) (st' : Etat)
          (emprunt : Emprunt.t),
     Dict.get id_neuf (emprunts st) = None ->
     GestionEmprunt.emprunter now id_neuf matricule isbn code_barre
       duree_jours st = (Ok emprunt, st') ->
     Statistiques.total_emprunts st' = S (Statistiques.total_emprunts st) /\
     forall l : Livre.t,
       In l (Statistiques.livres_jamais_empruntes st') -> Livre.isbn l <> isbn) /\
  (forall (now : Z) (id_emprunt : string),
     let st' := snd (GestionEmprunt.retourner now id_emprunt st) in
     Statistiques.total_emprunts st' = Statistiques.total_emprunts st /\
     map Livre.isbn (Statistiques.livres_jamais_empruntes st')
     = map Livre.isbn (Statistiques.livres_jamais_empruntes st)).
Proof.
  unfold Statistiques.total_emprunts, Statistiques.livres_jamais_empruntes,
    GestionEmprunt.lister_tous, GestionLivre.lister_livres, Dict.values.
  split.
  - intros now id_neuf matricule isbn cb d st' emprunt Hneuf H.
    apply emprunter_inversion in H.
    destruct H as (user & st1 & livre & ex & _ & Hs & _ & _ & _ & _ & _
                   & He & Heq).
    apply is_suspended_non in Hs. destruct Hs as (_ & _ & _ & Hem).
    assert (Hem' : emprunts st' = Dict.set id_neuf emprunt (emprunts st))
      by (rewrite Heq; simpl; rewrite Hem; reflexivity).
    rewrite Hem'. split.
    + rewrite !length_map, length_dict_set, Hneuf. reflexivity.
    + intros l Hin. apply filter_In in Hin. destruct Hin as (_ & Hnon).
      apply negb_true_iff in Hnon. intros Hisbn.
      assert (Houi :
        existsb (String.eqb (Livre.isbn l))
          (map Emprunt.isbn (map snd (Dict.set id_neuf emprunt (emprunts st))))
        = true).
      { apply existsb_exists. exists isbn. split.
        - apply in_map_iff. exists emprunt. split; [rewrite He; reflexivity|].
          apply (dict_get_in_values id_neuf). apply dict_get_set_eq.
        - apply String.eqb_eq. exact Hisbn. }
      congruence.
  - intros now id. cbv zeta.
    destruct (Dict.get id (emprunts st)) as [e0|] eqn:Hget.
    2:{ unfold GestionEmprunt.retourner. rewrite Hget. split; reflexivity. }
    destruct (Emprunt.date_retour e0) as [r|] eqn:Hret.
    { unfold GestionEmprunt.retourner. rewrite Hget, Hret. split; reflexivity. }
    destruct (retourner_en_cours now id st e0 Hget Hret)
      as (st' & Heq & Hlv & _ & Hem & _).
    rewrite Heq. cbn [snd]. rewrite Hem, Hlv. split.
    + rewrite !length_map, length_dict_set, Hget. reflexivity.
    + pose proof (map_values_set Emprunt.isbn id e0
                    (Emprunt.retourner None now e0) (emprunts st) Hget eq_refl)
        as Hisbns.
      unfold Dict.values in Hisbns. rewrite Hisbns.
      apply (map_filter_maj_premier Livre.isbn
               (fun i => negb (existsb (String.eqb i)
                                 (map Emprunt.isbn (map snd (emprunts st)))))).
      intros x. apply reprendre_isbn.
Qed.

Lemma X22_statistiques_des_emprunts_temoin :
  Statistiques.total_emprunts Exemple.apres_emprunt = 1%nat /\
  Statistiques.livres_jamais_empruntes Exemple.apres_emprunt = [].
Proof.
  destruct (proj1 (X22_statistiques_des_emprunts Exemple.ouverture) Exemple.T0
              "EMP-00000001" "U-MMMMMMMM" "9780306406157" None 14
              Exemple.apres_emprunt
              (Emprunt.mk "EMP-00000001" "U-MMMMMMMM" "9780306406157" "00001"
                 Exemple.T0 (Exemple.T0 + Exemple.jours 14) None 0))
    as (H1 & H2).
  - reflexivity.
  - vm_compute. reflexivity.
  - split; [exact H1|].
    destruct (Statistiques.livres_jamais_empruntes Exemple.apres_emprunt)
      as [|l ls] eqn:E; [reflexivity|].
    exfalso. apply (H2 l); [left; reflexivity|].
    assert (Hin : In l (Statistiques.livres_jamais_empruntes
                          Exemple.apres_emprunt))
      by (rewrite E; left; reflexivity).
    apply filter_In in Hin. destruct Hin as ([<-|[]] & _). reflexivity.
Defined.

(** ** Stopping and starting again *)

Lemma dict_set_absent {V} (k : string) (v : V) (d : Dict.t V) :
  Dict.get k d = None -> Dict.set k v d = (d ++ [(k, v)])%list.
Proof.
  induction d as [|[k' v'] d IH]; simpl; [reflexivity|].
  destruct (String.eqb k' k); [discriminate|].
  intros H. rewrite (IH H). reflexivity.
Qed.

Lemma dict_get_app_absent {V} (k k' : string) (v : V) (d : Dict.t V) :
  k <> k' -> Dict.get k d = None ->
  Dict.get k (d ++ [(k', v)])%list = None.
Proof.
  intros Hne. induction d as [|[k0 v0] d IH]; simpl.
  - destruct (String.eqb_spec k' k); [congruence | reflexivity].
  - destruct (String.eqb k0 k); [discriminate | exact IH].
Qed.

Lemma reservation_relue (r : Reservation.t) (id_neuf : string) (now : Z) :
  Reservation.bien_formee r ->
  Reservation.from_dict (Reservation.data_format r) id_neuf now = Ok r.
Proof.
  intros (Hid & Hm & Hi).
  unfold Reservation.from_dict, Reservation.data_format, Reservation.init.
  simpl. rewrite statut_de_texte_de_statut, fromisoformat_isoformat. simpl.
  destruct (String.eqb_spec (Reservation.matricule_user r) "") as [E|_];
    [contradiction|].
  destruct (String.eqb_spec (Reservation.isbn r) "") as [E|_];
    [contradiction|].
  destruct (String.eqb_spec (Reservation.id r) "") as [E|_];
    [contradiction|].
  destruct r; reflexivity.
Qed.

Lemma charger_reservations_sauvegardees (id_neuf : nat -> string) (now : Z)
    (table : Dict.t Reservation.t) :
  forall (k : nat) (deja : Dict.t Reservation.t),
    NoDup (map fst table) ->
    (forall id r, In (id, r) table ->
                  Reservation.id r = id /\ Reservation.bien_formee r) ->
    (forall id, In id (map fst table) -> Dict.get id deja = None) ->
    GestionReservation.charger_reservations id_neuf now k
      (map Reservation.data_format (Dict.values table)) deja
    = (deja ++ table)%list.
Proof.
  induction table as [|[id r] table IH]; intros k deja Hnd Hreg Hdeja.
  - simpl. rewrite app_nil_r. reflexivity.
  - apply NoDup_cons in Hnd. destruct Hnd as (Hnot & Hnd).
    rewrite list_elem_of_In in Hnot.
    destruct (Hreg id r (or_introl eq_refl)) as (Hid & Hbf).
    cbn [Dict.values map GestionReservation.charger_reservations].
    rewrite (reservation_relue r _ now Hbf), Hid.
    rewrite (dict_set_absent id r deja (Hdeja id (or_introl eq_refl))).
    unfold Dict.values in IH. rewrite IH.
    + rewrite <- app_assoc. reflexivity.
    + exact Hnd.
    + intros id' r' Hin. apply Hreg. right. exact Hin.
    + intros id' Hin. apply dict_get_app_absent.
      * intros ->. contradiction.
      * apply Hdeja. right. exact Hin.
Qed.

(** X23. Nothing of the reservations is lost when the service stops and
    starts again: after [sauvegarder], [recharger] gives back the table of
    the reservations, every one under its identifier and in the same order,
    and the queues, provided each reservation is kept under its own
    identifier and has an identifier, a member and an ISBN.  When there is
    no file, [recharger] leaves both tables empty. *)
Theorem X23_reservations_rechargees (id_neuf : nat -> string) (now : Z)
    (st : Etat) :
  (reservations_regulieres (reservations st) ->
   let st' :=
     GestionReservation.recharger id_neuf now
       (GestionReservation.sauvegarder st) in
   reservations st' = reservations st /\ files st' = files st) /\
  (fichier_reservations st = None ->
   let st' := GestionReservation.recharger id_neuf now st in
   reservations st' = [] /\ files st' = ∅).
Proof.
  unfold GestionReservation.recharger, GestionReservation.charger. split.
  - intros (Hnd & Hreg). simpl. split; [|reflexivity].
    rewrite (charger_reservations_sauvegardees id_neuf now (reservations st) 0
               [] Hnd Hreg); [reflexivity|].
    intros; reflexivity.
  - intros Hnone. simpl. rewrite Hnone. simpl. split; reflexivity.
Qed.

Lemma X23_reservations_rechargees_temoin :
  let st' :=
    GestionReservation.recharger (fun _ => "RES-99999999")
      (Exemple.T0 + Exemple.jours 3)
      (GestionReservation.sauvegarder Exemple.trois_reservations) in
  reservations st' = reservations Exemple.trois_reservations /\
  files st' = files Exemple.trois_reservations.
Proof.
  apply (proj1 (X23_reservations_rechargees (fun _ => "RES-99999999")
                  (Exemple.T0 + Exemple.jours 3) Exemple.trois_reservations)).
  split.
  - vm_compute. repeat (apply NoDup_cons; split;
      [rewrite list_elem_of_In; simpl; intuition discriminate|]).
    apply NoDup_nil_2.
  - intros id r [H|[H|[H|[]]]]; injection H as <- <-;
      (split; [reflexivity | repeat split; discriminate]).
Defined.

Lemma emprunt_relu (now : Z) (e : Emprunt.t) :
  valider_code_barre (Emprunt.code_barre e) = true ->
  Emprunt.from_dict (Emprunt.data_format now e) = Ok (a_la_seconde e).
Proof.
  intros Hcb. rewrite (from_dict_data_format now e Hcb).
  unfold a_la_seconde. destruct (Emprunt.date_retour e); reflexivity.
Qed.

Lemma charger_emprunts_sauvegardes (now : Z) (table : Dict.t Emprunt.t) :
  forall deja : Dict.t Emprunt.t,
    NoDup (map fst table) ->
    (forall id e, In (id, e) table ->
                  Emprunt.id_emprunt e = id /\
                  valider_code_barre (Emprunt.code_barre e) = true) ->
    (forall id, In id (map fst table) -> Dict.get id deja = None) ->
    GestionEmprunt.charger_emprunts
      (map (Emprunt.data_format now) (Dict.values table)) deja
    = (deja ++ map (fun entree => (entree.1, a_la_seconde entree.2)) table)%list.
Proof.
  unfold GestionEmprunt.charger_emprunts.
  induction table as [|[id e] table IH]; intros deja Hnd Hreg Hdeja.
  - simpl. rewrite app_nil_r. reflexivity.
  - apply NoDup_cons in Hnd. destruct Hnd as (Hnot & Hnd).
    rewrite list_elem_of_In in Hnot.
    destruct (Hreg id e (or_introl eq_refl)) as (Hid & Hcb).
    cbn [Dict.values map fold_left snd]. cbv beta.
    rewrite (emprunt_relu now e Hcb).
    change (Emprunt.id_emprunt (a_la_seconde e)) with (Emprunt.id_emprunt e).
    rewrite Hid.
    rewrite (dict_set_absent id _ deja (Hdeja id (or_introl eq_refl))).
    unfold Dict.values in IH. rewrite IH.
    + rewrite <- app_assoc. reflexivity.
    + exact Hnd.
    + intros id' e' Hin. apply Hreg. right. exact Hin.
    + intros id' Hin. apply dict_get_app_absent.
      * intros ->. contradiction.
      * apply Hdeja. right. exact Hin.
Qed.

Lemma en_vigueur_plus_tard (now now' : Z) (table : gmap string Temps.Iso) :
  now <= now' ->
  filter (GestionEmprunt.en_vigueur now')
    (filter (GestionEmprunt.en_vigueur now) table)
  = filter (GestionEmprunt.en_vigueur now') table.
Proof.
  intros Hle. apply map_eq. intros k. apply option_eq. intros iso.
  rewrite !map_lookup_filter_Some. unfold GestionEmprunt.en_vigueur. simpl.
  intuition lia.
Qed.

(** X24. When the loan service stops and starts again, no loan is lost and
    none changes place: if each loan is kept under its own identifier and
    has a valid bar code, then after [sauvegarder] at one instant and
    [recharger] at the same or a later instant the table holds the same
    loans under the same identifiers in the same order, each with its dates
    cut to the second, and the suspensions are those of before that have
    not run out at the second instant.  When there is no file, [recharger]
    leaves both tables empty. *)
Theorem X24_emprunts_recharges (now now' : Z) (st : Etat) :
  (table_reguliere (emprunts st) ->
   now <= now' ->
   let st' := GestionEmprunt.recharger now' (GestionEmprunt.sauvegarder now st) in
   emprunts st'
   = map (fun entree => (entree.1, a_la_seconde entree.2)) (emprunts st) /\
   suspensions st' = filter (GestionEmprunt.en_vigueur now') (suspensions st)) /\
  (fichier_emprunts st = None ->
   let st' := GestionEmprunt.recharger now' st in
   emprunts st' = [] /\ suspensions st' = ∅).
Proof.
  unfold GestionEmprunt.recharger, GestionEmprunt.charger. split.
  - intros (Hnd & Hreg) Hle. simpl. split.
    + rewrite (charger_emprunts_sauvegardes now (emprunts st) [] Hnd Hreg);
        [reflexivity|].
      intros; reflexivity.
    + apply en_vigueur_plus_tard. exact Hle.
  - intros Hnone. simpl. rewrite Hnone. simpl. split; reflexivity.
Qed.

Lemma X24_emprunts_recharges_temoin :
  let st' :=
    GestionEmprunt.recharger (Exemple.T0 + Exemple.jours 3)
      (GestionEmprunt.sauvegarder (Exemple.T0 + Exemple.jours 2)
         Exemple.apres_emprunt) in
  emprunts st' = emprunts Exemple.apres_emprunt /\ suspensions st' = ∅.
Proof.
  destruct (proj1 (X24_emprunts_recharges (Exemple.T0 + Exemple.jours 2)
                     (Exemple.T0 + Exemple.jours 3) Exemple.apres_emprunt))
    as (H1 & H2).
  - split.
    + vm_compute. apply NoDup_singleton.
    + intros id e [H|[]]. vm_compute in H. injection H as <- <-.
      split; reflexivity.
  - vm_compute. discriminate.
  - split; [rewrite H1 | rewrite H2]; vm_compute; reflexivity.
Defined.

(** ** Tables as the services build them *)

Lemma dict_get_in {V} (k : string) (v : V) (d : Dict.t V) :
  Dict.get k d = Some v -> In (k, v) d.
Proof.
  induction d as [|[k' v'] d IH]; simpl; [discriminate|].
  destruct (String.eqb_spec k' k) as [->|_].
  - intros [= ->]. left. reflexivity.
  - intros H. right. exact (IH H).
Qed.

Lemma dict_get_absent {V} (k : string) (d : Dict.t V) :
  Dict.get k d = None -> ~ In k (map fst d).
Proof.
  induction d as [|[k' v'] d IH]; simpl; [tauto|].
  destruct (String.eqb_spec k' k) as [->|Hne]; [discriminate|].
  intros H [E|Hin]; [contradiction | exact (IH H Hin)].
Qed.

Lemma in_dict_set {V} (k k' : string) (v v' : V) (d : Dict.t V) :
  In (k', v') (Dict.set k v d) -> (k' = k /\ v' = v) \/ In (k', v') d.
Proof.
  induction d as [|[k0 v0] d IH]; simpl.
  - intros [[= <- <-]|[]]. left. split; reflexivity.
  - destruct (String.eqb k0 k); simpl.
    + intros [[= <- <-]|Hin]; [left; split; reflexivity | right; right; exact Hin].
    + intros [E|Hin]; [right; left; exact E|].
      destruct (IH Hin) as [H|H]; [left; exact H | right; right; exact H].
Qed.

Lemma nodup_cles_set {V} (k : string) (v : V) (d : Dict.t V) :
  NoDup (map fst d) -> NoDup (map fst (Dict.set k v d)).
Proof.
  intros Hnd. rewrite cles_apres_set.
  destruct (Dict.get k d) eqn:Hget; [exact Hnd|].
  apply NoDup_app. split; [exact Hnd|]. split; [|apply NoDup_singleton].
  intros x Hin Hx. apply list_elem_of_singleton in Hx. subst x.
  apply list_elem_of_In in Hin. exact (dict_get_absent k d Hget Hin).
Qed.

Lemma table_reguliere_set (id : string) (e : Emprunt.t)
    (table : Dict.t Emprunt.t) :
  table_reguliere table ->
  Emprunt.id_emprunt e = id ->
  valider_code_barre (Emprunt.code_barre e) = true ->
  table_reguliere (Dict.set id e table).
Proof.
  intros (Hnd & Hreg) Hid Hcb. split; [apply nodup_cles_set; exact Hnd|].
  intros id' e' Hin. apply in_dict_set in Hin.
  destruct Hin as [(-> & ->)|Hin]; [split; assumption | exact (Hreg _ _ Hin)].
Qed.

(** X25. Each loan of the table is kept under its own identifier, no
    identifier comes twice, and every bar code is valid: if this holds, it
    still holds after [emprunter], [retourner], [renouveler] and
    [appliquer_penalites], whatever they return. *)
Theorem X25_table_des_emprunts (st : Etat) :
  table_reguliere (emprunts st) ->
  (forall (now : Z) (id_neuf matricule isbn : string)
          (code_barre : option string) (duree_jours : Z),
     table_reguliere
       (emprunts (snd (GestionEmprunt.emprunter now id_neuf matricule isbn
                         code_barre duree_jours st)))) /\
  (forall (now : Z) (id_emprunt : string),
     table_reguliere
       (emprunts (snd (GestionEmprunt.retourner now id_emprunt st)))) /\
  (forall (now : Z) (id_emprunt : string) (jours : Z),
     table_reguliere
       (emprunts (snd (GestionEmprunt.renouveler now id_emprunt jours st)))) /\
  (forall now : Z,
     table_reguliere (emprunts (GestionEmprunt.appliquer_penalites now st))).
Proof.
  intros Hreg. split; [|split; [|split]].
  - intros now id_neuf matricule isbn cb d.
    destruct (GestionEmprunt.emprunter now id_neuf matricule isbn cb d st)
      as [[emprunt|e] st'] eqn:H; cbn [snd].
    + apply emprunter_inversion in H.
      destruct H as (user & st1 & livre & ex & _ & Hs & _ & _ & _ & _ & Hcb
                     & He & Heq).
      apply is_suspended_non in Hs. destruct Hs as (_ & _ & _ & Hem).
      rewrite Heq. simpl. rewrite Hem.
      apply table_reguliere_set; [exact Hreg | |]; rewrite He; trivial.
    + apply emprunter_refuse in H. destruct H as (_ & _ & -> & _). exact Hreg.
  - intros now id.
    destruct (Dict.get id (emprunts st)) as [e0|] eqn:Hget.
    2:{ unfold GestionEmprunt.retourner. rewrite Hget. exact Hreg. }
    destruct (Emprunt.date_retour e0) as [r|] eqn:Hret.
    { unfold GestionEmprunt.retourner. rewrite Hget, Hret. exact Hreg. }
    destruct (retourner_en_cours now id st e0 Hget Hret)
      as (st' & Heq & _ & _ & Hem & _).
    rewrite Heq. cbn [snd]. rewrite Hem.
    destruct (proj2 Hreg id e0 (dict_get_in _ _ _ Hget)) as (Hid & Hcb).
    apply table_reguliere_set; assumption.
  - intros now id jours.
    destruct (Dict.get id (emprunts st)) as [e0|] eqn:Hget.
    2:{ unfold GestionEmprunt.renouveler. rewrite Hget. exact Hreg. }
    rewrite (renouveler_service now id jours st e0 Hget).
    destruct (Emprunt.peut_renouveler now e0); [|exact Hreg].
    destruct (Temps.plus_jours (Emprunt.date_echeance e0) jours);
      [|exact Hreg].
    destruct (proj2 Hreg id e0 (dict_get_in _ _ _ Hget)) as (Hid & Hcb).
    simpl. apply table_reguliere_set; assumption.
  - intros now. exact Hreg.
Qed.

Lemma X25_table_des_emprunts_temoin :
  table_reguliere (emprunts Exemple.apres_emprunt).
Proof.
  apply (proj1 (X25_table_des_emprunts Exemple.ouverture
    ltac:(split; [apply NoDup_nil_2 | intros id e []]))
    Exemple.T0 "EMP-00000001" "U-MMMMMMMM" "9780306406157" None 14).
Defined.

Lemma evolue_reguliere (id : string) (r r' : Reservation.t) :
  evolue r r' ->
  Reservation.id r = id /\ Reservation.bien_formee r ->
  Reservation.id r' = id /\ Reservation.bien_formee r'.
Proof.
  intros [->|(-> & _)]; [trivial|]. unfold Reservation.bien_formee. trivial.
Qed.

Lemma reservations_regulieres_set (id : string) (r : Reservation.t)
    (table : Dict.t Reservation.t) :
  reservations_regulieres table ->
  Reservation.id r = id /\ Reservation.bien_formee r ->
  reservations_regulieres (Dict.set id r table).
Proof.
  intros (Hnd & Hreg) Hr. split; [apply nodup_cles_set; exact Hnd|].
  intros id' r' Hin. apply in_dict_set in Hin.
  destruct Hin as [(-> & ->)|Hin]; [exact Hr | exact (Hreg _ _ Hin)].
Qed.

Lemma une_evolution_reguliere (avant apres : Dict.t Reservation.t) :
  une_evolution avant apres ->
  reservations_regulieres avant -> reservations_regulieres apres.
Proof.
  intros [->|(id & r & r' & Hget & Hev & ->)] Hreg; [exact Hreg|].
  apply reservations_regulieres_set; [exact Hreg|].
  apply (evolue_reguliere id r r' Hev).
  exact (proj2 Hreg id r (dict_get_in _ _ _ Hget)).
Qed.

Lemma reserver_refuse (now : Z) (id_neuf matricule isbn : string)
    (st st' : Etat) (e : Exception) :
  GestionReservation.reserver now id_neuf matricule isbn st = (Leve e, st') ->
  st' = st.
Proof.
  unfold GestionReservation.reserver. intros H.
  repeat (destruct (_ && _); [injection H as _ <-; reflexivity|]).
  destruct (existsb _ _); [injection H as _ <-; reflexivity|].
  destruct (Reservation.init _ _ _ _ _ _ _); [discriminate|].
  injection H as _ <-. reflexivity.
Qed.

Lemma reserver_champs (now : Z) (id_neuf matricule isbn : string)
    (st st' : Etat) (r : Reservation.t) :
  GestionReservation.reserver now id_neuf matricule isbn st = (Ok r, st') ->
  matricule <> "" /\ isbn <> "".
Proof.
  unfold GestionReservation.reserver. intros H.
  repeat (destruct (_ && _); [discriminate|]).
  destruct (existsb _ _); [discriminate|].
  unfold Reservation.init in H.
  destruct (String.eqb_spec matricule ""); [discriminate|].
  destruct (String.eqb_spec isbn ""); [discriminate|].
  split; assumption.
Qed.

Lemma annuler_une_evolution (id_reservation : string) (st : Etat) :
  une_evolution (reservations st)
    (reservations (snd (GestionReservation.annuler id_reservation st))).
Proof.
  unfold GestionReservation.annuler.
  destruct (Dict.get id_reservation (reservations st)) as [r|] eqn:Hr;
    [|left; reflexivity].
  match goal with
  | |- context [GestionReservation._retirer_de_file ?i ?k ?s] =>
      pose proof (retirer_de_file_spec i k s) as Hq
  end.
  cbv zeta in Hq. destruct Hq as (_ & _ & Hq & _).
  cbn [snd GestionReservation.sauvegarder reservations
       set_fichier_reservations].
  rewrite Hq. cbn [reservations set_reservations].
  right. exists id_reservation, r, (snd (Reservation.annuler r)).
  split; [exact Hr|]. split; [apply (evolue_methode m_annuler r) | reflexivity].
Qed.

Lemma traiter_file_une_evolution (now : Z) (isbn : string) (st : Etat) :
  une_evolution (reservations st)
    (reservations (snd (GestionReservation.traiter_file now isbn st))).
Proof.
  unfold GestionReservation.traiter_file.
  destruct (negb (reservation_gestion_livre (cablage st)));
    [left; reflexivity|].
  destruct (GestionLivre.get_livre isbn st) as [livre|]; [|left; reflexivity].
  destruct (negb (Livre.est_disponible livre)); [left; reflexivity|].
  destruct (List.filter _ _) as [|first_id file]; [left; reflexivity|].
  cbn [reservations set_files].
  destruct (Dict.get first_id (reservations st)) as [r|] eqn:Hr;
    [|left; reflexivity].
  pose proof (evolue_methode m_notifier r) as Hev. cbn [appliquer] in Hev.
  destruct (Reservation.notifier r) as [[u|e] r']; [|left; reflexivity].
  cbn [snd] in Hev |- *.
  cbn [GestionReservation.sauvegarder reservations set_fichier_reservations
       set_notifications set_reservations].
  right. exists first_id, r, r'. split; [exact Hr|]. split; trivial.
Qed.

Lemma confirmer_une_evolution (now : Z) (id_neuf id_reservation : string)
    (st : Etat) :
  une_evolution (reservations st)
    (reservations
       (snd (Bibliotheque.confirmer now id_neuf id_reservation st))).
Proof.
  destruct (GestionReservation.get_reservation id_reservation st) as [r|]
    eqn:Hr.
  - destruct (decide (Reservation.statut r = Reservation.NOTIFIE)) as [Hs|Hs].
    + destruct (Bibliotheque.service_emprunt now id_neuf
                  (Reservation.matricule_user r) (Reservation.isbn r) st)
        as [[emprunt|e] st1] eqn:Hemp.
      * rewrite (confirmer_accorde now id_neuf id_reservation st r emprunt st1
                   Hr Hs Hemp).
        unfold Bibliotheque.service_emprunt in Hemp.
        pose proof (emprunter_laisse_reservations now id_neuf
                      (Reservation.matricule_user r) (Reservation.isbn r)
                      None 14 st) as Hres.
        rewrite Hemp in Hres. cbn [snd] in Hres.
        destruct Hres as (Hres & _).
        match goal with
        | |- context [GestionReservation._retirer_de_file ?i ?k ?s] =>
            pose proof (retirer_de_file_spec i k s) as Hq
        end.
        cbv zeta in Hq. destruct Hq as (_ & _ & Hq & _).
        cbn [snd GestionReservation.sauvegarder reservations
             set_fichier_reservations].
        rewrite Hq. cbn [reservations set_reservations]. rewrite Hres.
        right.
        exists id_reservation, r, (Reservation.set_statut Reservation.CONFIRME r).
        split; [exact Hr|]. split; [|reflexivity].
        right. split; [reflexivity|]. cbn. rewrite Hs. tauto.
      * unfold Bibliotheque.confirmer, GestionReservation_confirmer.
        unfold GestionReservation.get_reservation in Hr. rewrite Hr.
        unfold Reservation.est_confirmable.
        rewrite bool_decide_eq_true_2 by exact Hs. cbn [negb].
        rewrite Hemp. cbn [snd].
        unfold Bibliotheque.service_emprunt in Hemp.
        apply emprunter_refuse in Hemp.
        destruct Hemp as (_ & _ & _ & -> & _). left. reflexivity.
    + unfold Bibliotheque.confirmer, GestionReservation_confirmer.
      unfold GestionReservation.get_reservation in Hr. rewrite Hr.
      unfold Reservation.est_confirmable.
      rewrite bool_decide_eq_false_2 by exact Hs. left. reflexivity.
  - unfold Bibliotheque.confirmer, GestionReservation_confirmer.
    unfold GestionReservation.get_reservation in Hr. rewrite Hr.
    left. reflexivity.
Qed.

Lemma retourner_une_evolution (now : Z) (id_emprunt : string) (st : Etat) :
  une_evolution (reservations st)
    (reservations (snd (GestionEmprunt.retourner now id_emprunt st))).
Proof.
  destruct (Dict.get id_emprunt (emprunts st)) as [e0|] eqn:Hget.
  - destruct (Emprunt.date_retour e0) as [ret|] eqn:Hret.
    + unfold GestionEmprunt.retourner. rewrite Hget, Hret. left. reflexivity.
    + destruct (retourner_puis_file now id_emprunt st e0 Hget Hret)
        as (st4 & _ & Hr4 & _ & _ & _ & H).
      cbv zeta in H. destruct H as (-> & _).
      destruct (emprunt_gestion_reservation (cablage st)).
      * rewrite <- Hr4. apply traiter_file_une_evolution.
      * rewrite Hr4. left. reflexivity.
  - unfold GestionEmprunt.retourner. rewrite Hget. left. reflexivity.
Qed.

(** X26. Each reservation of the table is kept under its own identifier,
    no identifier comes twice, and no reservation lacks an identifier, a
    member or an ISBN: if this holds, it still holds after [reserver] (the
    identifier drawn is not empty), [annuler], [traiter_file], [confirmer]
    and the return of a loan, whatever they return. *)
Theorem X26_table_des_reservations (st : Etat) :
  reservations_regulieres (reservations st) ->
  (forall (now : Z) (id_neuf matricule isbn : string),
     id_neuf <> "" ->
     reservations_regulieres
       (reservations
          (snd (GestionReservation.reserver now id_neuf matricule isbn st)))) /\
  (forall id_reservation : string,
     reservations_regulieres
       (reservations (snd (GestionReservation.annuler id_reservation st)))) /\
  (forall (now : Z) (isbn : string),
     reservations_regulieres
       (reservations (snd (GestionReservation.traiter_file now isbn st)))) /\
  (forall (now : Z) (id_neuf id_reservation : string),
     reservations_regulieres
       (reservations
          (snd (Bibliotheque.confirmer now id_neuf id_reservation st)))) /\
  (forall (now : Z) (id_emprunt : string),
     reservations_regulieres
       (reservations (snd (GestionEmprunt.retourner now id_emprunt st)))).
Proof.
  intros Hreg. split; [|split; [|split; [|split]]].
  - intros now id_neuf matricule isbn Hid.
    destruct (GestionReservation.reserver now id_neuf matricule isbn st)
      as [[r|e] st'] eqn:H; cbn [snd].
    + destruct (reserver_champs _ _ _ _ _ _ _ H) as (Hm & Hi).
      apply reserver_inversion in H. destruct H as (-> & ->). cbn.
      apply reservations_regulieres_set; [exact Hreg|].
      split; [reflexivity|]. repeat split; assumption.
    + apply reserver_refuse in H. subst st'. exact Hreg.
  - intros id. exact (une_evolution_reguliere _ _
                        (annuler_une_evolution id st) Hreg).
  - intros now isbn. exact (une_evolution_reguliere _ _
                              (traiter_file_une_evolution now isbn st) Hreg).
  - intros now id_neuf id.
    exact (une_evolution_reguliere _ _
             (confirmer_une_evolution now id_neuf id st) Hreg).
  - intros now id. exact (une_evolution_reguliere _ _
                            (retourner_une_evolution now id st) Hreg).
Qed.

Lemma X26_table_des_reservations_temoin :
  reservations_regulieres (reservations Exemple.pret_et_attente).
Proof.
  apply (proj1 (X26_table_des_reservations
    (snd (GestionEmprunt.emprunter Exemple.T0 "EMP-00000001" "U-MMMMMMMM"
            "9780306406157" None 14 Exemple.deux_membres))
    ltac:(split; [apply NoDup_nil_2 | intros id r []]))
    (Exemple.T0 + Exemple.jours 1) "RES-00000001" "U-NNNNNNNN"
    "9780306406157").
  discriminate.
Defined.

(** ** The history of the members *)

Lemma forall2_maj_premier {A} (R : A -> A -> Prop) (p : A -> bool)
    (f : A -> A) (l : list A) :
  (forall x, R x x) -> (forall x, R x (f x)) ->
  Forall2 R l (maj_premier p f l).
Proof.
  intros Hrefl Hf. induction l as [|x l IH]; simpl; [constructor|].
  destruct (p x); constructor; auto.
  clear IH. induction l; constructor; auto.
Qed.

Lemma forall2_refl {A} (R : A -> A -> Prop) (l : list A) :
  (forall x, R x x) -> Forall2 R l l.
Proof. intros H. induction l; constructor; auto. Qed.

Lemma historique_prolonge_refl (u : User.t) : historique_prolonge u u.
Proof. split; [reflexivity|]. exists []. rewrite app_nil_r. reflexivity. Qed.

(** X27. The history of a member is only ever added to.  After a loan, a
    return, a deactivation or an activation, whatever they return, the
    members are the same, in the same order, and the history of each begins
    with the history of before.  A loan that is granted adds one line to
    the history of the borrower, with the ISBN, the bar code of the copy
    and the instant of the loan; the return of a loan still out, to a member
    still registered, adds one line with the ISBN, the bar code and the
    instant of the return. *)
Theorem X27_historique (st : Etat) :
  (forall (now : Z) (id_neuf matricule isbn : string)
          (code_barre : option string) (duree_jours : Z),
     Forall2 historique_prolonge (utilisateurs st)
       (utilisateurs
          (snd (GestionEmprunt.emprunter now id_neuf matricule isbn code_barre
                  duree_jours st)))) /\
  (forall (now : Z) (id_emprunt : string),
     Forall2 historique_prolonge (utilisateurs st)
       (utilisateurs (snd (GestionEmprunt.retourner now id_emprunt st)))) /\
  (forall matricule : string,
     Forall2 historique_prolonge (utilisateurs st)
       (utilisateurs
          (snd (GestionUtilisateur.desactiver_utilisateur matricule st))) /\
     Forall2 historique_prolonge (utilisateurs st)
       (utilisateurs
          (snd (GestionUtilisateur.activer_utilisateur matricule st)))) /\
  (forall (now : Z) (id_neuf matricule isbn : string)
          (code_barre : option string) (duree_jours : Z) (st' : Etat)
          (emprunt : Emprunt.t),
     GestionEmprunt.emprunter now id_neuf matricule isbn code_barre
       duree_jours st = (Ok emprunt, st') ->
     exists u u' : User.t,
       GestionUtilisateur.get_utilisateur_par_matricule matricule st = Some u /\
       GestionUtilisateur.get_utilisateur_par_matricule matricule st'
       = Some u' /\
       User.historique u'
       = (User.historique u
          ++ [User.ActionEmprunt isbn (Emprunt.code_barre emprunt) now])%list) /\
  (forall (now : Z) (id_emprunt : string) (emprunt0 : Emprunt.t) (u : User.t),
     Dict.get id_emprunt (emprunts st) = Some emprunt0 ->
     Emprunt.date_retour emprunt0 = None ->
     GestionUtilisateur.get_utilisateur_par_matricule
       (Emprunt.matricule_user emprunt0) st = Some u ->
     exists u' : User.t,
       GestionUtilisateur.get_utilisateur_par_matricule
         (Emprunt.matricule_user emprunt0)
         (snd (GestionEmprunt.retourner now id_emprunt st)) = Some u' /\
       User.historique u'
       = (User.historique u
          ++ [User.ActionRetour (Emprunt.isbn emprunt0)
                (Emprunt.code_barre emprunt0) now])%list).
Proof.
  split; [|split; [|split; [|split]]].
  - intros now id_neuf matricule isbn cb d.
    destruct (emprunter_tables now id_neuf matricule isbn cb d st)
      as [(_ & ->)|(ide & _ & ->)].
    + apply forall2_refl, historique_prolonge_refl.
    + apply forall2_maj_premier; [apply historique_prolonge_refl|].
      intros x. split; [reflexivity|]. eexists. reflexivity.
  - intros now id.
    destruct (retourner_tables now id st) as [(_ & ->)|(e0 & _ & ->)].
    + apply forall2_refl, historique_prolonge_refl.
    + apply forall2_maj_premier; [apply historique_prolonge_refl|].
      intros x. split; [reflexivity|]. eexists. reflexivity.
  - intros matricule.
    unfold GestionUtilisateur.desactiver_utilisateur,
      GestionUtilisateur.activer_utilisateur.
    destruct (GestionUtilisateur.get_utilisateur_par_matricule matricule st);
      cbn [snd].
    + split; (apply forall2_maj_premier; [apply historique_prolonge_refl|]);
        intros x; (split; [reflexivity|]); exists []; simpl;
        rewrite app_nil_r; reflexivity.
    + split; apply forall2_refl, historique_prolonge_refl.
  - intros now id_neuf matricule isbn cb d st' emprunt H.
    apply emprunter_inversion in H.
    destruct H as (user & st1 & livre & ex & Hu & Hs & _ & _ & _ & _ & _
                   & He & Heq).
    apply is_suspended_non in Hs. destruct Hs as (_ & _ & Hus & _).
    exists user. eexists. split; [exact Hu|]. split.
    + unfold GestionUtilisateur.get_utilisateur_par_matricule in *.
      rewrite Heq. simpl. rewrite Hus.
      rewrite get_utilisateur_maj by reflexivity. rewrite Hu. reflexivity.
    + rewrite He. reflexivity.
  - intros now id e0 u Hget Hret Hu.
    destruct (retourner_en_cours now id st e0 Hget Hret)
      as (st' & Heq & _ & Hus & _).
    rewrite Heq. cbn [snd]. eexists. split.
    + unfold GestionUtilisateur.get_utilisateur_par_matricule in *.
      rewrite Hus. rewrite get_utilisateur_maj by reflexivity.
      rewrite Hu. reflexivity.
    + reflexivity.
Qed.

Lemma X27_historique_temoin :
  exists u' : User.t,
    GestionUtilisateur.get_utilisateur_par_matricule "U-MMMMMMMM"
      (snd (GestionEmprunt.retourner (Exemple.T0 + Exemple.jours 5)
              "EMP-00000001" Exemple.apres_emprunt)) = Some u' /\
    User.historique u'
    = [User.ActionEmprunt "9780306406157" "00001" Exemple.T0;
       User.ActionRetour "9780306406157" "00001"
         (Exemple.T0 + Exemple.jours 5)].
Proof.
  destruct (proj2 (proj2 (proj2 (proj2 (X27_historique Exemple.apres_emprunt))))
              (Exemple.T0 + Exemple.jours 5) "EMP-00000001"
              (Emprunt.mk "EMP-00000001" "U-MMMMMMMM" "9780306406157" "00001"
                 Exemple.T0 (Exemple.T0 + Exemple.jours 14) None 0)
              (User.enregistrer_emprunt Exemple.T0 "9780306406157" "00001"
                 Exemple.membre))
    as (u' & H1 & H2).
  - vm_compute. reflexivity.
  - reflexivity.
  - vm_compute. reflexivity.
  - exists u'. split; [exact H1 | exact H2].
Defined.

(** X28. [supprimer_utilisateur] returns [False] and changes nothing for a
    matricule that is not registered.  Otherwise it returns [True], there
    is one member less, the other members are found as before, and the
    loans and the reservations of the deleted member stay in their tables.
    When the matricules are pairwise distinct, they still are, nobody is
    found under the deleted matricule, and every later call of [emprunter]
    and, with the member service attached, of [reserver] for that matricule
    raises "member not found" without changing anything. *)
Theorem X28_suppression_de_membre (matricule : string) (st : Etat) :
  (GestionUtilisateur.get_utilisateur_par_matricule matricule st = None ->
   GestionUtilisateur.supprimer_utilisateur matricule st = (false, st)) /\
  (forall u : User.t,
     GestionUtilisateur.get_utilisateur_par_matricule matricule st = Some u ->
     exists st' : Etat,
       GestionUtilisateur.supprimer_utilisateur matricule st = (true, st') /\
       (length (utilisateurs st') + 1 = length (utilisateurs st))%nat /\
       (forall autre : string,
          autre <> matricule ->
          GestionUtilisateur.get_utilisateur_par_matricule autre st'
          = GestionUtilisateur.get_utilisateur_par_matricule autre st) /\
       emprunts st' = emprunts st /\
       reservations st' = reservations st /\
       files st' = files st /\
       livres st' = livres st /\
       (matricules_uniques st ->
        matricules_uniques st' /\
        GestionUtilisateur.get_utilisateur_par_matricule matricule st' = None /\
        (forall (now : Z) (id_neuf isbn : string) (code_barre : option string)
                (duree_jours : Z),
           GestionEmprunt.emprunter now id_neuf matricule isbn code_barre
             duree_jours st' = (Leve UtilisateurIntrouvable, st')) /\
        (reservation_gestion_user (cablage st) = true ->
         forall (now : Z) (id_neuf isbn : string),
           GestionReservation.reserver now id_neuf matricule isbn st'
           = (Leve UtilisateurIntrouvable, st')))).
Proof.
  unfold GestionUtilisateur.supprimer_utilisateur. split.
  - intros ->. reflexivity.
  - intros u Hu. rewrite Hu. eexists. split; [reflexivity|]. simpl.
    unfold GestionUtilisateur.get_utilisateur_par_matricule in *. simpl.
    split; [exact (length_retirer_premier _ _ u Hu)|].
    split; [|repeat split].
    + intros autre Hne. apply find_retirer_premier_autre.
      intros x Hx. unfold GestionUtilisateur.a_matricule in *.
      apply String.eqb_eq in Hx. apply String.eqb_neq. congruence.
    + apply nodup_retirer_premier. exact H.
    + exact (find_retirer_premier_unique User.matricule matricule
               (utilisateurs st) H).
    + intros now id_neuf isbn cb d. unfold GestionEmprunt.emprunter.
      unfold GestionUtilisateur.get_utilisateur_par_matricule. simpl.
      pose proof (find_retirer_premier_unique User.matricule matricule
                    (utilisateurs st) H) as Hnone.
      unfold GestionUtilisateur.a_matricule. rewrite Hnone. reflexivity.
    + intros Hw now id_neuf isbn. unfold GestionReservation.reserver.
      unfold GestionUtilisateur.get_utilisateur_par_matricule. simpl.
      pose proof (find_retirer_premier_unique User.matricule matricule
                    (utilisateurs st) H) as Hnone.
      unfold GestionUtilisateur.a_matricule. rewrite Hnone, Hw. reflexivity.
Qed.

Lemma X28_suppression_de_membre_temoin :
  exists st' : Etat,
    GestionUtilisateur.supprimer_utilisateur "U-MMMMMMMM" Exemple.apres_emprunt
    = (true, st') /\
    emprunts st' = emprunts Exemple.apres_emprunt /\
    GestionEmprunt.emprunter (Exemple.T0 + Exemple.jours 1) "EMP-00000002"
      "U-MMMMMMMM" "9780306406157" None 14 st'
    = (Leve UtilisateurIntrouvable, st').
Proof.
  destruct (proj2 (X28_suppression_de_membre "U-MMMMMMMM" Exemple.apres_emprunt)
              (User.enregistrer_emprunt Exemple.T0 "9780306406157" "00001"
                 Exemple.membre))
    as (st' & H1 & _ & _ & H2 & _ & _ & _ & H3); [vm_compute; reflexivity|].
  exists st'. split; [exact H1|]. split; [exact H2|].
  apply H3. vm_compute. apply NoDup_singleton.
Defined.

(** ** The loans still out *)

Lemma filter_tous {A} (p : A -> bool) (l : list A) :
  (forall x, In x l -> p x = true) -> List.filter p l = l.
Proof.
  induction l as [|x l IH]; simpl; [reflexivity|]. intros H.
  rewrite (H x (or_introl eq_refl)), IH; [reflexivity|].
  intros y Hy. apply H. right. exact Hy.
Qed.

Lemma en_cours_apres_retour (id : string) (e0 e' : Emprunt.t)
    (table : Dict.t Emprunt.t) :
  table_reguliere table ->
  Dict.get id table = Some e0 ->
  absent (Emprunt.date_retour e') = false ->
  List.filter (fun e => absent (Emprunt.date_retour e))
    (Dict.values (Dict.set id e' table))
  = List.filter (fun e => negb (String.eqb (Emprunt.id_emprunt e) id))
      (List.filter (fun e => absent (Emprunt.date_retour e))
         (Dict.values table)).
Proof.
  unfold Dict.values. intros (Hnd & Hreg) Hget He'.
  induction table as [|[k v] table IH]; [discriminate|].
  apply NoDup_cons in Hnd. destruct Hnd as (Hnot & Hnd).
  rewrite list_elem_of_In in Hnot.
  destruct (Hreg k v (or_introl eq_refl)) as (Hk & _).
  simpl in Hget |- *. destruct (String.eqb_spec k id) as [->|Hne].
  - simpl. rewrite He'.
    assert (Hautres :
      List.filter (fun e => negb (String.eqb (Emprunt.id_emprunt e) id))
        (List.filter (fun e => absent (Emprunt.date_retour e)) (map snd table))
      = List.filter (fun e => absent (Emprunt.date_retour e)) (map snd table)).
    { apply filter_tous. intros x Hx. apply filter_In in Hx.
      destruct Hx as (Hx & _). apply in_map_iff in Hx.
      destruct Hx as ([k' x'] & <- & Hin). simpl.
      destruct (Hreg k' x' (or_intror Hin)) as (-> & _).
      apply negb_true_iff, String.eqb_neq. intros ->. apply Hnot.
      apply in_map_iff. exists (id, x'). split; [reflexivity | exact Hin]. }
    destruct (absent (Emprunt.date_retour v)); simpl.
    + rewrite Hk, String.eqb_refl. simpl. symmetry. exact Hautres.
    + symmetry. exact Hautres.
  - simpl. rewrite IH; trivial.
    + destruct (absent (Emprunt.date_retour v)); simpl; [|reflexivity].
      rewrite Hk. destruct (String.eqb_spec k id); [contradiction|].
      reflexivity.
    + intros k' x' Hin. apply Hreg. right. exact Hin.
Qed.

(** X29. The lists of the loans.  [lister_en_retard] lists, among all the
    loans, exactly those still out whose status is "en_retard"; none of
    them can be renewed.  A loan that is granted, under an identifier that
    no loan has yet, comes last in [lister_en_cours], after the loans that
    were there.  When each loan is kept under its own identifier, the
    return of a loan still out takes that loan, and no other, out of
    [lister_en_cours]. *)
Theorem X29_emprunts_en_cours (st : Etat) :
  (forall (now : Z) (e : Emprunt.t),
     (In e (GestionEmprunt.lister_en_retard now st) <->
      In e (GestionEmprunt.lister_tous st) /\
      Emprunt.date_retour e = None /\
      Emprunt.statut now e = Emprunt.en_retard) /\
     (In e (GestionEmprunt.lister_en_retard now st) ->
      Emprunt.peut_renouveler now e = false)) /\
  (forall (now : Z) (id_neuf matricule isbn : string)
          (code_barre : option string) (duree_jours : Z) (st' : Etat)
          (emprunt : Emprunt.t),
     Dict.get id_neuf (emprunts st) = None ->
     GestionEmprunt.emprunter now id_neuf matricule isbn code_barre
       duree_jours st = (Ok emprunt, st') ->
     GestionEmprunt.lister_en_cours st'
     = (GestionEmprunt.lister_en_cours st ++ [emprunt])%list) /\
  (forall (now : Z) (id_emprunt : string) (emprunt0 : Emprunt.t),
     table_reguliere (emprunts st) ->
     Dict.get id_emprunt (emprunts st) = Some emprunt0 ->
     Emprunt.date_retour emprunt0 = None ->
     GestionEmprunt.lister_en_cours
       (snd (GestionEmprunt.retourner now id_emprunt st))
     = List.filter
         (fun e => negb (String.eqb (Emprunt.id_emprunt e) id_emprunt))
         (GestionEmprunt.lister_en_cours st)).
Proof.
  split; [|split].
  - intros now e.
    assert (Hiff :
      In e (GestionEmprunt.lister_en_retard now st) <->
      In e (GestionEmprunt.lister_tous st) /\
      Emprunt.date_retour e = None /\
      Emprunt.statut now e = Emprunt.en_retard).
    { unfold GestionEmprunt.lister_en_retard, GestionEmprunt.lister_en_cours,
        GestionEmprunt.lister_tous, Emprunt.statut.
      rewrite !filter_In.
      destruct (Emprunt.date_retour e) as [r|]; simpl.
      - split; [intros ((_ & H) & _); discriminate
               | intros (_ & H & _); discriminate].
      - destruct (Emprunt.date_echeance e <? now); split.
        + intros ((H & _) & _). repeat split; trivial.
        + intros (H & _). repeat split; trivial.
        + intros (_ & H). discriminate.
        + intros (_ & _ & H). discriminate. }
    split; [exact Hiff|].
    intros Hin. apply Hiff in Hin. destruct Hin as (_ & Hret & Hst).
    unfold Emprunt.peut_renouveler, Emprunt.est_en_retard, Emprunt.statut in *.
    rewrite Hret in *.
    destruct (Emprunt.date_echeance e <? now); [reflexivity | discriminate].
  - intros now id_neuf matricule isbn cb d st' emprunt Hneuf H.
    apply emprunter_inversion in H.
    destruct H as (user & st1 & livre & ex & _ & Hs & _ & _ & _ & _ & _
                   & He & Heq).
    apply is_suspended_non in Hs. destruct Hs as (_ & _ & _ & Hem).
    unfold GestionEmprunt.lister_en_cours. rewrite Heq. simpl. rewrite Hem.
    rewrite (dict_set_absent _ _ _ Hneuf). unfold Dict.values.
    rewrite map_app, List.filter_app. simpl. rewrite He. reflexivity.
  - intros now id e0 Hreg Hget Hret.
    destruct (retourner_en_cours now id st e0 Hget Hret)
      as (st' & Heq & _ & _ & Hem & _).
    rewrite Heq. cbn [snd]. unfold GestionEmprunt.lister_en_cours.
    rewrite Hem. apply (en_cours_apres_retour id e0); trivial.
Qed.

Lemma X29_emprunts_en_cours_temoin :
  GestionEmprunt.lister_en_cours Exemple.apres_emprunt
  = [Emprunt.mk "EMP-00000001" "U-MMMMMMMM" "9780306406157" "00001"
       Exemple.T0 (Exemple.T0 + Exemple.jours 14) None 0] /\
  GestionEmprunt.lister_en_cours
    (snd (GestionEmprunt.retourner (Exemple.T0 + Exemple.jours 5)
            "EMP-00000001" Exemple.apres_emprunt)) = [].
Proof.
  split.
  - rewrite (proj1 (proj2 (X29_emprunts_en_cours Exemple.ouverture)) Exemple.T0
               "EMP-00000001" "U-MMMMMMMM" "9780306406157" None 14
               Exemple.apres_emprunt
               (Emprunt.mk "EMP-00000001" "U-MMMMMMMM" "9780306406157" "00001"
                  Exemple.T0 (Exemple.T0 + Exemple.jours 14) None 0)).
    + reflexivity.
    + reflexivity.
    + vm_compute. reflexivity.
  - rewrite (proj2 (proj2 (X29_emprunts_en_cours Exemple.apres_emprunt))
               (Exemple.T0 + Exemple.jours 5) "EMP-00000001"
               (Emprunt.mk "EMP-00000001" "U-MMMMMMMM" "9780306406157" "00001"
                  Exemple.T0 (Exemple.T0 + Exemple.jours 14) None 0)).
    + vm_compute. reflexivity.
    + split.
      * vm_compute. apply NoDup_singleton.
      * intros id e [H|[]]. vm_compute in H. injection H as <- <-.
        split; reflexivity.
    + vm_compute. reflexivity.
    + reflexivity.
Defined.

(** ** The suspensions in force *)

(** X30. [lister_suspensions] and the test made before a loan agree: the
    table returned holds exactly the members that [__is_suspended] finds
    suspended at that instant, each with the same end, which is after the
    instant; a loan asked at that instant, or later and before the end, by
    a registered member of the table is refused as "member suspended"; and
    the pruning loses nothing that a later listing would have shown.
    Nothing but the suspension table is written. *)
Theorem X30_suspensions_en_vigueur (now : Z) (st : Etat) :
  let table := fst (GestionEmprunt.lister_suspensions now st) in
  let st' := snd (GestionEmprunt.lister_suspensions now st) in
  (forall (matricule : string) (iso : Temps.Iso),
     table !! matricule = Some iso <->
     fst (GestionEmprunt.is_suspended now matricule st) = Some iso) /\
  (forall (matricule : string) (iso : Temps.Iso),
     table !! matricule = Some iso -> now < Temps.fromisoformat iso) /\
  (forall (matricule : string) (iso : Temps.Iso) (now' : Z)
          (id_neuf isbn : string) (code_barre : option string)
          (duree_jours : Z),
     table !! matricule = Some iso ->
     is_Some (GestionUtilisateur.get_utilisateur_par_matricule matricule st) ->
     now <= now' < Temps.fromisoformat iso ->
     GestionEmprunt.emprunter now' id_neuf matricule isbn code_barre
       duree_jours st' = (Leve UtilisateurSuspendu, st')) /\
  (forall now' : Z,
     now <= now' ->
     fst (GestionEmprunt.lister_suspensions now' st')
     = fst (GestionEmprunt.lister_suspensions now' st)) /\
  suspensions st' = table /\
  livres st' = livres st /\ utilisateurs st' = utilisateurs st /\
  emprunts st' = emprunts st /\ reservations st' = reservations st /\
  files st' = files st /\ fichier_emprunts st' = fichier_emprunts st.
Proof.
  cbv zeta. unfold GestionEmprunt.lister_suspensions.
  cbv zeta. cbn [fst snd].
  change (suspensions (GestionEmprunt.nettoyer_suspensions now st))
    with (filter (GestionEmprunt.en_vigueur now) (suspensions st)).
  split; [|split; [|split; [|split]]].
  - intros m iso. rewrite lookup_nettoyees.
    unfold GestionEmprunt.is_suspended.
    destruct (suspensions st !! m) as [iso'|]; [|tauto].
    destruct (now <? Temps.fromisoformat iso'); tauto.
  - intros m iso H. apply map_lookup_filter_Some in H.
    destruct H as (_ & H). exact H.
  - intros m iso now' id_neuf isbn cb d H Hu Hnow.
    apply emprunter_suspendu with (iso := iso).
    + exact Hu.
    + exact H.
    + lia.
  - intros now' Hle. exact (en_vigueur_plus_tard now now' _ Hle).
  - repeat split.
Qed.

Lemma X30_suspensions_en_vigueur_temoin :
  GestionEmprunt.emprunter (Exemple.T0 + Exemple.jours 10) "EMP-00000002"
    "U-MMMMMMMM" "9780306406157" None 14
    (snd (GestionEmprunt.lister_suspensions (Exemple.T0 + Exemple.jours 1)
            Exemple.notifie_et_suspendu))
  = (Leve UtilisateurSuspendu,
     snd (GestionEmprunt.lister_suspensions (Exemple.T0 + Exemple.jours 1)
            Exemple.notifie_et_suspendu)).
Proof.
  apply (proj1 (proj2 (proj2 (X30_suspensions_en_vigueur
                                (Exemple.T0 + Exemple.jours 1)
                                Exemple.notifie_et_suspendu)))
           "U-MMMMMMMM" (Temps.isoformat (Exemple.T0 + Exemple.jours 30))).
  - vm_compute. reflexivity.
  - eexists. vm_compute. reflexivity.
  - vm_compute. split; [discriminate | reflexivity].
Defined.
